(** * Structured logging of the frontend and backend services

    A shallow embedding of the two pieces of logic shared by
    [app/src/backend/main.py] and [app/src/frontend/main.py]:

    - [parse_resource_attributes], the parser of the
      [OTEL_RESOURCE_ATTRIBUTES] configuration string, and
    - [JsonFormatter.format], which turns a [logging.LogRecord] into one
      line of JSON.

    Python values are modelled as follows.  A [str] is a [string]; its
    characters stand for the code points below 256.  A [dict] that is only
    looked up is a [gmap]; a [dict] whose order is observable (the payload
    handed to [json.dumps], the [__dict__] of a record) is an association
    list with distinct keys.  Code that can raise returns a [result]. *)

From Stdlib Require Import Ascii ZArith QArith Qround.
From stdpp Require Import base option list strings pretty gmap.

Local Close Scope Q_scope.
Local Open Scope Z_scope.

(** ** Exceptions *)

Inductive exn : Type :=
| AttributeError
| KeyError
| TypeError
| ValueError.

Inductive result (A : Type) : Type :=
| Ok (a : A)
| Raise (e : exn).

Arguments Ok {A} a.
Arguments Raise {A} e.

Global Instance result_ret : MRet result := fun _ a => Ok a.
Global Instance result_bind : MBind result := fun _ _ f m =>
  match m with
  | Ok a => f a
  | Raise e => Raise e
  end.

(** A [for] loop whose body may raise; [continue] is a body that returns
    the state unchanged. *)
Fixpoint for_each {S A : Type} (body : S → A → result S) (s : S) (l : list A)
  : result S :=
  match l with
  | [] => Ok s
  | x :: l' => s' ← body s x; for_each body s' l'
  end.

(** ** Built-in methods of [str] *)

Module Str.

(** [str.isspace] on one character: the white space of Unicode below
    code point 256 is TAB..CR, FS..US, the space, NEL and the no-break
    space. *)
Definition isspace (c : ascii) : bool :=
  let n := N_of_ascii c in
  ((9 <=? n) && (n <=? 13) || (28 <=? n) && (n <=? 32)
   || (n =? 133) || (n =? 160))%N.

Fixpoint lstrip (s : string) : string :=
  match s with
  | "" => ""
  | String c s' => if isspace c then lstrip s' else s
  end.

Fixpoint rstrip (s : string) : string :=
  match s with
  | "" => ""
  | String c s' =>
      match rstrip s' with
      | "" => if isspace c then "" else String c ""
      | r => String c r
      end
  end.

(** [s.strip()] *)
Definition strip (s : string) : string := lstrip (rstrip s).

(** [sep in s] for a separator of one character *)
Fixpoint contains (sep : ascii) (s : string) : bool :=
  match s with
  | "" => false
  | String c s' => Ascii.eqb c sep || contains sep s'
  end.

(** [s.split(sep)] for a separator of one character: a string with [n]
    separators gives [n + 1] pieces. *)
Fixpoint split (sep : ascii) (s : string) : list string :=
  match s with
  | "" => [""]
  | String c s' =>
      if Ascii.eqb c sep then "" :: split sep s'
      else match split sep s' with
           | p :: ps => String c p :: ps
           | [] => [String c ""]
           end
  end.

(** [s.split(sep, 1)]: at most one cut, at the first separator. *)
Fixpoint split_once (sep : ascii) (s : string) : list string :=
  match s with
  | "" => [""]
  | String c s' =>
      if Ascii.eqb c sep then [""; s']
      else match split_once sep s' with
           | p :: ps => String c p :: ps
           | [] => [String c ""]
           end
  end.

(** [s.startswith(p)] *)
Fixpoint startswith (p s : string) : bool :=
  match p, s with
  | "", _ => true
  | String a p', String b s' => Ascii.eqb a b && startswith p' s'
  | String _ _, "" => false
  end.

(** [sep.join(l)] *)
Fixpoint join (sep : string) (l : list string) : string :=
  match l with
  | [] => ""
  | [x] => x
  | x :: l' => x +:+ sep +:+ join sep l'
  end.

End Str.

(** [a, b = l]: unpacking into two targets raises [ValueError] unless the
    list has exactly two items. *)
Definition unpack2 {A : Type} (l : list A) : result (A * A) :=
  match l with
  | [a; b] => Ok (a, b)
  | _ => Raise ValueError
  end.

(** [os.getenv(name, default)] *)
Definition getenv (environ : gmap string string) (name default : string)
  : string :=
  match environ !! name with
  | Some v => v
  | None => default
  end.

(** ** [parse_resource_attributes] *)

Module Backend.

(** The body of the loop of lines 65-70 of [backend/main.py]. *)
Definition parse_part (attrs : gmap string string) (part : string)
  : result (gmap string string) :=
  let part := Str.strip part in
  if String.eqb part "" || negb (Str.contains "=" part) then Ok attrs
  else
    '(key, value) ← unpack2 (Str.split_once "=" part);
    Ok (<[Str.strip key := Str.strip value]> attrs).

Definition parse_resource_attributes (raw : string)
  : result (gmap string string) :=
  let attrs : gmap string string := ∅ in
  if String.eqb raw "" then Ok attrs
  else for_each parse_part attrs (Str.split "," raw).

(** Line 74: the module-level constant, computed once from the
    environment the module is loaded in. *)
Definition RESOURCE_ATTRS (environ : gmap string string)
  : result (gmap string string) :=
  parse_resource_attributes (getenv environ "OTEL_RESOURCE_ATTRIBUTES" "").

End Backend.

Module Frontend.

(** The body of the loop of lines 63-68 of [frontend/main.py]. *)
Definition parse_part (attrs : gmap string string) (part : string)
  : result (gmap string string) :=
  let part := Str.strip part in
  if String.eqb part "" || negb (Str.contains "=" part) then Ok attrs
  else
    '(key, value) ← unpack2 (Str.split_once "=" part);
    Ok (<[Str.strip key := Str.strip value]> attrs).

Definition parse_resource_attributes (raw : string)
  : result (gmap string string) :=
  let attrs : gmap string string := ∅ in
  if String.eqb raw "" then Ok attrs
  else for_each parse_part attrs (Str.split "," raw).

(** Line 72 *)
Definition RESOURCE_ATTRS (environ : gmap string string)
  : result (gmap string string) :=
  parse_resource_attributes (getenv environ "OTEL_RESOURCE_ATTRIBUTES" "").

End Frontend.

(** The parser as the specification words it: a pipeline over the
    segments of the string, to be compared with the code. *)

Module Spec.

(** The text before, and after, the first occurrence of [sep]. *)
Fixpoint before_first (sep : ascii) (s : string) : string :=
  match s with
  | "" => ""
  | String c s' => if Ascii.eqb c sep then "" else String c (before_first sep s')
  end.

Fixpoint after_first (sep : ascii) (s : string) : string :=
  match s with
  | "" => ""
  | String c s' => if Ascii.eqb c sep then s' else after_first sep s'
  end.

(** A trimmed segment is kept when it is not empty and has an [=]. *)
Definition well_formed (segment : string) : bool :=
  negb (String.eqb segment "") && Str.contains "=" segment.

(** Cut at the first [=] only, and trim both sides again. *)
Definition attribute_of (segment : string) : string * string :=
  (Str.strip (before_first "=" segment), Str.strip (after_first "=" segment)).

Definition segments (raw : string) : list string :=
  filter (λ segment, Is_true (well_formed segment))
         (Str.strip <$> Str.split "," raw).

(** Attributes are entered from left to right: a later one overwrites. *)
Definition enter (attrs : gmap string string) (kv : string * string)
  : gmap string string :=
  <[kv.1 := kv.2]> attrs.

Definition parse (raw : string) : gmap string string :=
  foldl enter ∅ (attribute_of <$> segments raw).

End Spec.

(** ** Python values

    The values an attribute of a log record can hold.  A [float] is the
    rational it denotes, a [dict] has keys of type [str] and keeps the
    order of insertion; [PyObject] is any other object (an exception, a
    traceback, ...), of which only the identity is kept. *)

#[warnings="-register-all"] Inductive pyvalue : Type :=
| PyNone
| PyBool (b : bool)
| PyInt (z : Z)
| PyStr (s : string)
| PyFloat (q : Q)
| PyTuple (items : list pyvalue)
| PyList (items : list pyvalue)
| PyDict (items : list (string * pyvalue))
| PyObject (id : positive).

(** [bool(v)], the test applied by [if v] and [v or w] *)
Definition truthy (v : pyvalue) : bool :=
  match v with
  | PyNone => false
  | PyBool b => b
  | PyInt z => negb (z =? 0)
  | PyStr s => negb (String.eqb s "")
  | PyFloat q => negb (Qnum q =? 0)
  | PyTuple items | PyList items => match items with [] => false | _ => true end
  | PyDict items => match items with [] => false | _ => true end
  | PyObject _ => true
  end.

(** [a or b] *)
Definition py_or (a b : pyvalue) : pyvalue := if truthy a then a else b.

(** ** Dictionaries in insertion order *)

Definition dict (V : Type) : Type := list (string * V).

Module Dict.
Section Ops.
Context {V : Type}.

(** [key in d] *)
Fixpoint contains (key : string) (d : dict V) : bool :=
  match d with
  | [] => false
  | (k, _) :: d' => String.eqb k key || contains key d'
  end.

(** [d.get(key)] *)
Fixpoint get (key : string) (d : dict V) : option V :=
  match d with
  | [] => None
  | (k, v) :: d' => if String.eqb k key then Some v else get key d'
  end.

(** [d[key] = value]: a key already there keeps its place, a new key
    goes to the end. *)
Fixpoint set (key : string) (value : V) (d : dict V) : dict V :=
  match d with
  | [] => [(key, value)]
  | (k, v) :: d' =>
      if String.eqb k key then (k, value) :: d'
      else (k, v) :: set key value d'
  end.

Definition keys (d : dict V) : list string := d.*1.
End Ops.
End Dict.

(** [key in (a, b, ...)] for a tuple of strings *)
Definition in_tuple (key : string) (t : list string) : bool :=
  existsb (String.eqb key) t.

(** ** The [time] module *)

(** [time.struct_time]: broken-down time, whole seconds only. *)
Record struct_time : Type := mk_struct_time {
  tm_year : Z;
  tm_mon : Z;
  tm_mday : Z;
  tm_hour : Z;
  tm_min : Z;
  tm_sec : Z;
  tm_wday : Z;
  tm_yday : Z;
  tm_isdst : Z
}.

(** The argument of [time.localtime]: [None] stands for the current time,
    a number is cut down to whole seconds. *)
Definition time_arg (v : pyvalue) : result (option Z) :=
  match v with
  | PyNone => Ok None
  | PyBool b => Ok (Some (Z.b2z b))
  | PyInt z => Ok (Some z)
  | PyFloat q => Ok (Some (Qfloor q))
  | _ => Raise TypeError
  end.

(** A number in at least two decimal digits *)
Definition two_digits (n : Z) : string :=
  if n <? 10 then "0" +:+ pretty n else pretty n.

(** One conversion of [time.strftime], which hands the format to the C
    library.  [%Y %m %d %H %M %S] and [%%] are the conversions modelled;
    any other character is taken as one that is no conversion of C's
    [strftime], which the GNU C library copies through together with its
    [%].  That is the case of [%f]: microseconds are a directive of
    [datetime.strftime] and of [time.strptime] only. *)
Definition strftime_conversion (c : ascii) (t : struct_time) : string :=
  match c with
  | "Y"%char => pretty (tm_year t)
  | "m"%char => two_digits (tm_mon t)
  | "d"%char => two_digits (tm_mday t)
  | "H"%char => two_digits (tm_hour t)
  | "M"%char => two_digits (tm_min t)
  | "S"%char => two_digits (tm_sec t)
  | "%"%char => "%"
  | _ => String "%" (String c "")
  end.

(** [time.strftime(format, t)] *)
Fixpoint strftime (format : string) (t : struct_time) : string :=
  match format with
  | "" => ""
  | String "%" (String c rest) => strftime_conversion c t +:+ strftime rest t
  | String c rest => String c (strftime rest t)
  end.

(** [time.gmtime] on whole seconds since the epoch: the [time.localtime]
    of a process whose time zone is UTC. *)
Definition is_leap (y : Z) : bool :=
  (y mod 4 =? 0) && (negb (y mod 100 =? 0) || (y mod 400 =? 0)).

Definition civil_from_days (days : Z) : Z * Z * Z :=
  let z := days + 719468 in
  let era := z / 146097 in
  let doe := z - era * 146097 in
  let yoe := (doe - doe / 1460 + doe / 36524 - doe / 146096) / 365 in
  let doy := doe - (365 * yoe + yoe / 4 - yoe / 100) in
  let mp := (5 * doy + 2) / 153 in
  let d := doy - (153 * mp + 2) / 5 + 1 in
  let m := if mp <? 10 then mp + 3 else mp - 9 in
  let y := yoe + era * 400 + (if m <=? 2 then 1 else 0) in
  (y, m, d).

Definition days_before_month (y m : Z) : Z :=
  (367 * m - 362) / 12
  - (if m <=? 2 then 0 else if is_leap y then 1 else 2).

Definition gmtime (secs : Z) : struct_time :=
  let days := secs / 86400 in
  let rest := secs mod 86400 in
  let '(y, m, d) := civil_from_days days in
  {| tm_year := y; tm_mon := m; tm_mday := d;
     tm_hour := rest / 3600; tm_min := rest mod 3600 / 60;
     tm_sec := rest mod 60;
     tm_wday := (days + 3) mod 7;
     tm_yday := days_before_month y m + d;
     tm_isdst := 0 |}.

(** ** [logging.LogRecord] *)

(** A record is the dictionary of its attributes, [record.__dict__]. *)
Definition LogRecord : Type := dict pyvalue.

(** [record.name]: reading an attribute that is not there raises. *)
Definition attribute (record : LogRecord) (name : string) : result pyvalue :=
  match Dict.get name record with
  | Some v => Ok v
  | None => Raise AttributeError
  end.

(** [getattr(record, name, default)] *)
Definition getattr (record : LogRecord) (name : string) (default : pyvalue)
  : pyvalue :=
  match Dict.get name record with
  | Some v => v
  | None => default
  end.

(** The attributes [LogRecord.__init__] sets, in the order it sets them
    (up to Python 3.11; later versions add [taskName]). *)
Record log_call : Type := mk_log_call {
  lc_name : string;
  lc_msg : pyvalue;
  lc_args : pyvalue;
  lc_levelname : string;
  lc_levelno : Z;
  lc_pathname : string;
  lc_filename : string;
  lc_module : string;
  lc_exc_info : pyvalue;
  lc_stack_info : pyvalue;
  lc_lineno : Z;
  lc_funcName : pyvalue;
  lc_created : Q;
  lc_msecs : Q;
  lc_relativeCreated : Q;
  lc_thread : pyvalue;
  lc_threadName : pyvalue;
  lc_processName : pyvalue;
  lc_process : pyvalue
}.

Definition LogRecord_init (c : log_call) : LogRecord :=
  [ ("name", PyStr (lc_name c));
    ("msg", lc_msg c);
    ("args", lc_args c);
    ("levelname", PyStr (lc_levelname c));
    ("levelno", PyInt (lc_levelno c));
    ("pathname", PyStr (lc_pathname c));
    ("filename", PyStr (lc_filename c));
    ("module", PyStr (lc_module c));
    ("exc_info", lc_exc_info c);
    ("exc_text", PyNone);
    ("stack_info", lc_stack_info c);
    ("lineno", PyInt (lc_lineno c));
    ("funcName", lc_funcName c);
    ("created", PyFloat (lc_created c));
    ("msecs", PyFloat (lc_msecs c));
    ("relativeCreated", PyFloat (lc_relativeCreated c));
    ("thread", lc_thread c);
    ("threadName", lc_threadName c);
    ("processName", lc_processName c);
    ("process", lc_process c) ].

(** The loop of [Logger.makeRecord] over the [extra] mapping of a logging
    call: [extra] may neither name [message] or [asctime] nor overwrite an
    attribute of the record. *)
Definition add_extra (record : LogRecord) (item : string * pyvalue)
  : result LogRecord :=
  let '(key, value) := item in
  if in_tuple key ["message"; "asctime"] || Dict.contains key record
  then Raise KeyError
  else Ok (Dict.set key value record).

Definition makeRecord (c : log_call) (extra : dict pyvalue)
  : result LogRecord :=
  for_each add_extra (LogRecord_init c) extra.

(** ** The [json] module

    [json.dumps] with its default settings ([ensure_ascii], separators
    [", "] and [": "]) and [json.loads] ([strict]), on the values above. *)

Definition quote : ascii := "034"%char.

Definition hex_digit (n : N) : ascii :=
  match n with
  | 0 => "0" | 1 => "1" | 2 => "2" | 3 => "3" | 4 => "4" | 5 => "5"
  | 6 => "6" | 7 => "7" | 8 => "8" | 9 => "9" | 10 => "a" | 11 => "b"
  | 12 => "c" | 13 => "d" | 14 => "e" | _ => "f"
  end%N%char.

(** What the encoder writes for one character of a string. *)
Definition json_escape (c : ascii) : string :=
  let n := N_of_ascii c in
  if Ascii.eqb c quote then String "\" (String quote "")
  else if Ascii.eqb c "\" then "\\"
  else if (n =? 10)%N then "\n"
  else if (n =? 13)%N then "\r"
  else if (n =? 9)%N then "\t"
  else if (n =? 8)%N then "\b"
  else if (n =? 12)%N then "\f"
  else if ((32 <=? n) && (n <=? 126))%N then String c ""
  else "\u00" +:+ String (hex_digit (n / 16)) (String (hex_digit (n mod 16)) "").

Fixpoint json_escape_all (s : string) : string :=
  match s with
  | "" => ""
  | String c s' => json_escape c +:+ json_escape_all s'
  end.

Definition json_string (s : string) : string :=
  String quote (json_escape_all s +:+ String quote "").

(** [[f(x) for x in l]] for an [f] that may raise *)
Definition for_all {A B : Type} (f : A → result B) : list A → result (list B) :=
  fix go (l : list A) : result (list B) :=
    match l with
    | [] => Ok []
    | x :: l' => y ← f x; ys ← go l'; Ok (y :: ys)
    end.

Section JsonEncoder.

(** [float.__repr__], the shortest decimal text that reads back as the
    same float. *)
Variable float_repr : Q → string.

Fixpoint json_encode (v : pyvalue) : result string :=
  match v with
  | PyNone => Ok "null"
  | PyBool true => Ok "true"
  | PyBool false => Ok "false"
  | PyInt z => Ok (pretty z)
  | PyStr s => Ok (json_string s)
  | PyFloat q => Ok (float_repr q)
  | PyTuple items | PyList items =>
      texts ← for_all json_encode items;
      Ok ("[" +:+ Str.join ", " texts +:+ "]")
  | PyDict items =>
      texts ← for_all (λ item : string * pyvalue,
                         let '(key, value) := item in
                         text ← json_encode value;
                         Ok (json_string key +:+ ": " +:+ text)) items;
      Ok ("{" +:+ Str.join ", " texts +:+ "}")
  | PyObject _ => Raise TypeError
  end.

(** [json.dumps(payload)] for a dictionary *)
Definition json_dumps (payload : dict pyvalue) : result string :=
  json_encode (PyDict payload).

End JsonEncoder.

(** The decoder.  A number with a fraction or an exponent is a [float],
    which this decoder does not produce: such a text is outside the model
    and refused.  An escape [\uXXXX] is decoded below code point 256. *)

Definition is_json_space (c : ascii) : bool :=
  let n := N_of_ascii c in ((n =? 32) || (n =? 9) || (n =? 10) || (n =? 13))%N.

Fixpoint skip_space (s : string) : string :=
  match s with
  | "" => ""
  | String c s' => if is_json_space c then skip_space s' else s
  end.

(** The next character is [c]; the text after the next character. *)
Definition head_is (c : ascii) (s : string) : bool :=
  match s with
  | "" => false
  | String a _ => Ascii.eqb a c
  end.

Definition tail (s : string) : string :=
  match s with
  | "" => ""
  | String _ s' => s'
  end.

Definition hex_value (c : ascii) : option N :=
  let n := N_of_ascii c in
  if ((48 <=? n) && (n <=? 57))%N then Some (n - 48)%N
  else if ((97 <=? n) && (n <=? 102))%N then Some (n - 87)%N
  else if ((65 <=? n) && (n <=? 70))%N then Some (n - 55)%N
  else None.

Definition unescape (c : ascii) : option ascii :=
  if Ascii.eqb c quote then Some quote
  else if Ascii.eqb c "\" then Some "\"%char
  else if Ascii.eqb c "/" then Some "/"%char
  else if Ascii.eqb c "b" then Some "008"%char
  else if Ascii.eqb c "f" then Some "012"%char
  else if Ascii.eqb c "n" then Some "010"%char
  else if Ascii.eqb c "r" then Some "013"%char
  else if Ascii.eqb c "t" then Some "009"%char
  else None.

(** The text of a string after its opening quote, up to the closing one. *)
Fixpoint scan_string (s : string) : option (string * string) :=
  match s with
  | "" => None
  | String c rest =>
      if Ascii.eqb c quote then Some ("", rest)
      else if Ascii.eqb c "\" then
        match rest with
        | String "u" (String h3 (String h2 (String h1 (String h0 rest')))) =>
            d3 ← hex_value h3; d2 ← hex_value h2;
            d1 ← hex_value h1; d0 ← hex_value h0;
            let code := (((d3 * 16 + d2) * 16 + d1) * 16 + d0)%N in
            if (code <? 256)%N then
              '(text, rest'') ← scan_string rest';
              Some (String (ascii_of_N code) text, rest'')
            else None
        | String e rest' =>
            ch ← unescape e;
            '(text, rest'') ← scan_string rest';
            Some (String ch text, rest'')
        | "" => None
        end
      else if (N_of_ascii c <? 32)%N then None
      else '(text, rest') ← scan_string rest; Some (String c text, rest')
  end.

Definition digit_value (c : ascii) : option Z :=
  let n := N_of_ascii c in
  if ((48 <=? n) && (n <=? 57))%N then Some (Z.of_N n - 48) else None.

Fixpoint scan_digits (acc : Z) (s : string) : Z * string :=
  match s with
  | "" => (acc, "")
  | String c rest =>
      match digit_value c with
      | Some d => scan_digits (10 * acc + d) rest
      | None => (acc, s)
      end
  end.

(** [0], or a digit other than [0] followed by digits *)
Definition scan_natural (s : string) : option (Z * string) :=
  match s with
  | "" => None
  | String c rest =>
      d ← digit_value c;
      if d =? 0 then Some (0, rest) else Some (scan_digits d rest)
  end.

Definition starts_fraction (s : string) : bool :=
  head_is "." s || head_is "e" s || head_is "E" s.

Definition scan_integer (s : string) : option (Z * string) :=
  '(n, rest) ← (if head_is "-" s
                then '(n, rest) ← scan_natural (tail s); Some (- n, rest)
                else scan_natural s);
  if starts_fraction rest then None else Some (n, rest).

(** The rest of [s] after the prefix [p], when [s] starts with [p]. *)
Fixpoint after_prefix (p s : string) : option string :=
  match p, s with
  | "", _ => Some s
  | String a p', String b s' =>
      if Ascii.eqb a b then after_prefix p' s' else None
  | String _ _, "" => None
  end.

Definition scan_literal (literal : string) (v : pyvalue) (s : string)
  : option (pyvalue * string) :=
  rest ← after_prefix literal s; Some (v, rest).

(** One value at the start of [s], and the text after it.  [fuel] bounds
    the depth of the calls. *)
Fixpoint scan_value (fuel : nat) (s : string) : option (pyvalue * string) :=
  match fuel with
  | O => None
  | S fuel =>
      if head_is quote s then
        '(text, rest) ← scan_string (tail s); Some (PyStr text, rest)
      else if head_is "{" s then
        let rest := skip_space (tail s) in
        if head_is "}" rest then Some (PyDict [], tail rest)
        else scan_members fuel rest []
      else if head_is "[" s then
        let rest := skip_space (tail s) in
        if head_is "]" rest then Some (PyList [], tail rest)
        else scan_elements fuel rest []
      else if head_is "n" s then scan_literal "null" PyNone s
      else if head_is "t" s then scan_literal "true" (PyBool true) s
      else if head_is "f" s then scan_literal "false" (PyBool false) s
      else '(n, rest) ← scan_integer s; Some (PyInt n, rest)
  end
with scan_elements (fuel : nat) (s : string) (acc : list pyvalue)
  : option (pyvalue * string) :=
  match fuel with
  | O => None
  | S fuel =>
      '(v, rest) ← scan_value fuel s;
      let rest := skip_space rest in
      if head_is "," rest
      then scan_elements fuel (skip_space (tail rest)) (acc ++ [v])
      else if head_is "]" rest then Some (PyList (acc ++ [v]), tail rest)
      else None
  end
with scan_members (fuel : nat) (s : string) (acc : dict pyvalue)
  : option (pyvalue * string) :=
  match fuel with
  | O => None
  | S fuel =>
      if head_is quote s then
        '(key, rest) ← scan_string (tail s);
        let rest := skip_space rest in
        if head_is ":" rest then
          '(v, rest) ← scan_value fuel (skip_space (tail rest));
          let acc := Dict.set key v acc in
          let rest := skip_space rest in
          if head_is "," rest
          then scan_members fuel (skip_space (tail rest)) acc
          else if head_is "}" rest then Some (PyDict acc, tail rest)
          else None
        else None
      else None
  end.

(** [json.loads(s)]; a text that is no JSON document raises
    [JSONDecodeError], a [ValueError]. *)
Definition json_loads (s : string) : result pyvalue :=
  match scan_value (2 * String.length s) (skip_space s) with
  | Some (v, rest) =>
      if String.eqb (skip_space rest) "" then Ok v else Raise ValueError
  | None => Raise ValueError
  end.

(** What [json.loads] makes of the text of a value: a tuple comes back as
    a list. *)
Fixpoint decoded (v : pyvalue) : pyvalue :=
  match v with
  | PyTuple items | PyList items => PyList (decoded <$> items)
  | PyDict items =>
      PyDict ((λ item : string * pyvalue,
                 let '(key, value) := item in (key, decoded value)) <$> items)
  | _ => v
  end.

(** The values this model encodes and decodes again: no [float], and
    dictionaries with distinct keys, as every [dict] has. *)
Fixpoint plain (v : pyvalue) : bool :=
  match v with
  | PyFloat _ => false
  | PyTuple items | PyList items => forallb plain items
  | PyDict items =>
      bool_decide (NoDup items.*1)
      && forallb (λ item : string * pyvalue, let '(_, value) := item in
                                             plain value) items
  | _ => true
  end.

(** A value in a document is followed by the end of the text or by one of
    [,], [\]] and [}]. *)
Definition delimited (rest : string) : bool :=
  String.eqb rest "" || head_is "," rest || head_is "]" rest
  || head_is "}" rest.

(** The text of a value starts with a character that is neither white
    space nor [\]]. *)
Definition value_start (s : string) : bool :=
  match s with
  | "" => false
  | String c _ => negb (is_json_space c) && negb (Ascii.eqb c "]")
  end.

(** Decoding the text of [v], followed by any delimited [rest], with
    enough fuel gives [v] back and leaves [rest]. *)
Definition decodes (float_repr : Q → string) (v : pyvalue) : Prop :=
  ∀ text, json_encode float_repr v = Ok text → plain v = true →
  ∀ fuel rest, delimited rest = true →
    (2 * String.length text ≤ fuel)%nat →
    scan_value fuel (text +:+ rest) = Some (decoded v, rest).

(** ** [JsonFormatter] *)

(** The twelve keys of the dictionary literal of [format]. *)
Definition fixed_field_names : list string :=
  [ "@timestamp"; "log.level"; "message"; "logger.name"; "trace.id";
    "span.id"; "service.name"; "service.version"; "service.namespace";
    "deployment.environment"; "host.name"; "event.dataset" ].

(** The tuple of attribute names of lines 97-99 of [backend/main.py]
    (95-97 of [frontend/main.py]). *)
Definition excluded_attributes : list string :=
  [ "args"; "msg"; "levelname"; "levelno"; "pathname"; "filename"; "module";
    "exc_info"; "exc_text"; "stack_info"; "lineno"; "funcName"; "created";
    "msecs"; "relativeCreated"; "thread"; "threadName"; "processName";
    "process" ].

Section JsonFormatter.

(** The literal that tells the two services apart: ["backend"] or
    ["frontend"], the default of [OTEL_SERVICE_NAME]. *)
Variable default_service_name : string.

(** The state of the process: [os.environ], and the module-level constant
    [RESOURCE_ATTRS] computed when the module was loaded. *)
Variable environ : gmap string string.
Variable RESOURCE_ATTRS : gmap string string.

(** What the interpreter and its library supply: the converter of
    [logging.Formatter] ([time.localtime], which depends on the time zone
    and, for [None], on the clock), [str()] of a value that is no [None],
    [bool], [int] or [str], and the [%] operator of [str]. *)
Variable localtime : option Z → struct_time.
Variable str_other : pyvalue → string.
Variable str_mod : string → pyvalue → result string.

(** [str(v)], also what an f-string puts for [{v}] *)
Definition py_str (v : pyvalue) : string :=
  match v with
  | PyNone => "None"
  | PyBool true => "True"
  | PyBool false => "False"
  | PyInt z => pretty z
  | PyStr s => s
  | _ => str_other v
  end.

(** [Formatter.formatTime(record, datefmt)] for a [datefmt] that is not
    empty: [time.strftime(datefmt, self.converter(record.created))]. *)
Definition formatTime (record : LogRecord) (datefmt : string)
  : result string :=
  created ← attribute record "created";
  secs ← time_arg created;
  Ok (strftime datefmt (localtime secs)).

(** [record.getMessage()] *)
Definition getMessage (record : LogRecord) : result string :=
  msg ← attribute record "msg";
  args ← attribute record "args";
  let msg := py_str msg in
  if truthy args then str_mod msg args else Ok msg.

(** Line 79: the service name of the record. *)
Definition service_name_of (record : LogRecord) : pyvalue :=
  py_or (getattr record "otelServiceName" (PyStr ""))
        (PyStr (getenv environ "OTEL_SERVICE_NAME" default_service_name)).

(** Lines 80-93: the dictionary literal. *)
Definition fixed_fields (record : LogRecord) : result (dict pyvalue) :=
  let service_name := service_name_of record in
  timestamp ← formatTime record "%Y-%m-%dT%H:%M:%S.%fZ";
  levelname ← attribute record "levelname";
  message ← getMessage record;
  name ← attribute record "name";
  Ok [ ("@timestamp", PyStr timestamp);
       ("log.level", levelname);
       ("message", PyStr message);
       ("logger.name", name);
       ("trace.id", getattr record "otelTraceID" (PyStr ""));
       ("span.id", getattr record "otelSpanID" (PyStr ""));
       ("service.name", service_name);
       ("service.version",
         PyStr (default "" (RESOURCE_ATTRS !! "service.version")));
       ("service.namespace",
         PyStr (default "" (RESOURCE_ATTRS !! "service.namespace")));
       ("deployment.environment",
         PyStr (default "" (RESOURCE_ATTRS !! "deployment.environment")));
       ("host.name", PyStr (getenv environ "HOSTNAME" ""));
       ("event.dataset", PyStr (py_str service_name +:+ ".log")) ].

(** Lines 94-101: the body of the loop over [record.__dict__.items()]. *)
Definition merge_attribute (payload : dict pyvalue) (item : string * pyvalue)
  : dict pyvalue :=
  let '(key, value) := item in
  if Dict.contains key payload || Str.startswith "otel" key then payload
  else if in_tuple key excluded_attributes then payload
  else Dict.set key value payload.

(** Lines 79-101: the payload before it is serialized. *)
Definition payload_of (record : LogRecord) : result (dict pyvalue) :=
  payload ← fixed_fields record;
  Ok (fold_left merge_attribute record payload).

(** Line 102: [format] returns the payload as one line of JSON. *)
Definition format (record : LogRecord) : result string :=
  payload ← payload_of record;
  json_dumps (fun q => str_other (PyFloat q)) payload.

End JsonFormatter.

(** [JsonFormatter.format] of [backend/main.py] and of
    [frontend/main.py]. *)
Definition backend_format := format "backend".
Definition frontend_format := format "frontend".


(** ** What becomes an extension field

    The two tests of the loop that do not depend on the payload: an
    attribute is reserved when its name starts with [otel] or stands in
    the tuple of excluded names. *)
Definition reserved (key : string) : bool :=
  Str.startswith "otel" key || in_tuple key excluded_attributes.

(** The entries the loop adds to a payload whose keys are [seen], for the
    attributes [record] still to visit. *)
Fixpoint extension (seen : gset string) (record : dict pyvalue)
  : dict pyvalue :=
  match record with
  | [] => []
  | (key, value) :: record' =>
      if bool_decide (key ∈ seen) || reserved key then extension seen record'
      else (key, value) :: extension ({[key]} ∪ seen) record'
  end.

(** The keys of a decoded JSON object that are, and that are not, names
    of fixed fields. *)
Definition fixed_keys (payload : dict pyvalue) : list string :=
  filter (λ key, key ∈ fixed_field_names) (Dict.keys payload).

Definition extension_keys (payload : dict pyvalue) : list string :=
  filter (λ key, key ∉ fixed_field_names) (Dict.keys payload).

(** ** A process and two logging calls, for examples

    The backend with the time zone UTC, [HOSTNAME] and two resource
    attributes set.  The operations of the interpreter that are not
    modelled are not reached by the examples. *)

Definition utc (secs : option Z) : struct_time := gmtime (default 0 secs).

Definition example_environ : gmap string string :=
  {[ "HOSTNAME" := "backend-7d9f";
     "OTEL_RESOURCE_ATTRIBUTES" :=
       "service.version=1.2, deployment.environment=prod" ]}.

Definition example_attrs : gmap string string :=
  {[ "service.version" := "1.2"; "deployment.environment" := "prod" ]}.

Definition no_str (v : pyvalue) : string := "".
Definition no_mod (msg : string) (args : pyvalue) : result string :=
  Raise TypeError.

(** [logger.info("backend api", extra={"hits": 5, "latency_ms": 12})] of
    line 135 of [backend/main.py], at 2023-11-14 22:13:20.123456 UTC. *)
Definition api_call : log_call :=
  {| lc_name := "backend";
     lc_msg := PyStr "backend api";
     lc_args := PyTuple [];
     lc_levelname := "INFO";
     lc_levelno := 20;
     lc_pathname := "/app/main.py";
     lc_filename := "main.py";
     lc_module := "main";
     lc_exc_info := PyNone;
     lc_stack_info := PyNone;
     lc_lineno := 135;
     lc_funcName := PyStr "api";
     lc_created := (1700000000123456 # 1000000)%Q;
     lc_msecs := (123 # 1)%Q;
     lc_relativeCreated := (5000 # 1)%Q;
     lc_thread := PyInt 140245;
     lc_threadName := PyStr "MainThread";
     lc_processName := PyStr "MainProcess";
     lc_process := PyInt 1 |}.

Definition api_extra : dict pyvalue :=
  [("hits", PyInt 5); ("latency_ms", PyInt 12)].

Definition api_record : LogRecord :=
  LogRecord_init api_call ++ api_extra.

(** The same call under an active span of a service named [shop], as the
    logging instrumentation marks it, and with attributes named like
    fixed fields. *)
Definition traced_record : LogRecord :=
  LogRecord_init api_call
  ++ [ ("otelSpanID", PyStr "00f067aa0ba902b7");
       ("otelTraceID", PyStr "4bf92f3577b34da6a3ce929d0e0e4736");
       ("otelServiceName", PyStr "shop");
       ("log.level", PyStr "FATAL");
       ("event.dataset", PyStr "mine");
       ("hits", PyInt 5) ].

(** The payload [format] builds for [traced_record] in the example
    process. *)
Definition traced_payload : dict pyvalue :=
  [ ("@timestamp", PyStr "2023-11-14T22:13:20.%fZ");
    ("log.level", PyStr "INFO");
    ("message", PyStr "backend api");
    ("logger.name", PyStr "backend");
    ("trace.id", PyStr "4bf92f3577b34da6a3ce929d0e0e4736");
    ("span.id", PyStr "00f067aa0ba902b7");
    ("service.name", PyStr "shop");
    ("service.version", PyStr "1.2");
    ("service.namespace", PyStr "");
    ("deployment.environment", PyStr "prod");
    ("host.name", PyStr "backend-7d9f");
    ("event.dataset", PyStr "shop.log");
    ("name", PyStr "backend");
    ("hits", PyInt 5) ].

(** The payload [format] builds for [api_record]. *)
Definition api_payload : dict pyvalue :=
  [ ("@timestamp", PyStr "2023-11-14T22:13:20.%fZ");
    ("log.level", PyStr "INFO");
    ("message", PyStr "backend api");
    ("logger.name", PyStr "backend");
    ("trace.id", PyStr "");
    ("span.id", PyStr "");
    ("service.name", PyStr "backend");
    ("service.version", PyStr "1.2");
    ("service.namespace", PyStr "");
    ("deployment.environment", PyStr "prod");
    ("host.name", PyStr "backend-7d9f");
    ("event.dataset", PyStr "backend.log");
    ("name", PyStr "backend");
    ("hits", PyInt 5);
    ("latency_ms", PyInt 12) ].

(** ** Further definitions: the shape of values *)

(** The values [json.dumps] encodes: any value built without an object
    of another type. *)
Fixpoint encodable (v : pyvalue) : bool :=
  match v with
  | PyObject _ => false
  | PyTuple items | PyList items => forallb encodable items
  | PyDict items =>
      forallb (λ item : string * pyvalue, let '(_, value) := item in
                                          encodable value) items
  | _ => true
  end.

(** [None], a [bool], an [int] or a [str] *)
Definition scalar (v : pyvalue) : bool :=
  match v with
  | PyNone | PyBool _ | PyInt _ | PyStr _ => true
  | _ => false
  end.

(** A character between the space and the tilde; a text of such
    characters only (in particular without a line break). *)
Definition printable (c : ascii) : bool :=
  ((32 <=? N_of_ascii c) && (N_of_ascii c <=? 126))%N.

Fixpoint all_printable (s : string) : bool :=
  match s with
  | "" => true
  | String c s' => printable c && all_printable s'
  end.

(** The test an attribute passes to become an extension field. *)
Definition extends (item : string * pyvalue) : Prop :=
  (item.1 ∉ fixed_field_names) ∧ reserved item.1 = false.

Global Instance extends_dec item : Decision (extends item).
Proof. unfold extends. apply _. Defined.

(** ** Further examples *)

(** The line [format] returns for [api_record] in the example process. *)
Definition api_line : string :=
  Eval vm_compute in
    match backend_format example_environ example_attrs utc no_str no_mod
            api_record with
    | Ok text => text
    | Raise _ => ""
    end.

(** A record with an attribute that [json.dumps] cannot encode, such as
    [logger.info("opened", extra={"conn": connection})]. *)
Definition object_record : LogRecord :=
  LogRecord_init api_call ++ [("conn", PyObject 1)].

(** ** [setup_otel]: where the telemetry is sent *)

(** [s.rstrip(chars)]: [s] without the characters of [chars] at its
    end. *)
Fixpoint rstrip_chars (chars s : string) : string :=
  match s with
  | "" => ""
  | String c s' =>
      match rstrip_chars chars s' with
      | "" => if Str.contains c chars then "" else String c ""
      | r => String c r
      end
  end.

(** What [setup_otel] hands to the exporters and to [Resource.create]:
    the three endpoints and the resource attributes. *)
Record otel_setup : Type := mk_otel_setup {
  traces_endpoint : string;
  logs_endpoint : string;
  metrics_endpoint : string;
  export_interval_millis : Z;
  resource_attributes : dict string
}.

(** Lines 27-53 of [backend/main.py] (25-51 of [frontend/main.py]). *)
Definition setup_otel (environ : gmap string string) (service_name : string)
  : otel_setup :=
  let endpoint :=
    rstrip_chars "/"
      (getenv environ "OTEL_EXPORTER_OTLP_ENDPOINT" "http://edot-agent:4318") in
  {| traces_endpoint := endpoint +:+ "/v1/traces";
     logs_endpoint := endpoint +:+ "/v1/logs";
     metrics_endpoint := endpoint +:+ "/v1/metrics";
     export_interval_millis := 5000;
     resource_attributes :=
       [ ("service.name", service_name);
         ("deployment.environment", getenv environ "DEPLOYMENT_ENV" "local") ]
  |}.

(** Line 56 (54): the call at module level. *)
Definition backend_setup (environ : gmap string string) : otel_setup :=
  setup_otel environ (getenv environ "OTEL_SERVICE_NAME" "backend").

Definition frontend_setup (environ : gmap string string) : otel_setup :=
  setup_otel environ (getenv environ "OTEL_SERVICE_NAME" "frontend").

(** [n] slashes *)
Fixpoint slashes (n : nat) : string :=
  match n with
  | O => ""
  | S n' => String "/" (slashes n')
  end.

(** ** The Redis database, as the client of the backend sees it

    [redis.Redis(..., decode_responses=True)]: keys and values are
    strings.  The server is taken to answer; only the error of a command
    on a value of the wrong form is modelled. *)

Definition LLONG_MAX : Z := 9223372036854775807.
Definition LLONG_MIN : Z := -9223372036854775808.

(** The integer a value stands for, as the server reads it for [INCR]:
    the decimal text of a signed 64-bit integer, with neither a sign [+],
    nor spaces, nor leading zeros. *)
Definition string2ll (s : string) : option Z :=
  if String.eqb s "0" then Some 0
  else
    let negative := head_is "-" s in
    match (if negative then tail s else s) with
    | "" => None
    | String c rest =>
        d ← digit_value c;
        if d =? 0 then None
        else
          let '(v, rest') := scan_digits d rest in
          if negb (String.eqb rest' "") then None
          else if negative
               then (if v <=? - LLONG_MIN then Some (- v) else None)
               else (if v <=? LLONG_MAX then Some v else None)
    end.

(** [redis_client.get(key)] *)
Definition redis_get (db : gmap string string) (key : string)
  : option string :=
  db !! key.

(** [redis_client.set(key, value)]: the reply of a plain [SET] is [True]. *)
Definition redis_set (db : gmap string string) (key value : string)
  : bool * gmap string string :=
  (true, <[key := value]> db).

(** [redis_client.delete(key)]: the number of keys removed. *)
Definition redis_delete (db : gmap string string) (key : string)
  : Z * gmap string string :=
  match db !! key with
  | Some _ => (1, delete key db)
  | None => (0, db)
  end.

(** [redis_client.incr(key)]: a missing key counts as [0]; [None] is
    the [ResponseError] for a value that is no integer or for an
    overflow. *)
Definition redis_incr (db : gmap string string) (key : string)
  : option (Z * gmap string string) :=
  old ← match db !! key with
        | None => Some 0
        | Some value => string2ll value
        end;
  if (0 <? old) && (LLONG_MAX - old <? 1) then None
  else Some (old + 1, <[key := pretty (old + 1)]> db).

(** ** The request handlers of the backend

    The state the handlers act on: the database, the request counter and
    the latency histogram of the meter (by [route] attribute), and the
    calls made to the logger.  Spans and [time.sleep] leave no trace in
    this state and are left out; the durations the handlers measure are
    inputs. *)

Record log_event : Type := mk_log_event {
  ev_level : string;
  ev_msg : string;
  ev_extra : dict pyvalue
}.

Record backend_state : Type := mk_backend_state {
  redis : gmap string string;
  request_counter : gmap string Z;
  latency_hist : list (string * Z);
  logged : list log_event
}.

Inductive response : Type :=
| Returns (body : dict pyvalue)
| HTTPException (status_code : Z) (detail : string)
| ResponseError.

Module BackendRoutes.

Definition with_redis (db : gmap string string) (s : backend_state)
  : backend_state :=
  {| redis := db; request_counter := request_counter s;
     latency_hist := latency_hist s; logged := logged s |}.

(** [request_counter.add(1, {"route": route})] followed by
    [latency_hist.record(value, {"route": route})] *)
Definition record_request (route : string) (value : Z) (s : backend_state)
  : backend_state :=
  {| redis := redis s;
     request_counter :=
       <[route := default 0 (request_counter s !! route) + 1]>
         (request_counter s);
     latency_hist := latency_hist s ++ [(route, value)];
     logged := logged s |}.

(** [logger.info(msg, extra=extra)] and [logger.warning(msg, extra=extra)] *)
Definition log (level msg : string) (extra : dict pyvalue)
    (s : backend_state) : backend_state :=
  {| redis := redis s; request_counter := request_counter s;
     latency_hist := latency_hist s;
     logged := logged s ++ [mk_log_event level msg extra] |}.

(** Lines 128-138 *)
Definition api (s : backend_state) (duration_ms : Z)
  : backend_state * response :=
  match redis_incr (redis s) "hits" with
  | None => (s, ResponseError)
  | Some (hits, db) =>
      let s := with_redis db s in
      let s := record_request "/api" duration_ms s in
      let s := log "INFO" "backend api"
                 [("hits", PyInt hits); ("latency_ms", PyInt duration_ms)] s in
      (s, Returns [("message", PyStr "hello from backend");
                   ("hits", PyInt hits)])
  end.

(** Lines 142-154; [item] is the body of the request, a key and a
    value. *)
Definition create_item (s : backend_state) (duration_ms : Z)
    (item : string * string) : backend_state * response :=
  let '(item_key, item_value) := item in
  let '(ok, db) := redis_set (redis s) item_key item_value in
  let s := with_redis db s in
  if negb ok then (s, HTTPException 500 "failed to write")
  else
    let s := record_request "POST /api/items" duration_ms s in
    let s := log "INFO" "item created"
               [("key", PyStr item_key); ("latency_ms", PyInt duration_ms)] s in
    (s, Returns [("status", PyStr "created"); ("key", PyStr item_key)]).

(** Lines 158-171 *)
Definition get_item (s : backend_state) (duration_ms : Z) (key : string)
  : backend_state * response :=
  let value := redis_get (redis s) key in
  let s := record_request "GET /api/items" duration_ms s in
  match value with
  | None =>
      let s := log "WARNING" "item not found" [("key", PyStr key)] s in
      (s, HTTPException 404 "not found")
  | Some value =>
      let s := log "INFO" "item fetched"
                 [("key", PyStr key); ("latency_ms", PyInt duration_ms)] s in
      (s, Returns [("key", PyStr key); ("value", PyStr value)])
  end.

(** Lines 175-185: the key of the path is written, the key of the body
    is not looked at. *)
Definition update_item (s : backend_state) (duration_ms : Z) (key : string)
    (item : string * string) : backend_state * response :=
  let '(_, item_value) := item in
  let '(_, db) := redis_set (redis s) key item_value in
  let s := with_redis db s in
  let s := record_request "PUT /api/items" duration_ms s in
  let s := log "INFO" "item updated"
             [("key", PyStr key); ("latency_ms", PyInt duration_ms)] s in
  (s, Returns [("status", PyStr "updated"); ("key", PyStr key)]).

(** Lines 189-202 *)
Definition delete_item (s : backend_state) (duration_ms : Z) (key : string)
  : backend_state * response :=
  let '(deleted, db) := redis_delete (redis s) key in
  let s := with_redis db s in
  let s := record_request "DELETE /api/items" duration_ms s in
  if deleted =? 0 then
    let s := log "WARNING" "item delete miss" [("key", PyStr key)] s in
    (s, HTTPException 404 "not found")
  else
    let s := log "INFO" "item deleted"
               [("key", PyStr key); ("latency_ms", PyInt duration_ms)] s in
    (s, Returns [("status", PyStr "deleted"); ("key", PyStr key)]).

(** Lines 206-214; [delay_ms] is [int(delay * 1000)] for the delay
    drawn. *)
Definition slow (s : backend_state) (delay_ms : Z)
  : backend_state * response :=
  let s := record_request "GET /api/slow" delay_ms s in
  let s := log "INFO" "slow request" [("delay_ms", PyInt delay_ms)] s in
  (s, Returns [("status", PyStr "ok"); ("delay_ms", PyInt delay_ms)]).

(** Lines 218-219 *)
Definition healthz (s : backend_state) : backend_state * response :=
  (s, Returns [("status", PyStr "ok")]).

End BackendRoutes.

(** A request to the backend, by the route that serves it. *)
Inductive request : Type :=
| GetApi
| PostItem (item : string * string)
| GetItem (key : string)
| PutItem (key : string) (item : string * string)
| DeleteItem (key : string)
| GetSlow
| GetHealthz.

(** The routing table of the decorators: the handler of a request, run
    with the value its clock (or its random delay) gives. *)
Definition handle (s : backend_state) (measured : Z) (req : request)
  : backend_state * response :=
  match req with
  | GetApi => BackendRoutes.api s measured
  | PostItem item => BackendRoutes.create_item s measured item
  | GetItem key => BackendRoutes.get_item s measured key
  | PutItem key item => BackendRoutes.update_item s measured key item
  | DeleteItem key => BackendRoutes.delete_item s measured key
  | GetSlow => BackendRoutes.slow s measured
  | GetHealthz => BackendRoutes.healthz s
  end.

(** Requests served one after the other. *)
Fixpoint serve (s : backend_state) (reqs : list (Z * request))
  : backend_state :=
  match reqs with
  | [] => s
  | (measured, req) :: reqs' => serve (handle s measured req).1 reqs'
  end.

(** The key of the database a request writes, and the route it is
    counted under. *)
Definition written_key (req : request) : option string :=
  match req with
  | GetApi => Some "hits"
  | PostItem item => Some item.1
  | PutItem key _ => Some key
  | DeleteItem key => Some key
  | GetItem _ | GetSlow | GetHealthz => None
  end.

Definition route_of (req : request) : option string :=
  match req with
  | GetApi => Some "/api"
  | PostItem _ => Some "POST /api/items"
  | GetItem _ => Some "GET /api/items"
  | PutItem _ _ => Some "PUT /api/items"
  | DeleteItem _ => Some "DELETE /api/items"
  | GetSlow => Some "GET /api/slow"
  | GetHealthz => None
  end.

Global Instance request_eq_dec : EqDecision request.
Proof. solve_decision. Defined.

(** The state of a backend just started on an empty database. *)
Definition fresh_backend : backend_state :=
  {| redis := ∅; request_counter := ∅; latency_hist := []; logged := [] |}.

(** What the meter holds for a route: the value of the counter, and the
    number of values the histogram was given. *)
Definition counted (route : string) (s : backend_state) : Z :=
  default 0 (request_counter s !! route).

Definition recorded (route : string) (s : backend_state) : Z :=
  Z.of_nat (length (filter (λ entry, entry.1 = route) (latency_hist s))).

(** The number of requests to [/api] among [reqs]. *)
Definition api_requests (reqs : list (Z * request)) : Z :=
  Z.of_nat (length (filter (λ r, r.2 = GetApi) reqs)).

(** ** [simulate] of the frontend

    The frontend has its own counter and logger.  The five requests are
    taken to reach the backend and to be answered in time; [simulate]
    does not look at the answers.  [clock i] is what the backend measures
    while it serves the request of rank [i]. *)

Record frontend_state : Type := mk_frontend_state {
  fe_request_counter : gmap string Z;
  fe_logged : list log_event
}.

Module FrontendRoutes.

(** Lines 133-143 of [frontend/main.py] *)
Definition simulate (fe : frontend_state) (be : backend_state)
    (clock : nat → Z) : frontend_state * backend_state * response :=
  let be := (handle be (clock 0%nat) (PostItem ("alpha", "one"))).1 in
  let be := (handle be (clock 1%nat) (GetItem "alpha")).1 in
  let be := (handle be (clock 2%nat) (PutItem "alpha" ("alpha", "two"))).1 in
  let be := (handle be (clock 3%nat) (DeleteItem "alpha")).1 in
  let be := (handle be (clock 4%nat) GetSlow).1 in
  let fe :=
    {| fe_request_counter :=
         <["/simulate" :=
             default 0 (fe_request_counter fe !! "/simulate") + 1]>
           (fe_request_counter fe);
       fe_logged :=
         fe_logged fe
         ++ [mk_log_event "INFO" "frontend simulate complete" []] |} in
  (fe, be, Returns [("status", PyStr "ok")]).

End FrontendRoutes.

(** ** From a call of the logger to the record

    [logger.info(msg, extra=extra)] and [logger.warning(msg, extra=extra)]
    of the logger [name]: the message is a string, there are no arguments
    and no exception; [site] gives what depends on the place and the time
    of the call. *)
Definition event_call (site : log_call) (name : string) (e : log_event)
  : log_call :=
  {| lc_name := name;
     lc_msg := PyStr (ev_msg e);
     lc_args := PyTuple [];
     lc_levelname := ev_level e;
     lc_levelno := if String.eqb (ev_level e) "WARNING" then 30 else 20;
     lc_pathname := lc_pathname site;
     lc_filename := lc_filename site;
     lc_module := lc_module site;
     lc_exc_info := PyNone;
     lc_stack_info := PyNone;
     lc_lineno := lc_lineno site;
     lc_funcName := lc_funcName site;
     lc_created := lc_created site;
     lc_msecs := lc_msecs site;
     lc_relativeCreated := lc_relativeCreated site;
     lc_thread := lc_thread site;
     lc_threadName := lc_threadName site;
     lc_processName := lc_processName site;
     lc_process := lc_process site |}.

(** Line 59 (57): [LoggingInstrumentor().instrument] installs a record
    factory that sets attributes of its own, [injected], on the record
    [LogRecord.__init__] has filled.  [Logger.makeRecord] adds the [extra]
    of the call to the record the factory returns. *)
Definition record_factory (injected : dict pyvalue) (c : log_call)
  : LogRecord :=
  fold_left (λ record item, Dict.set item.1 item.2 record) injected
    (LogRecord_init c).

Definition instrumented_makeRecord (injected : dict pyvalue) (c : log_call)
    (extra : dict pyvalue) : result LogRecord :=
  for_each add_extra (record_factory injected c) extra.

(** What the factory sets while no span is active: the identifiers are
    the text ["0"], the sampling flag is [False], and the service name is
    that of the resource. *)
Definition no_span_attributes (service_name : string) : dict pyvalue :=
  [ ("otelSpanID", PyStr "0");
    ("otelTraceID", PyStr "0");
    ("otelTraceSampled", PyBool false);
    ("otelServiceName", PyStr service_name) ].

(** The record of the call [logger.info("backend api", extra=...)] of
    [api] made while no span is active, and the payload [format] builds
    for it in the example process. *)
Definition no_span_record : LogRecord :=
  LogRecord_init api_call ++ no_span_attributes "backend" ++ api_extra.

Definition no_span_payload : dict pyvalue :=
  [ ("@timestamp", PyStr "2023-11-14T22:13:20.%fZ");
    ("log.level", PyStr "INFO");
    ("message", PyStr "backend api");
    ("logger.name", PyStr "backend");
    ("trace.id", PyStr "0");
    ("span.id", PyStr "0");
    ("service.name", PyStr "backend");
    ("service.version", PyStr "1.2");
    ("service.namespace", PyStr "");
    ("deployment.environment", PyStr "prod");
    ("host.name", PyStr "backend-7d9f");
    ("event.dataset", PyStr "backend.log");
    ("name", PyStr "backend");
    ("hits", PyInt 5);
    ("latency_ms", PyInt 12) ].

(** What the instrumentation may set: attributes whose names start with
    [otel], holding strings or booleans. *)
Definition otel_attributes (injected : dict pyvalue) : Prop :=
  Forall (λ item : string * pyvalue,
            Str.startswith "otel" item.1 = true ∧ scalar item.2 = true)
    injected.

(** The database holds the count [n] of requests to [/api]: no value
    before the first request, the decimal text of [n] afterwards. *)
Definition stored_hits (s : backend_state) (n : Z) : Prop :=
  match redis s !! "hits" with
  | None => n = 0
  | Some value => value = pretty n
  end.

(** A request that leaves the value of [hits] to [api]. *)
Definition leaves_hits (r : Z * request) : Prop :=
  r.2 = GetApi ∨ written_key r.2 ≠ Some "hits".

(** ** [index] of the frontend *)

(** [data.get(key)]: a method of a [dict] only, so that a document that
    is no object raises [AttributeError]. *)
Definition get_method (data : pyvalue) (key : string) : result pyvalue :=
  match data with
  | PyDict items => Ok (default PyNone (Dict.get key items))
  | _ => Raise AttributeError
  end.

(** What [response.json()] gives for an answer of the backend: the
    dictionary a handler returns, the [detail] of an [HTTPException], and
    [JSONDecodeError] (a [ValueError]) for the plain text the framework
    sends with the status 500 when a handler lets an exception through. *)
Definition response_json (answer : response) : result pyvalue :=
  match answer with
  | Returns body => Ok (PyDict body)
  | HTTPException _ detail => Ok (PyDict [("detail", PyStr detail)])
  | ResponseError => Raise ValueError
  end.

Module FrontendIndex.
Section Index.

(** [str()] of a value that is no [None], [bool], [int] or [str] *)
Variable str_other : pyvalue → string.

Definition count (route : string) (fe : frontend_state) : frontend_state :=
  {| fe_request_counter :=
       <[route := default 0 (fe_request_counter fe !! route) + 1]>
         (fe_request_counter fe);
     fe_logged := fe_logged fe |}.

Definition log (level msg : string) (extra : dict pyvalue)
    (fe : frontend_state) : frontend_state :=
  {| fe_request_counter := fe_request_counter fe;
     fe_logged := fe_logged fe ++ [mk_log_event level msg extra] |}.

(** Lines 117-129 of [frontend/main.py], from the answer to the request
    on: [json] is what [response.json()] gives or raises, [elapsed_ms]
    the time measured. *)
Definition index (fe : frontend_state) (json : result pyvalue)
    (elapsed_ms : Z) : frontend_state * result string :=
  let fe := count "/" fe in
  match json with
  | Raise e => (fe, Raise e)
  | Ok data =>
      match get_method data "hits" with
      | Raise e => (fe, Raise e)
      | Ok backend_hits =>
          let fe := log "INFO" "frontend index"
                      [("backend_hits", backend_hits);
                       ("latency_ms", PyInt elapsed_ms)] fe in
          (fe,
           message ← get_method data "message";
           hits ← get_method data "hits";
           Ok ("<h1>Frontend</h1>"
               +:+ "<p>Backend message: " +:+ py_str str_other message
               +:+ "</p>"
               +:+ "<p>DB hits: " +:+ py_str str_other hits +:+ "</p>"
               +:+ "<p>Latency: " +:+ pretty elapsed_ms +:+ "ms</p>"))
      end
  end.

(** [index] with the backend behind it: the request goes to [/api]. *)
Definition index_served (fe : frontend_state) (be : backend_state)
    (measured elapsed_ms : Z)
  : frontend_state * backend_state * result string :=
  let '(be', answer) := handle be measured GetApi in
  let '(fe', page) := index fe (response_json answer) elapsed_ms in
  (fe', be', page).

End Index.
End FrontendIndex.
(** * Properties *)

(** ** The built-in methods of [str] *)

Lemma split_cons sep s : ∃ p ps, Str.split sep s = p :: ps.
Proof.
  induction s as [|c s IH]; simpl; [by eauto|].
  destruct (Ascii.eqb c sep); [by eauto|].
  destruct IH as (p & ps & ->). eauto.
Qed.

(** Joining the pieces with the separator gives the string back. *)
Lemma join_split sep s : Str.join (String sep "") (Str.split sep s) = s.
Proof.
  induction s as [|c s IH]; [done|]. simpl.
  destruct (Ascii.eqb_spec c sep) as [->|Hne].
  - destruct (split_cons sep s) as (p & ps & Hs). rewrite Hs in *.
    simpl in *. by rewrite IH.
  - destruct (split_cons sep s) as (p & ps & Hs). rewrite Hs in *.
    destruct ps; simpl in *; by rewrite <-IH.
Qed.

(** No piece holds the separator. *)
Lemma split_pieces sep s p :
  p ∈ Str.split sep s → Str.contains sep p = false.
Proof.
  revert p. induction s as [|c s IH]; simpl; intros p Hp.
  - by apply list_elem_of_singleton in Hp as ->.
  - destruct (Ascii.eqb_spec c sep) as [->|Hne].
    + apply elem_of_cons in Hp as [->|Hp]; [done|by apply IH].
    + destruct (split_cons sep s) as (q & qs & Hs). rewrite Hs in *.
      apply elem_of_cons in Hp as [->|Hp].
      * simpl. rewrite (IH q) by left.
        by destruct (Ascii.eqb_spec c sep).
      * apply IH. by right.
Qed.

Lemma split_app sep a b :
  Str.split sep (a +:+ String sep b) = Str.split sep a ++ Str.split sep b.
Proof.
  induction a as [|c a IH]; simpl.
  - by rewrite Ascii.eqb_refl.
  - destruct (Ascii.eqb c sep); [by rewrite IH|].
    rewrite IH. by destruct (split_cons sep a) as (p & ps & ->).
Qed.

Lemma split_without sep s :
  Str.contains sep s = false → Str.split sep s = [s].
Proof.
  induction s as [|c s IH]; simpl; [done|].
  destruct (Ascii.eqb c sep); [done|]. simpl. by intros ->%IH.
Qed.

(** A string with a separator is cut in two at the first one. *)
Lemma split_once_contains sep s :
  Str.contains sep s = true →
  Str.split_once sep s = [Spec.before_first sep s; Spec.after_first sep s].
Proof.
  induction s as [|c s IH]; simpl; [done|].
  destruct (Ascii.eqb c sep); [done|]. simpl. by intros ->%IH.
Qed.

Lemma before_after_first sep s :
  Str.contains sep s = true →
  s = Spec.before_first sep s +:+ String sep (Spec.after_first sep s)
  ∧ Str.contains sep (Spec.before_first sep s) = false.
Proof.
  induction s as [|c s IH]; simpl; [done|].
  destruct (Ascii.eqb_spec c sep) as [->|Hne]; [done|]. simpl.
  intros [Heq Hno]%IH. rewrite Hno. split.
  - by rewrite Heq at 1.
  - by destruct (Ascii.eqb_spec c sep).
Qed.

Lemma rstrip_cons c s :
  Str.isspace c = false → Str.rstrip (String c s) = String c (Str.rstrip s).
Proof. simpl. intros ->. by destruct (Str.rstrip s). Qed.

Lemma rstrip_idemp s : Str.rstrip (Str.rstrip s) = Str.rstrip s.
Proof.
  induction s as [|c s IH]; [done|]. simpl.
  destruct (Str.rstrip s) as [|d r] eqn:Hr.
  - destruct (Str.isspace c) eqn:Hc; [done|]. simpl. by rewrite Hc.
  - change (Str.rstrip (String c (String d r))) with
      (match Str.rstrip (String d r) with
       | "" => if Str.isspace c then "" else String c ""
       | r' => String c r'
       end).
    by rewrite IH.
Qed.

Lemma strip_rstrip s : Str.strip (Str.rstrip s) = Str.strip s.
Proof. unfold Str.strip. by rewrite rstrip_idemp. Qed.

Lemma contains_lstrip sep s :
  Str.contains sep (Str.lstrip s) = true → Str.contains sep s = true.
Proof.
  induction s as [|c s IH]; simpl; [done|].
  destruct (Str.isspace c); [|done].
  intros ->%IH. apply orb_true_r.
Qed.

Lemma contains_rstrip sep s :
  Str.contains sep (Str.rstrip s) = true → Str.contains sep s = true.
Proof.
  induction s as [|c s IH]; simpl; [done|].
  destruct (Str.rstrip s) as [|d r].
  - destruct (Str.isspace c); simpl; [done|].
    rewrite orb_false_r. by intros ->.
  - intros [->| ->%IH]%orb_true_iff; [done|apply orb_true_r].
Qed.

Lemma contains_strip sep s :
  Str.contains sep (Str.strip s) = true → Str.contains sep s = true.
Proof. intros ?%contains_lstrip. by apply contains_rstrip. Qed.

(** ** [parse_resource_attributes] *)

Lemma filter_bool_cons {A} (f : A → bool) x l :
  filter (λ y, Is_true (f y)) (x :: l)
  = if f x then x :: filter (λ y, Is_true (f y)) l
    else filter (λ y, Is_true (f y)) l.
Proof.
  rewrite filter_cons.
  destruct (decide (Is_true (f x))) as [H|H]; by destruct (f x).
Qed.

(** One turn of the loop does what the specification says of one segment;
    in particular the unpacking of line 69 finds its two items. *)
Lemma parse_part_spec attrs part :
  Backend.parse_part attrs part
  = Ok (if Spec.well_formed (Str.strip part)
        then Spec.enter attrs (Spec.attribute_of (Str.strip part))
        else attrs).
Proof.
  unfold Backend.parse_part, Spec.well_formed.
  destruct (String.eqb (Str.strip part) ""); [done|]. simpl.
  destruct (Str.contains "=" (Str.strip part)) eqn:Heq; [|done]. simpl.
  by rewrite split_once_contains.
Qed.

Lemma parse_loop_spec parts attrs :
  for_each Backend.parse_part attrs parts
  = Ok (foldl Spec.enter attrs
          (Spec.attribute_of <$>
             filter (λ segment, Is_true (Spec.well_formed segment))
                    (Str.strip <$> parts))).
Proof.
  revert attrs. induction parts as [|part parts IH]; intros attrs; [done|].
  simpl. rewrite parse_part_spec. simpl. rewrite IH, filter_bool_cons.
  by destruct (Spec.well_formed (Str.strip part)).
Qed.

Lemma backend_parse_spec raw :
  Backend.parse_resource_attributes raw = Ok (Spec.parse raw).
Proof.
  unfold Backend.parse_resource_attributes.
  destruct (String.eqb_spec raw "") as [->|_]; [done|].
  apply parse_loop_spec.
Qed.

Lemma frontend_parse_backend raw :
  Frontend.parse_resource_attributes raw
  = Backend.parse_resource_attributes raw.
Proof. reflexivity. Qed.

Lemma foldl_enter_union attrs l :
  foldl Spec.enter attrs l = foldl Spec.enter ∅ l ∪ attrs.
Proof.
  revert attrs. induction l as [|[k v] l IH]; intros attrs; simpl.
  - by rewrite (left_id_L ∅ (∪)).
  - rewrite IH, (IH (Spec.enter ∅ _)). unfold Spec.enter. simpl.
    rewrite insert_empty, <-(assoc_L (∪)).
    by rewrite <-insert_union_singleton_l.
Qed.

(** Parsing two strings joined by a comma: what the later one defines
    overwrites what the earlier one defines. *)
Lemma spec_parse_app earlier later :
  Spec.parse (earlier +:+ String "," later)
  = Spec.parse later ∪ Spec.parse earlier.
Proof.
  unfold Spec.parse, Spec.segments.
  rewrite split_app, fmap_app, filter_app, fmap_app, foldl_app.
  apply foldl_enter_union.
Qed.

Lemma size_foldl_enter attrs l :
  (size (foldl Spec.enter attrs l) ≤ size attrs + length l)%nat.
Proof.
  revert attrs. induction l as [|[k v] l IH]; intros attrs; simpl; [lia|].
  etrans; [apply IH|]. unfold Spec.enter. simpl.
  rewrite map_size_insert. destruct (attrs !! k); unfold id; lia.
Qed.

Lemma length_segments parts :
  (length (filter (λ segment, Is_true (Spec.well_formed segment))
                  (Str.strip <$> parts))
   ≤ length (filter (λ part, Is_true (Str.contains "=" part)) parts))%nat.
Proof.
  induction parts as [|part parts IH]; [done|].
  rewrite fmap_cons, !filter_bool_cons. unfold Spec.well_formed at 1.
  destruct (Str.contains "=" (Str.strip part)) eqn:Heq.
  - rewrite (contains_strip _ _ Heq).
    destruct (negb _); simpl; lia.
  - rewrite andb_false_r. destruct (Str.contains "=" part); simpl; lia.
Qed.

(** C4.  [parse_resource_attributes] (either copy) computes what the
    specification describes: the string is split on [","], each segment is
    trimmed, empty segments and segments without ["="] are skipped, the
    others are cut at the first ["="] only, key and value are trimmed again
    and entered from left to right, so that a later occurrence of a key
    overwrites an earlier one.  In particular what is parsed after a comma
    overwrites what was parsed before it, a value may hold ["="], and the
    two examples of the specification evaluate as it says. *)
Theorem parse_resource_attributes_spec :
  (∀ raw, Backend.parse_resource_attributes raw = Ok (Spec.parse raw))
  ∧ (∀ raw, Frontend.parse_resource_attributes raw = Ok (Spec.parse raw))
  ∧ (∀ earlier later,
       Spec.parse (earlier +:+ "," +:+ later)
       = Spec.parse later ∪ Spec.parse earlier)
  ∧ Backend.parse_resource_attributes "k = a=b ,k2==" 
    = Ok {[ "k" := "a=b"; "k2" := "=" ]}
  ∧ Backend.parse_resource_attributes "a=1,b=2"
    = Ok {[ "a" := "1"; "b" := "2" ]}
  ∧ Backend.parse_resource_attributes "bad,,x=" = Ok {[ "x" := "" ]}.
Proof.
  split_and!.
  - apply backend_parse_spec.
  - intros raw. rewrite frontend_parse_backend. apply backend_parse_spec.
  - apply spec_parse_app.
  - reflexivity.
  - reflexivity.
  - reflexivity.
Qed.

(** C6.  [parse_resource_attributes] returns a mapping for every string,
    it never raises; and the mapping has at most one attribute for each
    segment that holds an ["="]: a malformed segment only makes the
    result smaller. *)
Theorem parse_resource_attributes_never_raises raw :
  ∃ attrs : gmap string string,
    Backend.parse_resource_attributes raw = Ok attrs
    ∧ (size attrs
       ≤ length (filter (λ part, Is_true (Str.contains "=" part))
                        (Str.split "," raw)))%nat.
Proof.
  exists (Spec.parse raw). split; [apply backend_parse_spec|].
  unfold Spec.parse, Spec.segments.
  etrans; [apply size_foldl_enter|].
  rewrite map_size_empty, length_fmap. apply length_segments.
Qed.

(** C9.  A segment that starts with ["="] is not skipped: its key is the
    empty string.  For a value [v] without a comma, parsing ["=" ++ v]
    gives the mapping of the empty key to [v] trimmed. *)
Theorem parse_empty_key v :
  Str.contains "," v = false →
  Backend.parse_resource_attributes ("=" +:+ v)
  = Ok {[ "" := Str.strip v ]}.
Proof.
  intros Hv. unfold Backend.parse_resource_attributes.
  change ("=" +:+ v) with (String "=" v). simpl String.eqb. cbv iota.
  rewrite split_without by (simpl; by rewrite Hv).
  simpl. unfold Backend.parse_part, Str.strip.
  rewrite rstrip_cons by done. simpl.
  fold (Str.strip (Str.rstrip v)). by rewrite strip_rstrip, insert_empty.
Qed.

Lemma parse_empty_key_witness :
  Str.contains "," " v " = false
  ∧ Backend.parse_resource_attributes "= v " = Ok {[ "" := "v" ]}.
Proof. split; [reflexivity|]. apply (parse_empty_key " v "). reflexivity. Defined.

(** C10.  The two copies of [parse_resource_attributes] return the same
    result on every string. *)
Theorem parse_resource_attributes_copies raw :
  Backend.parse_resource_attributes raw
  = Frontend.parse_resource_attributes raw.
Proof.
  unfold Backend.parse_resource_attributes, Frontend.parse_resource_attributes.
  destruct (String.eqb raw ""); [done|].
  generalize (∅ : gmap string string).
  induction (Str.split "," raw) as [|part parts IH]; intros attrs; [done|].
  simpl. assert (Backend.parse_part attrs part = Frontend.parse_part attrs part)
    as -> by done.
  destruct (Frontend.parse_part attrs part); simpl; [apply IH|done].
Qed.

(** ** Dictionaries *)

Section DictFacts.
Context {V : Type}.
Implicit Types (d : dict V) (key : string) (value : V).

Lemma contains_keys key d : Dict.contains key d = true ↔ key ∈ Dict.keys d.
Proof.
  induction d as [|[k v] d IH]; simpl.
  - split; [done|]. by intros ?%elem_of_nil.
  - rewrite orb_true_iff, IH, elem_of_cons, String.eqb_eq. naive_solver.
Qed.

Lemma contains_false_keys key d :
  Dict.contains key d = false ↔ key ∉ Dict.keys d.
Proof. rewrite <-contains_keys. by destruct (Dict.contains key d). Qed.

Lemma set_fresh key value d :
  Dict.contains key d = false → Dict.set key value d = d ++ [(key, value)].
Proof.
  induction d as [|[k v] d IH]; simpl; [done|].
  destruct (String.eqb k key); [done|]. simpl. by intros ->%IH.
Qed.

Lemma get_app key d1 d2 :
  Dict.get key (d1 ++ d2)
  = match Dict.get key d1 with
    | Some value => Some value
    | None => Dict.get key d2
    end.
Proof.
  induction d1 as [|[k v] d1 IH]; simpl; [done|].
  by destruct (String.eqb k key).
Qed.

Lemma get_None key d : Dict.get key d = None ↔ key ∉ Dict.keys d.
Proof.
  induction d as [|[k v] d IH]; simpl.
  - split; [intros _; apply not_elem_of_nil|done].
  - rewrite not_elem_of_cons.
    destruct (String.eqb_spec k key) as [->|Hne]; naive_solver.
Qed.

Lemma get_Some_keys key value d :
  Dict.get key d = Some value → key ∈ Dict.keys d.
Proof.
  intros Hget. destruct (decide (key ∈ Dict.keys d)) as [|Hno]; [done|].
  apply get_None in Hno. congruence.
Qed.

Lemma keys_app d1 d2 : Dict.keys (d1 ++ d2) = Dict.keys d1 ++ Dict.keys d2.
Proof. apply fmap_app. Qed.

End DictFacts.

(** ** The loop of [format] *)

Lemma fixed_field_names_NoDup : NoDup fixed_field_names.
Proof. apply (bool_decide_unpack (NoDup fixed_field_names)). by vm_compute. Qed.

Lemma extension_keys_iff key record seen :
  key ∈ Dict.keys (extension seen record)
  ↔ key ∈ Dict.keys record ∧ (key ∉ seen) ∧ reserved key = false.
Proof.
  revert seen. induction record as [|[k v] record IH]; intros seen; simpl.
  - split; [by intros ?%elem_of_nil|by intros [?%elem_of_nil _]].
  - destruct (bool_decide_reflect (k ∈ seen)) as [Hin|Hout]; simpl.
    + rewrite IH, elem_of_cons. naive_solver.
    + destruct (reserved k) eqn:Hk.
      * rewrite IH, elem_of_cons. split; [tauto|].
        intros ([->|?] & ? & ?); [congruence|done].
      * simpl. rewrite !elem_of_cons, IH, not_elem_of_union,
          not_elem_of_singleton.
        destruct (decide (key = k)) as [->|Hne]; naive_solver.
Qed.

Lemma extension_NoDup record seen : NoDup (Dict.keys (extension seen record)).
Proof.
  revert seen. induction record as [|[k v] record IH]; intros seen; simpl.
  - constructor.
  - destruct (bool_decide (k ∈ seen) || reserved k); [apply IH|].
    simpl. constructor; [|apply IH].
    rewrite extension_keys_iff, not_elem_of_union, not_elem_of_singleton.
    naive_solver.
Qed.

Lemma extension_sublist record seen : sublist (extension seen record) record.
Proof.
  revert seen. induction record as [|[k v] record IH]; intros seen; simpl.
  - constructor.
  - destruct (bool_decide (k ∈ seen) || reserved k).
    + by apply sublist_cons.
    + by apply sublist_skip.
Qed.

(** One turn of the loop either leaves the payload alone or appends the
    attribute. *)
Lemma merge_attribute_step payload key value :
  merge_attribute payload (key, value)
  = if Dict.contains key payload || reserved key then payload
    else payload ++ [(key, value)].
Proof.
  unfold merge_attribute, reserved.
  destruct (Dict.contains key payload) eqn:Hk,
    (Str.startswith "otel" key), (in_tuple key excluded_attributes);
    try reflexivity; by apply set_fresh.
Qed.

(** The loop leaves the payload it starts from in place and appends to
    it. *)
Lemma merge_loop record payload :
  fold_left merge_attribute record payload
  = payload ++ extension (list_to_set (Dict.keys payload)) record.
Proof.
  revert payload. induction record as [|[k v] record IH]; intros payload.
  - simpl. by rewrite app_nil_r.
  - cbn [fold_left extension]. rewrite merge_attribute_step, IH.
    destruct (Dict.contains k payload) eqn:Hk.
    + apply contains_keys in Hk.
      by rewrite bool_decide_eq_true_2 by set_solver.
    + apply contains_false_keys in Hk.
      rewrite bool_decide_eq_false_2 by set_solver.
      cbn [orb]. destruct (reserved k); [done|].
      rewrite <-app_assoc, keys_app, list_to_set_app_L. simpl.
      do 3 f_equal. set_solver.
Qed.

(** ** [JsonFormatter.format] *)

Lemma fixed_not_extension key record :
  key ∈ fixed_field_names →
  key ∉ Dict.keys (extension (list_to_set fixed_field_names) record).
Proof.
  intros Hkey. rewrite extension_keys_iff, elem_of_list_to_set. tauto.
Qed.

Lemma payload_keys_NoDup record :
  NoDup (fixed_field_names
         ++ Dict.keys (extension (list_to_set fixed_field_names) record)).
Proof.
  apply NoDup_app. split_and!.
  - apply fixed_field_names_NoDup.
  - intros key Hkey. by apply fixed_not_extension.
  - apply extension_NoDup.
Qed.


Ltac bind_inv H :=
  repeat match type of H with
    | mbind _ ?m = Ok _ =>
        let E := fresh "E" in
        destruct m eqn:E; [|discriminate H];
        unfold mbind at 1, result_bind at 1 in H
    end.

Section FormatterFacts.
Variables (default_service_name : string) (environ attrs : gmap string string).
Variables (localtime : option Z → struct_time) (str_other : pyvalue → string).
Variable str_mod : string → pyvalue → result string.

Local Abbreviation fixed_fields' :=
  (fixed_fields default_service_name environ attrs localtime str_other str_mod).
Local Abbreviation payload_of' :=
  (payload_of default_service_name environ attrs localtime str_other str_mod).
Local Abbreviation service_name_of' :=
  (service_name_of default_service_name environ).

(** The dictionary literal has the twelve fixed fields, whatever the
    record. *)
Lemma fixed_fields_Ok record fields :
  fixed_fields' record = Ok fields →
  ∃ timestamp levelname message name,
    fields =
      [ ("@timestamp", PyStr timestamp);
        ("log.level", levelname);
        ("message", PyStr message);
        ("logger.name", name);
        ("trace.id", getattr record "otelTraceID" (PyStr ""));
        ("span.id", getattr record "otelSpanID" (PyStr ""));
        ("service.name", service_name_of' record);
        ("service.version", PyStr (default "" (attrs !! "service.version")));
        ("service.namespace",
          PyStr (default "" (attrs !! "service.namespace")));
        ("deployment.environment",
          PyStr (default "" (attrs !! "deployment.environment")));
        ("host.name", PyStr (getenv environ "HOSTNAME" ""));
        ("event.dataset",
          PyStr (py_str str_other (service_name_of' record) +:+ ".log")) ].
Proof.
  unfold fixed_fields. intros H. bind_inv H.
  injection H as <-. eauto 10.
Qed.

Lemma payload_of_Ok record payload :
  payload_of' record = Ok payload →
  ∃ fields,
    fixed_fields' record = Ok fields
    ∧ Dict.keys fields = fixed_field_names
    ∧ payload = fields ++ extension (list_to_set fixed_field_names) record.
Proof.
  unfold payload_of. intros H. bind_inv H. injection H as <-.
  exists a. destruct (fixed_fields_Ok _ _ E) as (t & l & m & n & ->).
  split_and!; [done..|]. by rewrite merge_loop.
Qed.



(** The value of a fixed field in the payload is the one of the
    dictionary literal. *)
Lemma payload_get_fixed record payload fields key :
  payload_of' record = Ok payload →
  fixed_fields' record = Ok fields →
  key ∈ fixed_field_names →
  Dict.get key payload = Dict.get key fields.
Proof.
  intros (fields' & Hf & Hkeys & ->)%payload_of_Ok Hfields Hkey.
  assert (fields' = fields) as -> by congruence.
  rewrite get_app. destruct (Dict.get key fields) eqn:Hget; [done|].
  apply get_None in Hget. by rewrite Hkeys in Hget.
Qed.

(** C1.  The payload [format] builds starts with the twelve fixed fields
    as the dictionary literal computes them, followed by the extension
    fields; no extension field has the name of a fixed field, so that for
    each of the twelve names the payload holds the computed value, also
    when the record has an attribute of that name. *)
Theorem fixed_fields_never_overwritten record payload :
  payload_of' record = Ok payload →
  ∃ fields extension,
    fixed_fields' record = Ok fields
    ∧ Dict.keys fields = fixed_field_names
    ∧ payload = fields ++ extension
    ∧ NoDup (Dict.keys payload)
    ∧ ∀ key, key ∈ fixed_field_names →
        (key ∉ Dict.keys extension)
        ∧ Dict.get key payload = Dict.get key fields.
Proof.
  intros Hp. destruct (payload_of_Ok _ _ Hp) as (fields & Hf & Hkeys & ->).
  exists fields, (extension (list_to_set fixed_field_names) record).
  split_and!; [done..| |].
  - rewrite keys_app, Hkeys. apply payload_keys_NoDup.
  - intros key Hkey. split; [by apply fixed_not_extension|].
    by apply (payload_get_fixed record).
Qed.

(** C3.  In every payload [service.name] is the service name of the record,
    overridden or not, and [event.dataset] is the text of that value
    followed by [".log"]; an [event.dataset] attribute of the record has
    no say in it. *)
Theorem event_dataset_derived record payload :
  payload_of' record = Ok payload →
  Dict.get "service.name" payload = Some (service_name_of' record)
  ∧ Dict.get "event.dataset" payload
    = Some (PyStr (py_str str_other (service_name_of' record) +:+ ".log"))
  ∧ ∀ name, service_name_of' record = PyStr name →
      Dict.get "event.dataset" payload = Some (PyStr (name +:+ ".log")).
Proof.
  intros (fields & Hf & Hkeys & ->)%payload_of_Ok.
  destruct (fixed_fields_Ok _ _ Hf) as (t & l & m & n & ->).
  rewrite !get_app.
  split_and!; [reflexivity..|]. intros name Hname.
  cbn. by rewrite Hname.
Qed.

(** For a record that carries neither [otelTraceID] nor [otelSpanID], one
    that was not made by the factory of the logging instrumentation, the
    fields [trace.id] and [span.id] are the empty string: the defaults of
    the two [getattr] of lines 85-86. *)
Lemma uninstrumented_ids_empty record payload :
  Dict.get "otelTraceID" record = None →
  Dict.get "otelSpanID" record = None →
  payload_of' record = Ok payload →
  Dict.get "trace.id" payload = Some (PyStr "")
  ∧ Dict.get "span.id" payload = Some (PyStr "").
Proof.
  intros Ht Hs (fields & Hf & Hkeys & ->)%payload_of_Ok.
  destruct (fixed_fields_Ok _ _ Hf) as (t & l & m & n & ->).
  rewrite !get_app. unfold getattr. rewrite Ht, Hs. by split.
Qed.

(** C8.  [service.name] is the [otelServiceName] of the record when the
    record has one that is not empty (not falsy), and the static service
    name of the process, [OTEL_SERVICE_NAME] or its default, otherwise. *)
Theorem service_name_precedence record payload :
  payload_of' record = Ok payload →
  Dict.get "service.name" payload
  = Some match Dict.get "otelServiceName" record with
         | Some override =>
             if truthy override then override
             else PyStr (getenv environ "OTEL_SERVICE_NAME"
                           default_service_name)
         | None =>
             PyStr (getenv environ "OTEL_SERVICE_NAME" default_service_name)
         end.
Proof.
  intros (fields & Hf & Hkeys & ->)%payload_of_Ok.
  destruct (fixed_fields_Ok _ _ Hf) as (t & l & m & n & ->).
  rewrite get_app. cbn. unfold service_name_of, py_or, getattr.
  by destruct (Dict.get "otelServiceName" record).
Qed.

End FormatterFacts.

(** The resource attributes of the example process are the ones its
    environment gives. *)
Lemma example_attrs_loaded :
  Backend.RESOURCE_ATTRS example_environ = Ok example_attrs.
Proof. reflexivity. Qed.

Lemma fixed_fields_never_overwritten_witness :
  payload_of "backend" example_environ example_attrs utc no_str no_mod
    traced_record = Ok traced_payload
  ∧ ∃ fields extension,
      fixed_fields "backend" example_environ example_attrs utc no_str no_mod
        traced_record = Ok fields
      ∧ Dict.keys fields = fixed_field_names
      ∧ traced_payload = fields ++ extension
      ∧ NoDup (Dict.keys traced_payload)
      ∧ ∀ key, key ∈ fixed_field_names →
          (key ∉ Dict.keys extension)
          ∧ Dict.get key traced_payload = Dict.get key fields.
Proof.
  split; [by vm_compute|].
  apply (fixed_fields_never_overwritten "backend" example_environ
           example_attrs utc no_str no_mod traced_record traced_payload).
  by vm_compute.
Defined.

Lemma event_dataset_derived_witness :
  payload_of "backend" example_environ example_attrs utc no_str no_mod
    traced_record = Ok traced_payload
  ∧ Dict.get "event.dataset" traced_record = Some (PyStr "mine")
  ∧ Dict.get "service.name" traced_payload = Some (PyStr "shop")
  ∧ Dict.get "event.dataset" traced_payload = Some (PyStr "shop.log").
Proof.
  split; [by vm_compute|]. split; [reflexivity|].
  destruct (event_dataset_derived "backend" example_environ example_attrs
              utc no_str no_mod traced_record traced_payload)
    as (Hname & Hdataset & _); [by vm_compute|].
  split; [exact Hname|exact Hdataset].
Defined.

Lemma uninstrumented_ids_empty_example :
  Dict.get "otelTraceID" api_record = None
  ∧ Dict.get "otelSpanID" api_record = None
  ∧ payload_of "backend" example_environ example_attrs utc no_str no_mod
      api_record = Ok api_payload
  ∧ Dict.get "trace.id" api_payload = Some (PyStr "")
  ∧ Dict.get "span.id" api_payload = Some (PyStr "").
Proof.
  split; [reflexivity|]. split; [reflexivity|]. split; [by vm_compute|].
  apply (uninstrumented_ids_empty "backend" example_environ example_attrs
           utc no_str no_mod api_record api_payload);
    [reflexivity|reflexivity|by vm_compute].
Qed.

Lemma service_name_precedence_witness :
  payload_of "backend" example_environ example_attrs utc no_str no_mod
    traced_record = Ok traced_payload
  ∧ Dict.get "service.name" traced_payload = Some (PyStr "shop").
Proof.
  split; [by vm_compute|].
  apply (service_name_precedence "backend" example_environ example_attrs utc
           no_str no_mod traced_record traced_payload).
  by vm_compute.
Defined.

(** ** Records made by the logging library *)

Lemma get_set_eq {V} key (value : V) d :
  Dict.get key (Dict.set key value d) = Some value.
Proof.
  induction d as [|[k v] d IH]; simpl.
  - by rewrite String.eqb_refl.
  - destruct (String.eqb k key) eqn:Hk; simpl; by rewrite Hk.
Qed.

Lemma add_extra_loop extra record record' :
  for_each add_extra record extra = Ok record' → record' = record ++ extra.
Proof.
  revert record. induction extra as [|[k v] extra IH]; intros record.
  - simpl. rewrite app_nil_r. by intros [= ->].
  - cbn [for_each]. unfold add_extra.
    destruct (in_tuple k ["message"; "asctime"]); [discriminate|].
    destruct (Dict.contains k record) eqn:Hk; [discriminate|].
    unfold mbind at 1, result_bind at 1. cbn [orb].
    intros ->%IH. by rewrite set_fresh, <-app_assoc.
Qed.

(** A record is the attributes of [LogRecord.__init__] followed by the
    [extra] of the call. *)
Lemma makeRecord_Ok c extra record :
  makeRecord c extra = Ok record → record = LogRecord_init c ++ extra.
Proof. apply add_extra_loop. Qed.

Lemma attribute_init c extra name value :
  Dict.get name (LogRecord_init c) = Some value →
  attribute (LogRecord_init c ++ extra) name = Ok value.
Proof. intros Hget. unfold attribute. by rewrite get_app, Hget. Qed.

Section RecordFacts.
Variables (default_service_name : string) (environ attrs : gmap string string).
Variables (localtime : option Z → struct_time) (str_other : pyvalue → string).
Variable str_mod : string → pyvalue → result string.

Local Abbreviation payload_of' :=
  (payload_of default_service_name environ attrs localtime str_other str_mod).

(** [format] builds a payload for every record of a logging call without
    arguments to interpolate. *)
Lemma payload_of_makeRecord c extra record :
  makeRecord c extra = Ok record →
  truthy (lc_args c) = false →
  ∃ payload, payload_of' record = Ok payload.
Proof.
  intros ->%makeRecord_Ok Hargs.
  unfold payload_of, fixed_fields, formatTime, getMessage.
  rewrite (attribute_init c extra "created" (PyFloat (lc_created c))),
    (attribute_init c extra "levelname" (PyStr (lc_levelname c))),
    (attribute_init c extra "msg" (lc_msg c)),
    (attribute_init c extra "args" (lc_args c)),
    (attribute_init c extra "name" (PyStr (lc_name c))) by reflexivity.
  unfold mbind, result_bind, time_arg. rewrite Hargs. eauto.
Qed.

(** The keys of the payload beyond the fixed fields are the names of the
    attributes of the record that are neither fixed field names nor
    reserved. *)
Lemma payload_extension_keys record payload key :
  payload_of' record = Ok payload →
  key ∈ extension_keys payload
  ↔ key ∈ Dict.keys record ∧ (key ∉ fixed_field_names) ∧ reserved key = false.
Proof.
  intros (fields & Hf & Hkeys & ->)%payload_of_Ok.
  unfold extension_keys.
  rewrite list_elem_of_filter, keys_app, elem_of_app, Hkeys,
    extension_keys_iff, elem_of_list_to_set.
  tauto.
Qed.

(** The logger name is an attribute of every record, and not a reserved
    one: it is an extension field of every payload. *)
Lemma name_among_extensions c extra record payload :
  makeRecord c extra = Ok record →
  payload_of' record = Ok payload →
  "name" ∈ extension_keys payload.
Proof.
  intros ->%makeRecord_Ok Hp.
  apply (payload_extension_keys _ _ _ Hp). split_and!.
  - rewrite keys_app. apply elem_of_app. left. simpl. by left.
  - apply (bool_decide_unpack ("name" ∉ fixed_field_names)). by vm_compute.
  - reflexivity.
Qed.

(** The time stamp is made from the whole seconds of [created] only, and
    [%f] comes out as it went in. *)
Lemma timestamp_of_seconds record payload :
  payload_of' record = Ok payload →
  ∃ created secs,
    Dict.get "created" record = Some created
    ∧ time_arg created = Ok secs
    ∧ Dict.get "@timestamp" payload
      = Some (PyStr (pretty (tm_year (localtime secs))
                     +:+ "-" +:+ two_digits (tm_mon (localtime secs))
                     +:+ "-" +:+ two_digits (tm_mday (localtime secs))
                     +:+ "T" +:+ two_digits (tm_hour (localtime secs))
                     +:+ ":" +:+ two_digits (tm_min (localtime secs))
                     +:+ ":" +:+ two_digits (tm_sec (localtime secs))
                     +:+ ".%fZ")).
Proof.
  intros Hp. destruct (payload_of_Ok _ _ _ _ _ _ _ _ Hp)
    as (fields & Hf & Hkeys & ->).
  rewrite get_app. clear Hp. unfold fixed_fields in Hf. bind_inv Hf.
  injection Hf as <-. unfold formatTime, attribute in E.
  destruct (Dict.get "created" record) as [created|]; [|done].
  unfold mbind at 1, result_bind at 1 in E.
  destruct (time_arg created) as [secs|] eqn:Hsecs; [|done].
  injection E as <-. exists created, secs. split_and!; reflexivity || done.
Qed.

End RecordFacts.

Lemma formatTime_whole_seconds localtime record datefmt q q' :
  Qfloor q = Qfloor q' →
  formatTime localtime (Dict.set "created" (PyFloat q) record) datefmt
  = formatTime localtime (Dict.set "created" (PyFloat q') record) datefmt.
Proof.
  intros Hq. unfold formatTime, attribute. rewrite !get_set_eq.
  unfold mbind, result_bind, time_arg. by rewrite Hq.
Qed.

(** C5.  The record of the logging call made at 1700000000.123456 seconds
    gets the time stamp ["2023-11-14T22:13:20.%fZ"]: the text ends in
    ["Z"], but in place of the microseconds it holds the directive [%f]
    itself.  No record fares better: two values of [created] within the
    same second give the same text, since [time.strftime] only sees the
    whole seconds. *)
Theorem timestamp_without_microseconds :
  Dict.get "created" api_record
  = Some (PyFloat (1700000000123456 # 1000000))
  ∧ payload_of "backend" example_environ example_attrs utc no_str no_mod
      api_record = Ok api_payload
  ∧ Dict.get "@timestamp" api_payload
    = Some (PyStr "2023-11-14T22:13:20.%fZ")
  ∧ ∀ localtime record datefmt q q',
      Qfloor q = Qfloor q' →
      formatTime localtime (Dict.set "created" (PyFloat q) record) datefmt
      = formatTime localtime (Dict.set "created" (PyFloat q') record) datefmt.
Proof.
  split_and!; [reflexivity|by vm_compute|reflexivity|].
  apply formatTime_whole_seconds.
Qed.


(** ** The [json] module: decoding what was encoded *)

Lemma app_cons c (a b : string) : String c a +:+ b = String c (a +:+ b).
Proof. reflexivity. Qed.

Lemma app_assoc_s (a b c : string) : (a +:+ b) +:+ c = a +:+ (b +:+ c).
Proof. induction a as [|x a IH]; [done|]. by rewrite !app_cons, IH. Qed.

Lemma length_app_s (a b : string) :
  String.length (a +:+ b) = (String.length a + String.length b)%nat.
Proof. induction a as [|x a IH]; [done|]. rewrite app_cons. simpl. lia. Qed.

(** Strings *)

Lemma scan_string_escape c rest :
  scan_string (json_escape c +:+ rest)
  = '(text, rest') ← scan_string rest; Some (String c text, rest').
Proof. destruct c as [[] [] [] [] [] [] [] []]; reflexivity. Qed.

Lemma scan_string_encode s rest :
  scan_string (json_escape_all s +:+ String quote rest) = Some (s, rest).
Proof.
  induction s as [|c s IH]; [done|].
  cbn [json_escape_all]. by rewrite app_assoc_s, scan_string_escape, IH.
Qed.

(** Integers *)

Lemma digit_value_char d :
  (d < 10)%N → digit_value (pretty_N_char d) = Some (Z.of_N d).
Proof.
  intros Hd.
  assert (d = 0 ∨ d = 1 ∨ d = 2 ∨ d = 3 ∨ d = 4 ∨ d = 5 ∨ d = 6 ∨ d = 7
          ∨ d = 8 ∨ d = 9)%N as Hcases by lia.
  by repeat destruct Hcases as [->|Hcases]; try subst d.
Qed.

Lemma pretty_go_app x s r : pretty_N_go x s +:+ r = pretty_N_go x (s +:+ r).
Proof.
  revert s. induction (N.lt_wf_0 x) as [x _ IH]; intros s.
  destruct (decide (x = 0%N)) as [->|Hx]; [done|].
  rewrite (pretty_N_go_step x s), (pretty_N_go_step x (s +:+ r)) by lia.
  rewrite IH by (apply N.div_lt; lia). reflexivity.
Qed.

Lemma pretty_go_digits x s :
  ∃ k, 0 ≤ k ∧ ∀ acc,
    scan_digits acc (pretty_N_go x s)
    = scan_digits (acc * 10 ^ k + Z.of_N x) s.
Proof.
  revert s. induction (N.lt_wf_0 x) as [x _ IH]; intros s.
  destruct (decide (x = 0%N)) as [->|Hx].
  - exists 0. split; [done|]. intros acc. rewrite pretty_N_go_0. f_equal. lia.
  - rewrite pretty_N_go_step by lia.
    destruct (IH (x `div` 10)%N (N.div_lt x 10 ltac:(lia) eq_refl)
                (String (pretty_N_char (x `mod` 10)) s)) as (k & Hk & Hscan).
    exists (k + 1). split; [lia|]. intros acc. rewrite Hscan.
    cbn [scan_digits]. rewrite digit_value_char by (apply N.mod_lt; lia).
    f_equal. rewrite Z.pow_add_r, Z.pow_1_r by lia.
    rewrite N2Z.inj_div, N2Z.inj_mod.
    pose proof (Z.div_mod (Z.of_N x) 10 ltac:(lia)) as Hdm.
    change (Z.of_N 10) with 10. lia.
Qed.

Lemma pretty_go_head x s :
  (0 < x)%N →
  ∃ c t d, pretty_N_go x s = String c t ∧ digit_value c = Some d ∧ d ≠ 0.
Proof.
  revert s. induction (N.lt_wf_0 x) as [x _ IH]; intros s Hx.
  rewrite pretty_N_go_step by done.
  destruct (decide (x `div` 10 = 0)%N) as [Hdiv|Hdiv].
  - rewrite Hdiv, pretty_N_go_0.
    assert (x < 10)%N as Hlt by (apply N.div_small_iff in Hdiv; lia).
    rewrite N.mod_small by done.
    eexists _, _, _. split; [done|]. split; [by apply digit_value_char|lia].
  - apply IH; [apply N.div_lt; lia|by apply N.neq_0_lt_0].
Qed.

Lemma scan_natural_go x s :
  (0 < x)%N →
  scan_natural (pretty_N_go x s) = Some (scan_digits (Z.of_N x) s).
Proof.
  intros Hx. destruct (pretty_go_digits x s) as (k & _ & Hscan).
  specialize (Hscan 0). rewrite Z.mul_0_l, Z.add_0_l in Hscan.
  destruct (pretty_go_head x s Hx) as (c & t & d & Heq & Hc & Hd).
  rewrite Heq in *. cbn [scan_natural scan_digits] in *. rewrite Hc in *.
  cbn. rewrite <-Hscan, Z.mul_0_r, Z.add_0_l.
  by destruct (Z.eqb_spec d 0).
Qed.

Lemma delimited_cases rest :
  delimited rest = true →
  rest = "" ∨ ∃ c r, rest = String c r
                     ∧ (c = "," ∨ c = "]" ∨ c = "}")%char.
Proof.
  unfold delimited. destruct rest as [|c r]; [by left|]. simpl.
  intros H. right. exists c, r. split; [done|].
  destruct (Ascii.eqb_spec c ","); [by left|].
  destruct (Ascii.eqb_spec c "]"); [by right; left|].
  destruct (Ascii.eqb_spec c "}"); [by right; right|done].
Qed.

Lemma scan_digits_delimited z rest :
  delimited rest = true →
  scan_digits z rest = (z, rest) ∧ starts_fraction rest = false.
Proof.
  intros [->|(c & r & -> & [->|[->| ->]])]%delimited_cases; done.
Qed.

Lemma scan_integer_pretty z rest :
  delimited rest = true → scan_integer (pretty z +:+ rest) = Some (z, rest).
Proof.
  intros Hrest.
  pose proof (λ n, proj1 (scan_digits_delimited n rest Hrest)) as Hdigits.
  pose proof (proj2 (scan_digits_delimited 0 rest Hrest)) as Hfrac.
  assert (∀ p, scan_natural (pretty (Zpos p) +:+ rest)
               = Some (Zpos p, rest)) as Hpos.
  { intros p. unfold pretty, pretty_Z, pretty, pretty_positive, pretty,
      pretty_N. rewrite decide_False by done.
    rewrite pretty_go_app, scan_natural_go by lia. simpl. by rewrite Hdigits. }
  unfold scan_integer. destruct z as [|p|p].
  - change (pretty 0 +:+ rest) with (String "0" rest). cbn.
    change (digit_value "0") with (Some 0). cbn. by rewrite Hfrac.
  - destruct (pretty_go_head (Npos p) "" ltac:(lia))
      as (c & t & d & Heq & Hc & Hd).
    assert (head_is "-" (pretty (Zpos p) +:+ rest) = false) as ->.
    { unfold pretty, pretty_Z, pretty, pretty_positive, pretty, pretty_N.
      rewrite decide_False, Heq by done. rewrite app_cons. cbn [head_is].
      by destruct (Ascii.eqb_spec c "-") as [->|]. }
    rewrite Hpos. cbn. by rewrite Hfrac.
  - change (pretty (Zneg p) +:+ rest)
      with (String "-" (pretty (Zpos p) +:+ rest)).
    cbn [head_is tail]. rewrite Ascii.eqb_refl, Hpos. cbn.
    by rewrite Hfrac.
Qed.

(** The first character of a text *)

Lemma value_start_app s r :
  value_start s = true →
  value_start (s +:+ r) = true
  ∧ skip_space (s +:+ r) = s +:+ r
  ∧ head_is "]" (s +:+ r) = false.
Proof.
  destruct s as [|c s]; [done|]. rewrite app_cons. cbn.
  intros [Hspace Hclose]%andb_true_iff.
  rewrite Hspace, Hclose. destruct (is_json_space c); [done|].
  by destruct (Ascii.eqb c "]").
Qed.

Lemma digit_start c d t :
  digit_value c = Some d → value_start (String c t) = true.
Proof.
  destruct c as [[] [] [] [] [] [] [] []]; intros H;
    solve [reflexivity | cbv in H; discriminate H].
Qed.

Lemma pretty_start (z : Z) : value_start (pretty z) = true.
Proof.
  destruct z as [|p|p]; [done| |done].
  destruct (pretty_go_head (Npos p) "" ltac:(lia))
    as (c & t & d & Heq & Hc & Hd).
  unfold pretty, pretty_Z, pretty, pretty_positive, pretty, pretty_N.
  rewrite decide_False, Heq by done. by eapply digit_start.
Qed.

(** The steps of the decoder *)

Lemma scan_value_string fuel s :
  scan_value (S fuel) (String quote s)
  = '(text, rest) ← scan_string s; Some (PyStr text, rest).
Proof. reflexivity. Qed.

Lemma scan_value_list fuel s :
  scan_value (S fuel) (String "[" s)
  = if head_is "]" (skip_space s) then Some (PyList [], tail (skip_space s))
    else scan_elements fuel (skip_space s) [].
Proof. reflexivity. Qed.

Lemma scan_value_dict fuel s :
  scan_value (S fuel) (String "{" s)
  = if head_is "}" (skip_space s) then Some (PyDict [], tail (skip_space s))
    else scan_members fuel (skip_space s) [].
Proof. reflexivity. Qed.

Lemma scan_value_number fuel c s d :
  digit_value c = Some d ∨ c = "-"%char →
  scan_value (S fuel) (String c s)
  = '(n, rest) ← scan_integer (String c s); Some (PyInt n, rest).
Proof.
  destruct c as [[] [] [] [] [] [] [] []]; intros [H|H];
    solve [reflexivity | cbv in H; discriminate H].
Qed.

Lemma scan_elements_step fuel s acc :
  scan_elements (S fuel) s acc
  = '(v, rest) ← scan_value fuel s;
    if head_is "," (skip_space rest)
    then scan_elements fuel (skip_space (tail (skip_space rest))) (acc ++ [v])
    else if head_is "]" (skip_space rest)
         then Some (PyList (acc ++ [v]), tail (skip_space rest))
         else None.
Proof. reflexivity. Qed.

Lemma scan_members_step fuel s acc :
  scan_members (S fuel) (String quote s) acc
  = '(key, rest) ← scan_string s;
    if head_is ":" (skip_space rest) then
      '(v, rest) ← scan_value fuel (skip_space (tail (skip_space rest)));
      if head_is "," (skip_space rest)
      then scan_members fuel (skip_space (tail (skip_space rest)))
             (Dict.set key v acc)
      else if head_is "}" (skip_space rest)
           then Some (PyDict (Dict.set key v acc), tail (skip_space rest))
           else None
    else None.
Proof. reflexivity. Qed.

Lemma for_all_cons {A B} (f : A → result B) x l :
  for_all f (x :: l) = y ← f x; ys ← for_all f l; Ok (y :: ys).
Proof. reflexivity. Qed.

Lemma join_cons sep x y l :
  Str.join sep (x :: y :: l) = x +:+ sep +:+ Str.join sep (y :: l).
Proof. reflexivity. Qed.

(** Induction on a value that reaches the items of tuples, lists and
    dictionaries. *)
Lemma pyvalue_nested_ind (P : pyvalue → Prop) :
  P PyNone →
  (∀ b, P (PyBool b)) →
  (∀ z, P (PyInt z)) →
  (∀ s, P (PyStr s)) →
  (∀ q, P (PyFloat q)) →
  (∀ items, Forall P items → P (PyTuple items)) →
  (∀ items, Forall P items → P (PyList items)) →
  (∀ items, Forall (λ item, P item.2) items → P (PyDict items)) →
  (∀ id, P (PyObject id)) →
  ∀ v, P v.
Proof.
  intros Hnone Hbool Hint Hstr Hfloat Htuple Hlist Hdict Hobject.
  fix IH 1. intros [|b|z|s|q|items|items|items|id].
  - apply Hnone.
  - apply Hbool.
  - apply Hint.
  - apply Hstr.
  - apply Hfloat.
  - apply Htuple. revert items. fix IHitems 1.
    intros [|x items]; constructor; [apply IH|apply IHitems].
  - apply Hlist. revert items. fix IHitems 1.
    intros [|x items]; constructor; [apply IH|apply IHitems].
  - apply Hdict. revert items. fix IHitems 1.
    intros [|[k x] items]; constructor; [apply IH|apply IHitems].
  - apply Hobject.
Qed.

Section RoundTrip.
Variable float_repr : Q → string.

Local Abbreviation encode := (json_encode float_repr).
Local Abbreviation encode_member :=
  (λ item : string * pyvalue,
     let '(key, value) := item in
     text ← encode value; Ok (json_string key +:+ ": " +:+ text)).
Local Abbreviation decoded_member :=
  (λ item : string * pyvalue, let '(key, value) := item in (key, decoded value)).

Local Abbreviation decodes := (decodes float_repr).

Lemma encode_start v text :
  encode v = Ok text → plain v = true → value_start text = true.
Proof.
  destruct v as [|[]|z|s|q|items|items|items|id]; simpl;
    try (by intros [= <-]); try done.
  - intros [= <-] _. apply pretty_start.
  - destruct (for_all encode items); simpl; [|done]. by intros [= <-].
  - destruct (for_all encode items); simpl; [|done]. by intros [= <-].
  - destruct (for_all _ items); simpl; [|done]. by intros [= <-].
Qed.

Lemma scan_elements_encode items :
  Forall decodes items →
  ∀ texts, for_all encode items = Ok texts →
  forallb plain items = true →
  items ≠ [] →
  ∀ fuel rest acc,
    (2 * String.length (Str.join ", " texts) < fuel)%nat →
    scan_elements fuel (Str.join ", " texts +:+ String "]" rest) acc
    = Some (PyList (acc ++ (decoded <$> items)), rest).
Proof.
  induction 1 as [|x items Hx _ IH]; [done|].
  intros texts Henc [Hplain Hplains]%andb_true_iff _ fuel rest acc Hfuel.
  rewrite for_all_cons in Henc.
  destruct (encode x) as [t|] eqn:Ht; [|done].
  destruct (for_all encode items) as [ts|] eqn:Hts; [|done].
  injection Henc as <-. destruct fuel as [|fuel]; [lia|].
  rewrite scan_elements_step. destruct items as [|x' items].
  - injection Hts as <-. cbn [Str.join] in *.
    rewrite (Hx t Ht Hplain fuel (String "]" rest)) by (done || lia).
    by rewrite fmap_cons.
  - rewrite for_all_cons in Hts.
    destruct (encode x') as [t'|] eqn:Ht'; [|done].
    destruct (for_all encode items) as [ts'|] eqn:Hts'; [|done].
    injection Hts as <-. rewrite join_cons in *.
    rewrite !app_assoc_s. rewrite length_app_s in Hfuel.
    change (", " +:+ ?s) with (String "," (String " " s)) in *.
    cbn [String.length] in Hfuel.
    rewrite (Hx t Ht Hplain fuel) by (done || lia).
    cbn [mbind option_bind].
    change (skip_space (String "," ?s)) with (String "," s).
    change (head_is "," (String "," ?s)) with true. cbv iota. cbn [tail].
    change (skip_space (String " " ?s)) with (skip_space s).
    assert (value_start (Str.join ", " (t' :: ts')) = true) as Hstart.
    { destruct ts'; [|rewrite join_cons];
        [|apply value_start_app]; apply (encode_start x');
        try done; by apply andb_true_iff in Hplains as [? _]. }
    apply (value_start_app _ (String "]" rest)) in Hstart as (_ & -> & _).
    rewrite (IH (t' :: ts')) by (done || lia). by rewrite <-app_assoc.
Qed.

Lemma member_text key text :
  json_string key +:+ ": " +:+ text
  = String quote
      (json_escape_all key +:+ String quote (String ":" (String " " text))).
Proof. unfold json_string. by rewrite app_cons, app_assoc_s. Qed.

Lemma join_head sep x l : ∃ y, Str.join sep (x :: l) = x +:+ y.
Proof.
  destruct l as [|x' l]; [exists ""|eexists; apply join_cons].
  simpl. induction x as [|c x IH]; [done|]. by rewrite app_cons, <-IH.
Qed.

Lemma scan_members_encode items :
  Forall (λ item, decodes item.2) items →
  ∀ texts, for_all encode_member items = Ok texts →
  forallb (λ item : string * pyvalue, let '(_, value) := item in plain value)
    items = true →
  items ≠ [] →
  ∀ fuel rest acc,
    NoDup (Dict.keys acc ++ items.*1) →
    (2 * String.length (Str.join ", " texts) < fuel)%nat →
    scan_members fuel (Str.join ", " texts +:+ String "}" rest) acc
    = Some (PyDict (acc ++ (decoded_member <$> items)), rest).
Proof.
  induction 1 as [|[k x] items Hx _ IH]; [done|].
  intros texts Henc [Hplain Hplains]%andb_true_iff _ fuel rest acc Hkeys Hfuel.
  rewrite for_all_cons in Henc. cbn [snd] in Hx.
  destruct (encode x) as [t|] eqn:Ht; [|done].
  unfold mbind at 2, result_bind at 2 in Henc.
  unfold mbind at 1, result_bind at 1 in Henc.
  destruct (for_all _ items) as [ts|] eqn:Hts; [|done].
  injection Henc as <-. destruct fuel as [|fuel]; [lia|].
  assert (k ∉ Dict.keys acc) as Hk.
  { apply NoDup_app in Hkeys as (_ & Hdisjoint & _).
    intros Hin. apply (Hdisjoint k Hin). by left. }
  apply contains_false_keys in Hk.
  pose proof (proj1 (value_start_app t ""
                       (encode_start x t Ht Hplain))) as Hstart.
  destruct items as [|[k' x'] items].
  - injection Hts as <-. cbn [Str.join] in *.
    rewrite !app_assoc_s, member_text, scan_members_step, scan_string_encode.
    rewrite length_app_s, length_app_s in Hfuel.
    cbn [mbind option_bind].
    change (skip_space (String ":" ?s)) with (String ":" s).
    change (head_is ":" (String ":" ?s)) with true. cbv iota. cbn [tail].
    change (skip_space (String " " ?s)) with (skip_space s).
    destruct (value_start_app t (String "}" rest)
                (encode_start x t Ht Hplain)) as (_ & -> & _).
    rewrite (Hx t Ht Hplain fuel (String "}" rest)) by (done || lia).
    cbn [mbind option_bind]. by rewrite set_fresh.
  - rewrite for_all_cons in Hts.
    destruct (encode x') as [t'|] eqn:Ht'; [|done].
    unfold mbind at 2, result_bind at 2 in Hts.
    unfold mbind at 1, result_bind at 1 in Hts.
    destruct (for_all _ items) as [ts'|] eqn:Hts'; [|done].
    injection Hts as <-. rewrite join_cons in *.
    set (m' := json_string k' +:+ ": " +:+ t') in *.
    rewrite !app_assoc_s, member_text, scan_members_step, scan_string_encode.
    rewrite !length_app_s in Hfuel.
    change (", " +:+ ?s) with (String "," (String " " s)) in *.
    cbn [String.length] in Hfuel.
    cbn [mbind option_bind].
    change (skip_space (String ":" ?s)) with (String ":" s).
    change (head_is ":" (String ":" ?s)) with true. cbv iota. cbn [tail].
    change (skip_space (String " " ?s)) with (skip_space s).
    destruct (value_start_app t
                (String "," (String " " (Str.join ", " (m' :: ts')
                                         +:+ String "}" rest)))
                (encode_start x t Ht Hplain)) as (_ & -> & _).
    rewrite (Hx t Ht Hplain fuel) by (done || lia).
    cbn [mbind option_bind].
    change (skip_space (String "," ?s)) with (String "," s).
    change (head_is "," (String "," ?s)) with true. cbv iota. cbn [tail].
    change (skip_space (String " " ?s)) with (skip_space s).
    assert (skip_space (Str.join ", " (m' :: ts') +:+ String "}" rest)
            = Str.join ", " (m' :: ts') +:+ String "}" rest) as ->.
    { by destruct (join_head ", " m' ts') as [y ->]. }
    rewrite set_fresh by done.
    rewrite (IH (m' :: ts')); [by rewrite <-app_assoc|done..| |lia].
    by rewrite keys_app, <-app_assoc.
Qed.

(** Every plain value is decoded from its text. *)
Lemma encode_decodes v : decodes v.
Proof.
  induction v as [|b|z|s|q|items IH|items IH|items IH|id]
    using pyvalue_nested_ind;
    intros text Henc Hplain fuel rest Hrest Hfuel; try done.
  - injection Henc as <-. by destruct fuel; [simpl in Hfuel; lia|].
  - destruct fuel; [destruct b; injection Henc as <-; simpl in Hfuel; lia|].
    by destruct b; injection Henc as <-.
  - injection Henc as <-.
    pose proof (pretty_start z) as Hstart.
    destruct (pretty z) as [|c t] eqn:Hz; [done|].
    destruct fuel; [simpl in Hfuel; lia|].
    assert (∃ d, digit_value c = Some d ∨ c = "-"%char) as [d Hc].
    { destruct z as [|p|p].
      - injection Hz as <- <-. by exists 0; left.
      - destruct (pretty_go_head (Npos p) "" ltac:(lia))
          as (c' & t' & d & Heq & Hc & Hd).
        unfold pretty, pretty_Z, pretty, pretty_positive, pretty,
          pretty_N in Hz.
        rewrite decide_False, Heq in Hz by done.
        injection Hz as <- <-. by exists d; left.
      - injection Hz as <- _. by exists 0; right. }
    rewrite app_cons, (scan_value_number _ _ _ d Hc), <-app_cons, <-Hz.
    by rewrite scan_integer_pretty.
  - injection Henc as <-. destruct fuel; [simpl in Hfuel; lia|].
    unfold json_string. rewrite app_cons, app_assoc_s, scan_value_string.
    change (String quote "" +:+ rest) with (String quote rest).
    by rewrite scan_string_encode.
  - cbn in Henc. destruct (for_all encode items) as [texts|] eqn:Ht; [|done].
    injection Henc as <-. cbn [plain] in Hplain.
    destruct fuel; [simpl in Hfuel; lia|].
    change (("[" +:+ ?j +:+ "]") +:+ rest)
      with (String "[" ((j +:+ "]") +:+ rest)).
    rewrite app_assoc_s, scan_value_list.
    change ("]" +:+ rest) with (String "]" rest).
    change ("[" +:+ ?j +:+ "]") with (String "[" (j +:+ "]")) in Hfuel.
    cbn [String.length] in Hfuel. rewrite length_app_s in Hfuel.
    cbn [String.length] in Hfuel.
    destruct items as [|x items].
    + by injection Ht as <-.
    + assert (value_start (Str.join ", " texts) = true) as Hstart.
      { rewrite for_all_cons in Ht.
        destruct (encode x) as [t|] eqn:Hx; [|done].
        destruct (for_all encode items) as [ts|]; [|done].
        injection Ht as <-. destruct (join_head ", " t ts) as [y ->].
        apply value_start_app, (encode_start x); [done|].
        by apply andb_true_iff in Hplain as [? _]. }
      destruct (value_start_app _ (String "]" rest) Hstart) as (_ & -> & ->).
      by rewrite (scan_elements_encode _ IH texts) by (done || lia).
  - cbn in Henc. destruct (for_all encode items) as [texts|] eqn:Ht; [|done].
    injection Henc as <-. cbn [plain] in Hplain.
    destruct fuel; [simpl in Hfuel; lia|].
    change (("[" +:+ ?j +:+ "]") +:+ rest)
      with (String "[" ((j +:+ "]") +:+ rest)).
    rewrite app_assoc_s, scan_value_list.
    change ("]" +:+ rest) with (String "]" rest).
    change ("[" +:+ ?j +:+ "]") with (String "[" (j +:+ "]")) in Hfuel.
    cbn [String.length] in Hfuel. rewrite length_app_s in Hfuel.
    cbn [String.length] in Hfuel.
    destruct items as [|x items].
    + by injection Ht as <-.
    + assert (value_start (Str.join ", " texts) = true) as Hstart.
      { rewrite for_all_cons in Ht.
        destruct (encode x) as [t|] eqn:Hx; [|done].
        destruct (for_all encode items) as [ts|]; [|done].
        injection Ht as <-. destruct (join_head ", " t ts) as [y ->].
        apply value_start_app, (encode_start x); [done|].
        by apply andb_true_iff in Hplain as [? _]. }
      destruct (value_start_app _ (String "]" rest) Hstart) as (_ & -> & ->).
      by rewrite (scan_elements_encode _ IH texts) by (done || lia).
  - cbn in Henc.
    destruct (for_all encode_member items) as [texts|] eqn:Ht; [|done].
    injection Henc as <-. cbn [plain] in Hplain.
    apply andb_true_iff in Hplain as [Hkeys%bool_decide_eq_true Hplain].
    destruct fuel; [simpl in Hfuel; lia|].
    change (("{" +:+ ?j +:+ "}") +:+ rest)
      with (String "{" ((j +:+ "}") +:+ rest)).
    rewrite app_assoc_s, scan_value_dict.
    change ("}" +:+ rest) with (String "}" rest).
    change ("{" +:+ ?j +:+ "}") with (String "{" (j +:+ "}")) in Hfuel.
    cbn [String.length] in Hfuel. rewrite length_app_s in Hfuel.
    cbn [String.length] in Hfuel.
    destruct items as [|[k x] items].
    + by injection Ht as <-.
    + assert (∃ y, Str.join ", " texts = String quote y) as [y Hy].
      { rewrite for_all_cons in Ht. cbn in Ht.
        destruct (encode x) as [t|]; [|done]. cbn in Ht.
        destruct (for_all _ items) as [ts|]; [|done].
        injection Ht as <-. destruct (join_head ", "
          (json_string k +:+ ": " +:+ t) ts) as [y ->]. by eexists. }
      assert (skip_space (Str.join ", " texts +:+ String "}" rest)
              = Str.join ", " texts +:+ String "}" rest) as ->
        by (by rewrite Hy).
      assert (head_is "}" (Str.join ", " texts +:+ String "}" rest) = false)
        as -> by (by rewrite Hy).
      by rewrite (scan_members_encode _ IH texts) by (done || lia).
Qed.

Lemma app_nil_r_s (s : string) : s +:+ "" = s.
Proof. induction s as [|c s IH]; [done|]. by rewrite app_cons, IH. Qed.

(** [json.loads] of the text [json.dumps] returns for a plain value is
    the value, with lists for its tuples. *)
Lemma json_loads_encode v text :
  encode v = Ok text → plain v = true → json_loads text = Ok (decoded v).
Proof.
  intros Henc Hplain. unfold json_loads.
  destruct (value_start_app text "" (encode_start v text Henc Hplain))
    as (_ & Hskip & _).
  rewrite app_nil_r_s in Hskip. rewrite Hskip.
  pose proof (encode_decodes v text Henc Hplain
                (2 * String.length text)%nat "" eq_refl (le_n _)) as Hscan.
  rewrite app_nil_r_s in Hscan. by rewrite Hscan.
Qed.

End RoundTrip.

(** ** The line of JSON, read back *)

Lemma filter_all {A} (P : A → Prop) `{!∀ x, Decision (P x)} l :
  Forall P l → filter P l = l.
Proof.
  induction 1 as [|x l Hx _ IH]; [done|]. by rewrite filter_cons_True, IH.
Qed.

Lemma filter_none {A} (P : A → Prop) `{!∀ x, Decision (P x)} l :
  Forall (λ x, ¬ P x) l → filter P l = [].
Proof.
  induction 1 as [|x l Hx _ IH]; [done|]. by rewrite filter_cons_False.
Qed.

Lemma decoded_keys (items : dict pyvalue) :
  Dict.keys ((λ item : string * pyvalue,
                let '(key, value) := item in (key, decoded value)) <$> items)
  = Dict.keys items.
Proof.
  induction items as [|[k v] items IH]; [done|].
  unfold Dict.keys in *. rewrite !fmap_cons, IH. done.
Qed.

Lemma plain_items (items : dict pyvalue) :
  Forall (λ item, plain item.2 = true) items →
  forallb (λ item : string * pyvalue, let '(_, value) := item in plain value)
    items = true.
Proof.
  induction 1 as [|[k v] items Hv _ IH]; [done|]. simpl in *.
  by rewrite Hv, IH.
Qed.

Section FormatRoundTrip.
Variables (default_service_name : string) (environ attrs : gmap string string).
Variables (localtime : option Z → struct_time) (str_other : pyvalue → string).
Variable str_mod : string → pyvalue → result string.

Local Abbreviation payload_of' :=
  (payload_of default_service_name environ attrs localtime str_other str_mod).
Local Abbreviation format' :=
  (format default_service_name environ attrs localtime str_other str_mod).

Lemma payload_fixed_keys record payload :
  payload_of' record = Ok payload → fixed_keys payload = fixed_field_names.
Proof.
  intros (fields & Hf & Hkeys & ->)%payload_of_Ok.
  unfold fixed_keys. rewrite keys_app, filter_app, Hkeys.
  rewrite filter_all by (by apply Forall_forall).
  rewrite filter_none, app_nil_r; [done|].
  apply Forall_forall. intros key Hkey Hfixed.
  by apply (fixed_not_extension key record).
Qed.

(** When [format] returns a line, parsing the line gives the payload back
    key for key (if no value of the payload is a [float]): its keys that
    are fixed field names are the twelve, in order, and its other keys are
    the names of the attributes of the record that are neither fixed field
    names nor reserved. *)
Lemma format_round_trip record text :
  format' record = Ok text →
  ∃ payload,
    payload_of' record = Ok payload
    ∧ (Forall (λ item, plain item.2 = true) payload →
       ∃ back,
         json_loads text = Ok (PyDict back)
         ∧ Dict.keys back = Dict.keys payload
         ∧ fixed_keys back = fixed_field_names
         ∧ ∀ key, key ∈ extension_keys back
                  ↔ key ∈ Dict.keys record ∧ (key ∉ fixed_field_names)
                    ∧ reserved key = false).
Proof.
  unfold format. intros H. bind_inv H. rename a into payload.
  exists payload. split; [done|]. intros Hplain.
  eexists. split; [|split_and!].
  - apply (json_loads_encode _ (PyDict payload) text H).
    cbn [plain]. rewrite plain_items by done.
    rewrite andb_true_r. apply bool_decide_eq_true.
    destruct (payload_of_Ok _ _ _ _ _ _ _ _ E) as (fields & _ & Hkeys & ->).
    fold (Dict.keys
            (fields ++ extension (list_to_set fixed_field_names) record)).
    rewrite keys_app, Hkeys. apply payload_keys_NoDup.
  - apply decoded_keys.
  - unfold fixed_keys. rewrite decoded_keys.
    apply (payload_fixed_keys _ _ E).
  - intros key. unfold extension_keys. rewrite decoded_keys.
    apply (payload_extension_keys _ _ _ _ _ _ _ _ _ E).
Qed.

End FormatRoundTrip.

(** C2.  The line written for
    [logger.info("backend api", extra={"hits": 5, "latency_ms": 12})],
    when it is parsed back, has the twelve fixed keys, and beyond them the
    keys [name], [hits] and [latency_ms]: one more than the attributes the
    caller supplied. *)
Theorem logger_name_among_extension_keys :
  makeRecord api_call api_extra = Ok api_record
  ∧ (backend_format example_environ example_attrs utc no_str no_mod
       api_record ≫= json_loads) = Ok (PyDict api_payload)
  ∧ fixed_keys api_payload = fixed_field_names
  ∧ Dict.keys api_extra = ["hits"; "latency_ms"]
  ∧ extension_keys api_payload = ["name"; "hits"; "latency_ms"].
Proof. split_and!; by vm_compute. Qed.

(** * Further properties *)

(** ** More on the built-in methods of [str] *)

Lemma lstrip_idemp s : Str.lstrip (Str.lstrip s) = Str.lstrip s.
Proof.
  induction s as [|c s IH]; [done|]. simpl.
  destruct (Str.isspace c) eqn:Hc; [done|]. simpl. by rewrite Hc.
Qed.

Lemma rstrip_lstrip s : Str.rstrip (Str.lstrip s) = Str.lstrip (Str.rstrip s).
Proof.
  induction s as [|c s IH]; [done|].
  destruct (Str.isspace c) eqn:Hc.
  - cbn [Str.lstrip]. rewrite Hc, IH. cbn [Str.rstrip]. rewrite Hc.
    destruct (Str.rstrip s) as [|d r] eqn:Hr; [done|].
    cbn [Str.lstrip]. by rewrite Hc.
  - cbn [Str.lstrip]. rewrite Hc, rstrip_cons by done.
    cbn [Str.lstrip]. by rewrite Hc.
Qed.

Lemma strip_idemp s : Str.strip (Str.strip s) = Str.strip s.
Proof.
  unfold Str.strip.
  by rewrite rstrip_lstrip, rstrip_idemp, lstrip_idemp.
Qed.

Lemma strip_lstrip s : Str.strip (Str.lstrip s) = Str.strip s.
Proof. unfold Str.strip. by rewrite rstrip_lstrip, lstrip_idemp. Qed.

Lemma contains_before_first c sep s :
  Str.contains c (Spec.before_first sep s) = true → Str.contains c s = true.
Proof.
  induction s as [|a s IH]; simpl; [done|].
  destruct (Ascii.eqb a sep); simpl; [done|].
  intros [->| ->%IH]%orb_true_iff; [done|apply orb_true_r].
Qed.

Lemma contains_after_first c sep s :
  Str.contains c (Spec.after_first sep s) = true → Str.contains c s = true.
Proof.
  induction s as [|a s IH]; simpl; [done|].
  destruct (Ascii.eqb a sep); intros H;
    [rewrite H|rewrite (IH H)]; apply orb_true_r.
Qed.

Lemma before_first_free sep s :
  Str.contains sep (Spec.before_first sep s) = false.
Proof.
  induction s as [|a s IH]; simpl; [done|].
  destruct (Ascii.eqb a sep) eqn:Ha; simpl; [done|]. by rewrite Ha, IH.
Qed.

Lemma contains_piece c sep s p :
  p ∈ Str.split sep s → Str.contains c p = true → Str.contains c s = true.
Proof.
  revert p. induction s as [|a s IH]; simpl; intros p Hp Hc.
  - by apply list_elem_of_singleton in Hp as ->.
  - destruct (Ascii.eqb a sep).
    + apply elem_of_cons in Hp as [->|Hp]; [done|].
      rewrite (IH p Hp Hc). apply orb_true_r.
    + destruct (split_cons sep s) as (q & qs & Hs). rewrite Hs in *.
      apply elem_of_cons in Hp as [->|Hp].
      * simpl in Hc. apply orb_true_iff in Hc as [->|Hc]; [done|].
        rewrite (IH q) by (done || by left). apply orb_true_r.
      * rewrite (IH p) by (done || by right). apply orb_true_r.
Qed.

Lemma not_contains {c s} :
  Str.contains c s = false ↔ ¬ (Str.contains c s = true).
Proof. by destruct (Str.contains c s). Qed.

Lemma contains_app c a b :
  Str.contains c (a +:+ b) = Str.contains c a || Str.contains c b.
Proof.
  induction a as [|x a IH]; [done|]. rewrite app_cons. simpl.
  by rewrite IH, orb_assoc.
Qed.

Lemma rstrip_app_cons a c b :
  Str.isspace c = false →
  Str.rstrip (a +:+ String c b) = a +:+ String c (Str.rstrip b).
Proof.
  intros Hc. induction a as [|x a IH]; [by apply rstrip_cons|].
  rewrite !app_cons. cbn [Str.rstrip]. rewrite IH.
  by destruct a.
Qed.

Lemma lstrip_app_cons a c b :
  Str.isspace c = false →
  Str.lstrip (a +:+ String c b) = Str.lstrip a +:+ String c b.
Proof.
  intros Hc. induction a as [|x a IH]; [by simpl; rewrite Hc|].
  rewrite app_cons. cbn [Str.lstrip]. by destruct (Str.isspace x).
Qed.

Lemma before_first_app sep a b :
  Str.contains sep a = false → Spec.before_first sep (a +:+ String sep b) = a.
Proof.
  induction a as [|x a IH]; simpl.
  - by rewrite Ascii.eqb_refl.
  - intros [Hx Ha]%orb_false_iff. by rewrite Hx, IH.
Qed.

Lemma after_first_app sep a b :
  Str.contains sep a = false → Spec.after_first sep (a +:+ String sep b) = b.
Proof.
  induction a as [|x a IH]; simpl.
  - by rewrite Ascii.eqb_refl.
  - intros [Hx Ha]%orb_false_iff. by rewrite Hx, IH.
Qed.

(** ** More on [parse_resource_attributes] *)

Lemma foldl_enter_lookup l attrs key value :
  foldl Spec.enter attrs l !! key = Some value →
  (key, value) ∈ l ∨ attrs !! key = Some value.
Proof.
  revert attrs. induction l as [|[k v] l IH]; intros attrs; simpl; [by right|].
  intros [Hin|Hattrs]%IH; [left; by right|].
  unfold Spec.enter in Hattrs. simpl in Hattrs.
  destruct (decide (k = key)) as [->|Hne].
  - rewrite lookup_insert_eq in Hattrs. injection Hattrs as ->. left. by left.
  - rewrite lookup_insert_ne in Hattrs by done. by right.
Qed.

(** Every attribute of the result comes from a segment of the string. *)
Lemma parsed_attribute_source raw key value :
  Spec.parse raw !! key = Some value →
  ∃ part, part ∈ Str.split "," raw
          ∧ Str.contains "=" (Str.strip part) = true
          ∧ key = Str.strip (Spec.before_first "=" (Str.strip part))
          ∧ value = Str.strip (Spec.after_first "=" (Str.strip part)).
Proof.
  unfold Spec.parse, Spec.segments.
  intros [Hin|Hempty]%foldl_enter_lookup; [|by rewrite lookup_empty in Hempty].
  apply list_elem_of_fmap in Hin as (segment & Heq & Hseg).
  apply list_elem_of_filter in Hseg as [Hwf Hseg].
  apply list_elem_of_fmap in Hseg as (part & -> & Hpart).
  unfold Spec.attribute_of in Heq. injection Heq as -> ->.
  exists part. split_and!; [done| |done..].
  unfold Spec.well_formed in Hwf.
  by apply Is_true_true, andb_true_iff in Hwf as [_ ?].
Qed.

(** X1.  The keys and values of the mapping are trimmed; no key holds an
    ["="] or a [","], and no value holds a [","]. *)
Theorem parsed_attributes_clean raw attrs key value :
  Backend.parse_resource_attributes raw = Ok attrs →
  attrs !! key = Some value →
  Str.strip key = key ∧ Str.strip value = value
  ∧ Str.contains "=" key = false
  ∧ Str.contains "," key = false ∧ Str.contains "," value = false.
Proof.
  rewrite backend_parse_spec. intros [= <-] Hlookup.
  destruct (parsed_attribute_source raw key value Hlookup)
    as (part & Hpart & _ & -> & ->).
  pose proof (split_pieces _ _ _ Hpart) as Hcomma.
  split_and!; [apply strip_idemp..| | |].
  - apply not_contains. intros H%contains_strip.
    by rewrite before_first_free in H.
  - apply not_contains.
    intros H%contains_strip%contains_before_first%contains_strip. congruence.
  - apply not_contains.
    intros H%contains_strip%contains_after_first%contains_strip. congruence.
Qed.

Lemma parsed_attributes_clean_witness :
  Backend.parse_resource_attributes " a = 1=2 , b=3"
  = Ok {[ "a" := "1=2"; "b" := "3" ]}
  ∧ Str.strip "a" = "a" ∧ Str.strip "1=2" = "1=2"
  ∧ Str.contains "=" "a" = false
  ∧ Str.contains "," "a" = false ∧ Str.contains "," "1=2" = false.
Proof.
  split; [reflexivity|].
  apply (parsed_attributes_clean " a = 1=2 , b=3"
           {[ "a" := "1=2"; "b" := "3" ]} "a" "1=2"); reflexivity.
Defined.

(** X2.  A string without any ["="] defines no attribute. *)
Theorem parse_without_equals raw :
  Str.contains "=" raw = false →
  Backend.parse_resource_attributes raw = Ok ∅.
Proof.
  intros Hraw. rewrite backend_parse_spec. f_equal.
  apply map_eq. intros key. rewrite lookup_empty.
  destruct (Spec.parse raw !! key) as [value|] eqn:Hlookup; [|done].
  destruct (parsed_attribute_source raw key value Hlookup)
    as (part & Hpart & Heq%contains_strip & _).
  rewrite (contains_piece _ _ _ _ Hpart Heq) in Hraw. done.
Qed.

Lemma parse_without_equals_witness :
  Str.contains "=" " , bad,, " = false
  ∧ Backend.parse_resource_attributes " , bad,, " = Ok ∅.
Proof.
  split; [reflexivity|]. apply (parse_without_equals " , bad,, "). reflexivity.
Defined.

Lemma spec_parse_pair key value :
  Str.contains "," key = false →
  Str.contains "=" key = false →
  Str.contains "," value = false →
  Spec.parse (key +:+ String "=" value)
  = {[ Str.strip key := Str.strip value ]}.
Proof.
  intros Hk1 Hk2 Hv. unfold Spec.parse, Spec.segments.
  rewrite split_without
    by (rewrite contains_app; simpl; by rewrite Hk1, Hv).
  cbn [fmap list_fmap]. rewrite filter_bool_cons.
  assert (Str.strip (key +:+ String "=" value)
          = Str.lstrip key +:+ String "=" (Str.rstrip value)) as ->.
  { unfold Str.strip. by rewrite rstrip_app_cons, lstrip_app_cons. }
  assert (Str.contains "=" (Str.lstrip key) = false) as Hk3.
  { apply not_contains. intros H%contains_lstrip. congruence. }
  assert (Spec.well_formed (Str.lstrip key +:+ String "=" (Str.rstrip value))
          = true) as ->.
  { unfold Spec.well_formed. rewrite contains_app. simpl.
    rewrite orb_true_r, andb_true_r. by destruct (Str.lstrip key). }
  cbn [filter list_filter fmap list_fmap foldl].
  unfold Spec.attribute_of, Spec.enter. simpl.
  rewrite before_first_app, after_first_app by done.
  by rewrite strip_lstrip, strip_rstrip, insert_empty.
Qed.

(** X3.  Appending [",key=value"] to any string sets [key] to [value]
    (both trimmed) in the result and changes nothing else. *)
Theorem parse_append raw key value :
  Str.contains "," key = false →
  Str.contains "=" key = false →
  Str.contains "," value = false →
  ∃ attrs,
    Backend.parse_resource_attributes raw = Ok attrs
    ∧ Backend.parse_resource_attributes
        (raw +:+ "," +:+ key +:+ "=" +:+ value)
      = Ok (<[Str.strip key := Str.strip value]> attrs).
Proof.
  intros Hk1 Hk2 Hv. exists (Spec.parse raw).
  split; [apply backend_parse_spec|]. rewrite backend_parse_spec. f_equal.
  change (raw +:+ "," +:+ key +:+ "=" +:+ value)
    with (raw +:+ String "," (key +:+ String "=" value)).
  rewrite spec_parse_app, spec_parse_pair by done.
  by rewrite <-insert_union_singleton_l.
Qed.

Lemma parse_append_witness :
  Str.contains "," " env " = false
  ∧ Str.contains "=" " env " = false
  ∧ Str.contains "," "a=b " = false
  ∧ ∃ attrs,
      Backend.parse_resource_attributes "env=x,v=1" = Ok attrs
      ∧ Backend.parse_resource_attributes "env=x,v=1, env =a=b "
        = Ok (<["env" := "a=b"]> attrs).
Proof.
  split_and!; [reflexivity..|].
  apply (parse_append "env=x,v=1" " env " "a=b "); reflexivity.
Defined.

(** ** More on the loop of [format] *)

Lemma filter_ext_elem {A} (P Q : A → Prop)
    `{!∀ x, Decision (P x), !∀ x, Decision (Q x)} (l : list A) :
  (∀ x, x ∈ l → P x ↔ Q x) → filter P l = filter Q l.
Proof.
  induction l as [|x l IH]; intros Hext; [done|].
  rewrite !filter_cons, IH by (intros y Hy; apply Hext; by right).
  destruct (decide (P x)) as [HP|HP], (decide (Q x)) as [HQ|HQ];
    try done; exfalso; apply (Hext x) in HP || apply (Hext x) in HQ;
    done || by left.
Qed.

Lemma extension_filter seen (record : list (string * pyvalue)) :
  NoDup record.*1 →
  extension seen record
  = filter (λ item, (item.1 ∉ seen) ∧ reserved item.1 = false) record.
Proof.
  revert seen. induction record as [|[k v] record IH]; intros seen Hkeys;
    [done|].
  rewrite fmap_cons in Hkeys.
  apply NoDup_cons in Hkeys as [Hk Hkeys]. cbn [extension].
  rewrite filter_cons. cbn [fst].
  destruct (bool_decide_reflect (k ∈ seen)) as [Hin|Hout]; cbn [orb].
  - rewrite decide_False by tauto. by apply IH.
  - destruct (reserved k) eqn:Hres.
    + rewrite decide_False by (intros [_ ?]; done). by apply IH.
    + rewrite decide_True by done. f_equal. rewrite IH by done.
      apply filter_ext_elem. intros [k' v'] Hin. cbn [fst].
      rewrite not_elem_of_union, not_elem_of_singleton.
      assert (k' ≠ k); [|tauto].
      intros ->. apply Hk. apply list_elem_of_fmap. by exists (k, v').
Qed.

Lemma extension_elem key value seen record :
  (key, value) ∈ extension seen record →
  (key, value) ∈ record ∧ (key ∉ seen) ∧ reserved key = false.
Proof.
  revert seen. induction record as [|[k v] record IH]; intros seen;
    cbn [extension]; [by intros ?%elem_of_nil|].
  destruct (bool_decide_reflect (k ∈ seen)) as [Hin|Hout]; cbn [orb].
  - intros (? & ? & ?)%IH. split; [by right|done].
  - destruct (reserved k) eqn:Hres.
    + intros (? & ? & ?)%IH. split; [by right|done].
    + intros [[= -> ->]|(? & Hn & ?)%IH]%elem_of_cons.
      * split; [by left|done].
      * split; [by right|]. split; [|done].
        intros ?. apply Hn. apply elem_of_union. by right.
Qed.

Lemma extension_get key value seen record :
  Dict.get key record = Some value →
  key ∉ seen → reserved key = false →
  (key, value) ∈ extension seen record.
Proof.
  revert seen. induction record as [|[k v] record IH]; intros seen;
    cbn [extension Dict.get]; [done|].
  destruct (String.eqb_spec k key) as [->|Hne].
  - intros [= ->] Hseen Hres.
    rewrite bool_decide_eq_false_2, Hres by done. by left.
  - intros Hget Hseen Hres.
    destruct (bool_decide (k ∈ seen) || reserved k); [by apply IH|].
    right. apply IH; [done| |done].
    rewrite not_elem_of_union, not_elem_of_singleton. by split.
Qed.

Lemma fixed_names_not_reserved :
  Forall (λ key, reserved key = false) fixed_field_names.
Proof.
  apply (bool_decide_unpack
           (Forall (λ key, reserved key = false) fixed_field_names)).
  by vm_compute.
Qed.

Section MoreFormatterFacts.
Variables (default_service_name : string) (environ attrs : gmap string string).
Variables (localtime : option Z → struct_time) (str_other : pyvalue → string).
Variable str_mod : string → pyvalue → result string.

Local Abbreviation fixed_fields' :=
  (fixed_fields default_service_name environ attrs localtime str_other str_mod).
Local Abbreviation payload_of' :=
  (payload_of default_service_name environ attrs localtime str_other str_mod).
Local Abbreviation format' :=
  (format default_service_name environ attrs localtime str_other str_mod).

(** X4.  No key of a payload starts with [otel] or is one of the excluded
    attribute names: the bookkeeping of the logging library and of the
    instrumentation is never written out. *)
Theorem reserved_never_emitted record payload key :
  payload_of' record = Ok payload →
  key ∈ Dict.keys payload →
  Str.startswith "otel" key = false
  ∧ in_tuple key excluded_attributes = false.
Proof.
  intros (fields & Hf & Hkeys & ->)%payload_of_Ok.
  rewrite keys_app, Hkeys, elem_of_app.
  intros [Hfixed|Hext]; apply orb_false_iff.
  - by apply (proj1 (Forall_forall _ _) fixed_names_not_reserved).
  - by apply extension_keys_iff in Hext as (_ & _ & Hres).
Qed.

(** X5.  For a record whose attributes have distinct names, as the
    [__dict__] of every record has, the payload is the twelve fixed fields
    followed by the attributes that are neither named like a fixed field
    nor reserved, in the order of the record and with their values
    unchanged. *)
Theorem extension_in_order record payload :
  NoDup (Dict.keys record) →
  payload_of' record = Ok payload →
  ∃ fields,
    fixed_fields' record = Ok fields
    ∧ payload = fields ++ filter extends (record : list (string * pyvalue)).
Proof.
  intros Hkeys (fields & Hf & _ & ->)%payload_of_Ok.
  exists fields. split; [done|]. f_equal.
  rewrite extension_filter by done. apply list_filter_iff.
  intros [k v]. unfold extends. cbn [fst].
  by rewrite elem_of_list_to_set.
Qed.

End MoreFormatterFacts.

Lemma reserved_never_emitted_witness :
  payload_of "backend" example_environ example_attrs utc no_str no_mod
    traced_record = Ok traced_payload
  ∧ "otelSpanID" ∈ Dict.keys traced_record
  ∧ "hits" ∈ Dict.keys traced_payload
  ∧ Str.startswith "otel" "hits" = false
  ∧ in_tuple "hits" excluded_attributes = false.
Proof.
  assert ("hits" ∈ Dict.keys traced_payload) as Hin.
  { apply (bool_decide_unpack ("hits" ∈ Dict.keys traced_payload)).
    by vm_compute. }
  split; [by vm_compute|]. split.
  { apply (bool_decide_unpack ("otelSpanID" ∈ Dict.keys traced_record)).
    by vm_compute. }
  split; [exact Hin|].
  apply (reserved_never_emitted "backend" example_environ example_attrs utc
           no_str no_mod traced_record traced_payload "hits");
    [by vm_compute|exact Hin].
Defined.

Lemma extension_in_order_witness :
  NoDup (Dict.keys traced_record)
  ∧ payload_of "backend" example_environ example_attrs utc no_str no_mod
      traced_record = Ok traced_payload
  ∧ ∃ fields,
      fixed_fields "backend" example_environ example_attrs utc no_str no_mod
        traced_record = Ok fields
      ∧ traced_payload
        = fields ++ filter extends (traced_record : list (string * pyvalue)).
Proof.
  assert (NoDup (Dict.keys traced_record)) as Hkeys.
  { apply (bool_decide_unpack (NoDup (Dict.keys traced_record))).
    by vm_compute. }
  split; [exact Hkeys|]. split; [by vm_compute|].
  apply (extension_in_order "backend" example_environ example_attrs utc
           no_str no_mod traced_record traced_payload Hkeys).
  by vm_compute.
Defined.

(** ** More on [json.dumps] *)

Lemma for_all_Ok {A B} (f : A → result B) l :
  Forall (λ x, ∃ y, f x = Ok y) l → ∃ ys, for_all f l = Ok ys.
Proof.
  induction 1 as [|x l [y Hy] _ [ys IH]]; [by exists []|].
  exists (y :: ys). by rewrite for_all_cons, Hy, IH.
Qed.

Lemma for_all_Ok_inv {A B} (f : A → result B) l ys :
  for_all f l = Ok ys → Forall2 (λ x y, f x = Ok y) l ys.
Proof.
  revert ys. induction l as [|x l IH]; intros ys.
  - intros [= <-]. constructor.
  - rewrite for_all_cons. destruct (f x) as [y|] eqn:Hy; [|done].
    unfold mbind at 1, result_bind at 1.
    destruct (for_all f l) as [ys'|]; [|done]. intros [= <-].
    constructor; [done|by apply IH].
Qed.

Lemma for_all_Raise {A B} (f : A → result B) l e :
  for_all f l = Raise e → ∃ x, x ∈ l ∧ f x = Raise e.
Proof.
  induction l as [|x l IH]; [done|]. rewrite for_all_cons.
  destruct (f x) as [y|e'] eqn:Hy.
  - unfold mbind at 1, result_bind at 1.
    destruct (for_all f l) as [ys|e'']; [done|]. intros [= <-].
    destruct (IH eq_refl) as (x' & ? & ?). exists x'. split; [by right|done].
  - intros [= <-]. exists x. split; [by left|done].
Qed.

Lemma for_all_fails {A B} (f : A → result B) l x e :
  (∀ x' e', x' ∈ l → f x' = Raise e' → e' = e) →
  x ∈ l → f x = Raise e → for_all f l = Raise e.
Proof.
  intros Honly Hx Hfx. destruct (for_all f l) as [ys|e'] eqn:Hall.
  - apply for_all_Ok_inv in Hall.
    apply list_elem_of_lookup in Hx as [i Hi].
    destruct (Forall2_lookup_l _ _ _ _ _ Hall Hi) as (y & _ & Hy). congruence.
  - apply for_all_Raise in Hall as (x' & Hx' & Hfx').
    by rewrite (Honly x' e' Hx' Hfx').
Qed.

Lemma all_printable_app a b :
  all_printable (a +:+ b) = all_printable a && all_printable b.
Proof.
  induction a as [|c a IH]; [done|]. rewrite app_cons. simpl.
  by rewrite IH, andb_assoc.
Qed.

Lemma all_printable_join texts :
  Forall (λ text, all_printable text = true) texts →
  all_printable (Str.join ", " texts) = true.
Proof.
  induction 1 as [|t texts Ht Hts IH]; [done|].
  destruct texts as [|t' texts]; [done|].
  by rewrite join_cons, !all_printable_app, Ht, IH.
Qed.

Lemma json_escape_printable c : all_printable (json_escape c) = true.
Proof. by destruct c as [[] [] [] [] [] [] [] []]. Qed.

Lemma json_escape_all_printable s : all_printable (json_escape_all s) = true.
Proof.
  induction s as [|c s IH]; [done|]. cbn [json_escape_all].
  by rewrite all_printable_app, json_escape_printable, IH.
Qed.

Lemma json_string_printable s : all_printable (json_string s) = true.
Proof.
  unfold json_string.
  change (all_printable (String quote ?t))
    with (printable quote && all_printable t).
  by rewrite all_printable_app, json_escape_all_printable.
Qed.

Lemma pretty_go_printable x s :
  all_printable s = true → all_printable (pretty_N_go x s) = true.
Proof.
  revert s. induction (N.lt_wf_0 x) as [x _ IH]; intros s Hs.
  destruct (decide (x = 0%N)) as [->|Hx]; [done|].
  rewrite pretty_N_go_step by lia. apply IH; [apply N.div_lt; lia|].
  cbn [all_printable]. rewrite Hs, andb_true_r.
  pose proof (N.mod_lt x 10 ltac:(lia)) as Hd.
  generalize dependent (x `mod` 10)%N. intros d Hd.
  assert (d = 0 ∨ d = 1 ∨ d = 2 ∨ d = 3 ∨ d = 4 ∨ d = 5 ∨ d = 6 ∨ d = 7
          ∨ d = 8 ∨ d = 9)%N as Hcases by lia.
  by repeat destruct Hcases as [->|Hcases]; try subst d.
Qed.

Lemma pretty_printable (z : Z) : all_printable (pretty z) = true.
Proof.
  destruct z as [|p|p]; [done| |].
  - unfold pretty, pretty_Z, pretty, pretty_positive, pretty, pretty_N.
    rewrite decide_False by done. by apply pretty_go_printable.
  - change (pretty (Zneg p)) with (String "-" (pretty (Zpos p))).
    cbn [all_printable].
    unfold pretty, pretty_Z, pretty, pretty_positive, pretty, pretty_N.
    rewrite decide_False by done. by rewrite pretty_go_printable.
Qed.

Lemma all_printable_contains c s :
  all_printable s = true → printable c = false → Str.contains c s = false.
Proof.
  intros Hs Hc. induction s as [|a s IH]; [done|]. simpl in *.
  apply andb_true_iff in Hs as [Ha Hs]. rewrite IH by done.
  destruct (Ascii.eqb_spec a c) as [->|]; [congruence|done].
Qed.

Lemma forallb_elem {A} (f : A → bool) (l : list A) x :
  forallb f l = true → x ∈ l → f x = true.
Proof.
  intros Hall Hx. apply (proj1 (forallb_forall f l) Hall).
  by apply list_elem_of_In.
Qed.

Section Encoder.
Variable float_repr : Q → string.

Local Abbreviation encode := (json_encode float_repr).
Local Abbreviation encode_member :=
  (λ item : string * pyvalue,
     let '(key, value) := item in
     text ← encode value; Ok (json_string key +:+ ": " +:+ text)).

Lemma encode_member_Ok key value text :
  encode_member (key, value) = Ok text →
  ∃ t, encode value = Ok t ∧ text = json_string key +:+ ": " +:+ t.
Proof. cbn. destruct (encode value); [|done]. intros [= <-]. eauto. Qed.

(** Every value without an object of another type has a text. *)
Lemma json_encode_total v :
  encodable v = true → ∃ text, encode v = Ok text.
Proof.
  induction v as [|b|z|s|q|items IH|items IH|items IH|id]
    using pyvalue_nested_ind; cbn [encodable]; intros Henc; try done;
    try (by eexists).
  - by destruct b; eexists.
  - destruct (for_all_Ok encode items) as [texts Ht]; [|cbn; rewrite Ht; eauto].
    apply Forall_forall. intros x Hx.
    apply (proj1 (Forall_forall _ _) IH x Hx).
    by apply (forallb_elem _ _ _ Henc).
  - destruct (for_all_Ok encode items) as [texts Ht]; [|cbn; rewrite Ht; eauto].
    apply Forall_forall. intros x Hx.
    apply (proj1 (Forall_forall _ _) IH x Hx).
    by apply (forallb_elem _ _ _ Henc).
  - destruct (for_all_Ok encode_member items) as [texts Ht];
      [|cbn; rewrite Ht; eauto].
    apply Forall_forall. intros [k x] Hx.
    destruct (proj1 (Forall_forall _ _) IH (k, x) Hx) as [t Ht].
    { apply (forallb_elem _ _ _ Henc Hx). }
    cbn in Ht. cbn. rewrite Ht. eauto.
Qed.

(** The encoder raises nothing but [TypeError]. *)
Lemma json_encode_raises v e : encode v = Raise e → e = TypeError.
Proof.
  revert e. induction v as [|b|z|s|q|items IH|items IH|items IH|id]
    using pyvalue_nested_ind; intros e; cbn; try done.
  - by destruct b.
  - destruct (for_all encode items) eqn:Hall; [done|]. intros [= <-].
    apply for_all_Raise in Hall as (x & Hx & Hfx).
    by apply (proj1 (Forall_forall _ _) IH x Hx).
  - destruct (for_all encode items) eqn:Hall; [done|]. intros [= <-].
    apply for_all_Raise in Hall as (x & Hx & Hfx).
    by apply (proj1 (Forall_forall _ _) IH x Hx).
  - destruct (for_all encode_member items) eqn:Hall; [done|]. intros [= <-].
    apply for_all_Raise in Hall as ([k x] & Hx & Hfx).
    apply (proj1 (Forall_forall _ _) IH (k, x) Hx). cbn in *.
    by destruct (encode x).
  - by intros [= <-].
Qed.

(** A dictionary with an object of another type among its values has no
    text. *)
Lemma json_dumps_object payload key id :
  (key, PyObject id) ∈ payload →
  json_dumps float_repr payload = Raise TypeError.
Proof.
  intros Hin. unfold json_dumps. cbn.
  rewrite (for_all_fails encode_member payload (key, PyObject id) TypeError);
    [done| |done..].
  intros [k x] e _ Hfx. cbn in Hfx.
  destruct (encode x) eqn:Hx; [done|]. injection Hfx as <-.
  by eapply json_encode_raises.
Qed.

(** The text of a value is made of printable ASCII characters, when the
    text of a [float] is. *)
Lemma json_encode_printable v text :
  (∀ q, all_printable (float_repr q) = true) →
  encode v = Ok text → all_printable text = true.
Proof.
  intros Hfloat. revert text.
  induction v as [|b|z|s|q|items IH|items IH|items IH|id]
    using pyvalue_nested_ind; intros text; cbn; try done.
  - by intros [= <-].
  - by destruct b; intros [= <-].
  - intros [= <-]. apply pretty_printable.
  - intros [= <-]. apply json_string_printable.
  - by intros [= <-].
  - destruct (for_all encode items) as [texts|] eqn:Hall; [|done].
    intros [= <-]. apply for_all_Ok_inv in Hall.
    change ("[" +:+ ?j +:+ "]") with (String "[" (j +:+ "]")).
    cbn [all_printable]. rewrite all_printable_app, all_printable_join; [done|].
    clear -IH Hall. induction Hall as [|x t items texts Hx _ IHall];
      [constructor|].
    apply Forall_cons in IH as [IHx IH]. constructor; [by apply IHx|by apply IHall].
  - destruct (for_all encode items) as [texts|] eqn:Hall; [|done].
    intros [= <-]. apply for_all_Ok_inv in Hall.
    change ("[" +:+ ?j +:+ "]") with (String "[" (j +:+ "]")).
    cbn [all_printable]. rewrite all_printable_app, all_printable_join; [done|].
    clear -IH Hall. induction Hall as [|x t items texts Hx _ IHall];
      [constructor|].
    apply Forall_cons in IH as [IHx IH]. constructor; [by apply IHx|by apply IHall].
  - destruct (for_all encode_member items) as [texts|] eqn:Hall; [|done].
    intros [= <-]. apply for_all_Ok_inv in Hall.
    change ("{" +:+ ?j +:+ "}") with (String "{" (j +:+ "}")).
    cbn [all_printable]. rewrite all_printable_app, all_printable_join; [done|].
    clear -IH Hall. induction Hall as [|[k x] t items texts Hx _ IHall];
      [constructor|].
    apply Forall_cons in IH as [IHx IH]. constructor; [|by apply IHall].
    apply encode_member_Ok in Hx as (t' & Ht' & ->).
    rewrite !all_printable_app, json_string_printable. cbn.
    by apply IHx.
Qed.

End Encoder.

(** ** What [format] returns and raises *)

Lemma get_elem {V} key (value : V) d :
  Dict.get key d = Some value → (key, value) ∈ d.
Proof.
  induction d as [|[k v] d IH]; simpl; [done|].
  destruct (String.eqb_spec k key) as [->|_].
  - intros [= ->]. by left.
  - intros ?%IH. by right.
Qed.

(** Of the attributes [LogRecord.__init__] sets, the loop lets through
    the logger name only. *)
Lemma init_unreserved c key value :
  (key, value) ∈ LogRecord_init c → reserved key = false →
  value = PyStr (lc_name c).
Proof.
  unfold LogRecord_init. intros Hin Hres.
  repeat (apply elem_of_cons in Hin as [[= -> ->]|Hin];
          [done || (vm_compute in Hres; discriminate Hres)|]).
  by apply elem_of_nil in Hin.
Qed.

Lemma scalar_plain v : scalar v = true → plain v = true.
Proof. by destruct v. Qed.

Lemma scalar_decoded v : scalar v = true → decoded v = v.
Proof. by destruct v. Qed.

Section FormatOutcome.
Variables (default_service_name : string) (environ attrs : gmap string string).
Variables (localtime : option Z → struct_time) (str_other : pyvalue → string).
Variable str_mod : string → pyvalue → result string.

Local Abbreviation fixed_fields' :=
  (fixed_fields default_service_name environ attrs localtime str_other str_mod).
Local Abbreviation payload_of' :=
  (payload_of default_service_name environ attrs localtime str_other str_mod).
Local Abbreviation format' :=
  (format default_service_name environ attrs localtime str_other str_mod).
Local Abbreviation service_name_of' :=
  (service_name_of default_service_name environ).

Lemma fixed_fields_inv record fields :
  fixed_fields' record = Ok fields →
  ∃ timestamp levelname message name,
    attribute record "levelname" = Ok levelname
    ∧ attribute record "name" = Ok name
    ∧ fields =
      [ ("@timestamp", PyStr timestamp);
        ("log.level", levelname);
        ("message", PyStr message);
        ("logger.name", name);
        ("trace.id", getattr record "otelTraceID" (PyStr ""));
        ("span.id", getattr record "otelSpanID" (PyStr ""));
        ("service.name", service_name_of' record);
        ("service.version", PyStr (default "" (attrs !! "service.version")));
        ("service.namespace",
          PyStr (default "" (attrs !! "service.namespace")));
        ("deployment.environment",
          PyStr (default "" (attrs !! "deployment.environment")));
        ("host.name", PyStr (getenv environ "HOSTNAME" ""));
        ("event.dataset",
          PyStr (py_str str_other (service_name_of' record) +:+ ".log")) ].
Proof.
  unfold fixed_fields. intros H. bind_inv H.
  injection H as <-. eauto 10.
Qed.

Lemma getattr_elem record name default :
  getattr record name default = default
  ∨ (name, getattr record name default) ∈ record.
Proof.
  unfold getattr. destruct (Dict.get name record) eqn:Hget; [|by left].
  right. by apply get_elem.
Qed.

(** X6.  For the record of a logging call without arguments to
    interpolate, whose attributes set after [LogRecord.__init__] (by the
    instrumentation or by [extra]) all hold values [json.dumps] can encode,
    [format] returns a line: it raises nothing. *)
Theorem format_returns c extra record :
  makeRecord c extra = Ok record →
  truthy (lc_args c) = false →
  Forall (λ item, encodable item.2 = true) extra →
  ∃ text, format' record = Ok text.
Proof.
  intros Hrecord Hargs Hextra.
  destruct (payload_of_makeRecord default_service_name environ attrs
              localtime str_other str_mod c extra record Hrecord Hargs)
    as [payload Hp].
  apply makeRecord_Ok in Hrecord as ->.
  unfold format. rewrite Hp. unfold mbind, result_bind, json_dumps.
  apply json_encode_total. cbn [encodable].
  apply forallb_forall. intros [key value] Hin%list_elem_of_In.
  assert (∀ k v, (k, v) ∈ LogRecord_init c ++ extra →
                 reserved k = false ∨ (k, v) ∈ extra →
                 encodable v = true) as Hrec.
  { intros k v [Hinit|Hex]%elem_of_app Hwhy.
    - destruct Hwhy as [Hres|Hex].
      + by rewrite (init_unreserved c k v Hinit Hres).
      + apply (proj1 (Forall_forall _ _) Hextra (k, v) Hex).
    - apply (proj1 (Forall_forall _ _) Hextra (k, v) Hex). }
  assert (∀ name, encodable (getattr (LogRecord_init c ++ extra) name
                               (PyStr "")) = true
                  ∨ Dict.get name (LogRecord_init c) ≠ None) as Hattr.
  { intros name. unfold getattr. rewrite get_app.
    destruct (Dict.get name (LogRecord_init c)); [by right|]. left.
    destruct (Dict.get name extra) as [v|] eqn:Hget; [|done].
    apply (proj1 (Forall_forall _ _) Hextra (name, v)). by apply get_elem. }
  destruct (payload_of_Ok _ _ _ _ _ _ _ _ Hp) as (fields & Hf & _ & ->).
  apply elem_of_app in Hin as [Hin|Hin].
  - destruct (fixed_fields_inv _ _ Hf)
      as (t & l & m & n & Hl & Hn & ->).
    rewrite (attribute_init c extra "levelname" (PyStr (lc_levelname c)))
      in Hl by done.
    rewrite (attribute_init c extra "name" (PyStr (lc_name c))) in Hn by done.
    injection Hl as <-. injection Hn as <-.
    repeat (apply elem_of_cons in Hin as [[= -> ->]|Hin]; [|]);
      try done; try (by apply elem_of_nil in Hin).
    + by destruct (Hattr "otelTraceID").
    + by destruct (Hattr "otelSpanID").
    + unfold service_name_of, py_or.
      destruct (truthy (getattr _ "otelServiceName" _)); [|reflexivity].
      by destruct (Hattr "otelServiceName").
  - apply extension_elem in Hin as (Hin & _ & Hres). apply (Hrec key); auto.
Qed.

(** X7.  When an attribute of the record that becomes an extension field
    holds an object [json.dumps] cannot encode, [format] raises
    [TypeError]: the failure is not swallowed. *)
Theorem format_raises_TypeError record payload key id :
  payload_of' record = Ok payload →
  Dict.get key record = Some (PyObject id) →
  key ∉ fixed_field_names →
  reserved key = false →
  format' record = Raise TypeError.
Proof.
  intros Hp Hget Hfixed Hres. unfold format. rewrite Hp.
  unfold mbind, result_bind.
  destruct (payload_of_Ok _ _ _ _ _ _ _ _ Hp) as (fields & _ & _ & ->).
  apply (json_dumps_object _ _ key id), elem_of_app. right.
  apply extension_get; [done| |done]. by rewrite elem_of_list_to_set.
Qed.

(** X8.  When every value of the payload is [None], a [bool], an [int] or
    a [str], parsing the line gives exactly the payload back: same keys,
    same order, same values of the same type. *)
Theorem format_loads_scalars record payload text :
  format' record = Ok text →
  payload_of' record = Ok payload →
  Forall (λ item, scalar item.2 = true) payload →
  json_loads text = Ok (PyDict payload).
Proof.
  unfold format. intros Hformat Hp Hscalar. rewrite Hp in Hformat.
  unfold mbind, result_bind in Hformat.
  rewrite (json_loads_encode _ (PyDict payload) text Hformat).
  - cbn [decoded]. do 2 f_equal. clear -Hscalar.
    induction Hscalar as [|[k v] items Hv _ IH]; [done|].
    rewrite fmap_cons, IH. by rewrite (scalar_decoded v Hv).
  - cbn [plain]. apply andb_true_iff. split.
    + apply bool_decide_eq_true.
      destruct (payload_of_Ok _ _ _ _ _ _ _ _ Hp) as (fields & _ & Hkeys & ->).
      fold (Dict.keys
              (fields ++ extension (list_to_set fixed_field_names) record)).
      rewrite keys_app, Hkeys. apply payload_keys_NoDup.
    + apply plain_items. eapply Forall_impl; [exact Hscalar|].
      intros item. apply scalar_plain.
Qed.

(** X9.  The line [format] returns is made of printable ASCII characters
    only (when the text of a [float] is): whatever the message and the
    attributes hold, the line has no line break inside. *)
Theorem format_line_printable record text :
  (∀ q, all_printable (str_other (PyFloat q)) = true) →
  format' record = Ok text →
  all_printable text = true ∧ Str.contains "010" text = false.
Proof.
  unfold format. intros Hfloat Hformat.
  destruct (payload_of' record) as [payload|]; [|done].
  unfold mbind, result_bind, json_dumps in Hformat.
  pose proof (json_encode_printable _ _ _ Hfloat Hformat) as Hline.
  split; [done|]. by apply all_printable_contains.
Qed.

End FormatOutcome.

Lemma api_line_formatted :
  backend_format example_environ example_attrs utc no_str no_mod api_record
  = Ok api_line.
Proof. by vm_compute. Qed.

Lemma format_returns_witness :
  makeRecord api_call api_extra = Ok api_record
  ∧ truthy (lc_args api_call) = false
  ∧ Forall (λ item, encodable item.2 = true) api_extra
  ∧ ∃ text,
      format "backend" example_environ example_attrs utc no_str no_mod
        api_record = Ok text.
Proof.
  assert (Forall (λ item, encodable item.2 = true) api_extra) as Hextra
    by (by repeat constructor).
  split_and!; [reflexivity|reflexivity|exact Hextra|].
  apply (format_returns "backend" example_environ example_attrs utc no_str
           no_mod api_call api_extra api_record);
    [reflexivity|reflexivity|exact Hextra].
Defined.

Lemma format_raises_TypeError_witness :
  Dict.get "conn" object_record = Some (PyObject 1)
  ∧ ("conn" ∉ fixed_field_names)
  ∧ reserved "conn" = false
  ∧ format "backend" example_environ example_attrs utc no_str no_mod
      object_record = Raise TypeError.
Proof.
  assert ("conn" ∉ fixed_field_names) as Hfixed.
  { apply (bool_decide_unpack ("conn" ∉ fixed_field_names)). by vm_compute. }
  split_and!; [reflexivity|exact Hfixed|reflexivity|].
  destruct (payload_of "backend" example_environ example_attrs utc no_str
              no_mod object_record) as [payload|e] eqn:Hp;
    [|by vm_compute in Hp].
  apply (format_raises_TypeError "backend" example_environ example_attrs utc
           no_str no_mod object_record payload "conn" 1 Hp);
    [reflexivity|exact Hfixed|reflexivity].
Defined.

Lemma format_loads_scalars_witness :
  format "backend" example_environ example_attrs utc no_str no_mod api_record
  = Ok api_line
  ∧ payload_of "backend" example_environ example_attrs utc no_str no_mod
      api_record = Ok api_payload
  ∧ Forall (λ item, scalar item.2 = true) api_payload
  ∧ json_loads api_line = Ok (PyDict api_payload).
Proof.
  assert (Forall (λ item, scalar item.2 = true) api_payload) as Hscalar
    by (by repeat constructor).
  split_and!; [by vm_compute|by vm_compute|exact Hscalar|].
  apply (format_loads_scalars "backend" example_environ example_attrs utc
           no_str no_mod api_record api_payload api_line);
    [by vm_compute|by vm_compute|exact Hscalar].
Defined.

Lemma format_line_printable_witness :
  (∀ q, all_printable (no_str (PyFloat q)) = true)
  ∧ format "backend" example_environ example_attrs utc no_str no_mod api_record
    = Ok api_line
  ∧ all_printable api_line = true ∧ Str.contains "010" api_line = false.
Proof.
  split; [reflexivity|]. split; [by vm_compute|].
  apply (format_line_printable "backend" example_environ example_attrs utc
           no_str no_mod api_record api_line); [reflexivity|by vm_compute].
Defined.

(** ** [setup_otel] *)

Lemma rstrip_chars_slash s :
  rstrip_chars "/" (s +:+ "/") = rstrip_chars "/" s.
Proof.
  induction s as [|c s IH]; [done|]. rewrite app_cons.
  cbn [rstrip_chars]. by rewrite IH.
Qed.

Lemma rstrip_chars_slashes s n :
  rstrip_chars "/" (s +:+ slashes n) = rstrip_chars "/" s.
Proof.
  revert s. induction n as [|n IH]; intros s; [by rewrite app_nil_r_s|].
  change (s +:+ slashes (S n)) with (s +:+ String "/" (slashes n)).
  change (String "/" (slashes n)) with ("/" +:+ slashes n).
  by rewrite <-app_assoc_s, IH, rstrip_chars_slash.
Qed.

Lemma rstrip_chars_idemp chars s :
  rstrip_chars chars (rstrip_chars chars s) = rstrip_chars chars s.
Proof.
  induction s as [|c s IH]; [done|]. cbn [rstrip_chars].
  destruct (rstrip_chars chars s) as [|d r] eqn:Hr.
  - destruct (Str.contains c chars) eqn:Hc; [done|].
    cbn [rstrip_chars]. by rewrite Hc.
  - change (rstrip_chars chars (String c (String d r)))
      with (match rstrip_chars chars (String d r) with
            | "" => if Str.contains c chars then "" else String c ""
            | r' => String c r'
            end).
    by rewrite IH.
Qed.

Lemma rstrip_chars_split s :
  ∃ n, s = rstrip_chars "/" s +:+ slashes n.
Proof.
  induction s as [|c s [n IH]]; [by exists O|]. cbn [rstrip_chars].
  destruct (rstrip_chars "/" s) as [|d r] eqn:Hr.
  - change ("" +:+ slashes n) with (slashes n) in IH. subst s.
    change (Str.contains c "/") with (Ascii.eqb c "/" || false).
    rewrite orb_false_r.
    destruct (Ascii.eqb_spec c "/") as [->|Hne]; [by exists (S n)|by exists n].
  - exists n. rewrite app_cons. by rewrite <-IH.
Qed.

(** X10.  The exporters are given the configured endpoint without the
    slashes at its end, followed by [/v1/traces], [/v1/logs] and
    [/v1/metrics]; so slashes added at the end of
    [OTEL_EXPORTER_OTLP_ENDPOINT] change nothing. *)
Theorem setup_otel_endpoints environ service_name endpoint :
  environ !! "OTEL_EXPORTER_OTLP_ENDPOINT" = Some endpoint →
  ∃ base n,
    endpoint = base +:+ slashes n
    ∧ rstrip_chars "/" base = base
    ∧ traces_endpoint (setup_otel environ service_name)
      = base +:+ "/v1/traces"
    ∧ logs_endpoint (setup_otel environ service_name) = base +:+ "/v1/logs"
    ∧ metrics_endpoint (setup_otel environ service_name)
      = base +:+ "/v1/metrics"
    ∧ ∀ m, setup_otel (<["OTEL_EXPORTER_OTLP_ENDPOINT" :=
                          endpoint +:+ slashes m]> environ) service_name
           = setup_otel environ service_name.
Proof.
  intros Henv. destruct (rstrip_chars_split endpoint) as [n Hn].
  exists (rstrip_chars "/" endpoint), n.
  unfold setup_otel, getenv. rewrite Henv. cbn.
  split_and!; [done|apply rstrip_chars_idemp|done..|].
  intros m. rewrite lookup_insert_eq, rstrip_chars_slashes.
  by rewrite lookup_insert_ne.
Qed.

Lemma setup_otel_endpoints_witness :
  ∃ base n,
    "http://collector:4318//" = base +:+ slashes n
    ∧ rstrip_chars "/" base = base
    ∧ traces_endpoint
        (setup_otel {[ "OTEL_EXPORTER_OTLP_ENDPOINT" :=
                         "http://collector:4318//" ]} "backend")
      = base +:+ "/v1/traces"
    ∧ logs_endpoint
        (setup_otel {[ "OTEL_EXPORTER_OTLP_ENDPOINT" :=
                         "http://collector:4318//" ]} "backend")
      = base +:+ "/v1/logs"
    ∧ metrics_endpoint
        (setup_otel {[ "OTEL_EXPORTER_OTLP_ENDPOINT" :=
                         "http://collector:4318//" ]} "backend")
      = base +:+ "/v1/metrics"
    ∧ ∀ m, setup_otel
             (<["OTEL_EXPORTER_OTLP_ENDPOINT" :=
                  "http://collector:4318//" +:+ slashes m]>
                {[ "OTEL_EXPORTER_OTLP_ENDPOINT" :=
                     "http://collector:4318//" ]}) "backend"
           = setup_otel {[ "OTEL_EXPORTER_OTLP_ENDPOINT" :=
                             "http://collector:4318//" ]} "backend".
Proof.
  apply (setup_otel_endpoints
           {[ "OTEL_EXPORTER_OTLP_ENDPOINT" := "http://collector:4318//" ]}
           "backend" "http://collector:4318//").
  reflexivity.
Defined.

(** ** The database and the request handlers of the backend *)

Lemma pretty_positive_scan p :
  ∃ c t d, pretty (Zpos p) = String c t ∧ digit_value c = Some d ∧ d ≠ 0
           ∧ c ≠ "-"%char ∧ scan_digits d t = (Zpos p, "").
Proof.
  unfold pretty, pretty_Z, pretty, pretty_positive, pretty, pretty_N.
  rewrite decide_False by done.
  destruct (pretty_go_head (Npos p) "" ltac:(lia))
    as (c & t & d & Heq & Hc & Hd).
  destruct (pretty_go_digits (Npos p) "") as (k & _ & Hscan).
  specialize (Hscan 0). rewrite Heq in *. cbn [scan_digits] in Hscan.
  rewrite Hc in Hscan. rewrite Z.mul_0_r, Z.mul_0_l, !Z.add_0_l in Hscan.
  exists c, t, d. repeat split; try done.
  intros ->. by vm_compute in Hc.
Qed.

Lemma string2ll_pretty z :
  LLONG_MIN ≤ z ≤ LLONG_MAX → string2ll (pretty z) = Some z.
Proof.
  intros Hz. destruct z as [|p|p].
  - done.
  - destruct (pretty_positive_scan p) as (c & t & d & Heq & Hc & Hd & Hm & Hs).
    unfold string2ll. rewrite Heq.
    assert (String.eqb (String c t) "0" = false) as ->.
    { apply String.eqb_neq. intros [= -> ->]. by vm_compute in Hc; simplify_eq. }
    cbn [head_is]. destruct (Ascii.eqb_spec c "-") as [->|_]; [done|].
    rewrite Hc. cbn. destruct (Z.eqb_spec d 0) as [->|_]; [done|].
    rewrite Hs. cbn. destruct (Z.leb_spec (Zpos p) LLONG_MAX); [done|lia].
  - destruct (pretty_positive_scan p) as (c & t & d & Heq & Hc & Hd & Hm & Hs).
    change (pretty (Zneg p)) with (String "-" (pretty (Zpos p))).
    unfold string2ll. rewrite Heq.
    assert (String.eqb (String "-" (String c t)) "0" = false) as -> by done.
    cbn [head_is tail]. change (Ascii.eqb "-" "-") with true. cbn iota.
    rewrite Hc. cbn. destruct (Z.eqb_spec d 0) as [->|_]; [done|].
    rewrite Hs. cbn.
    destruct (Z.leb_spec (Zpos p) (- LLONG_MIN)); [done|].
    unfold LLONG_MIN in *. lia.
Qed.

Lemma handle_redis_frame s measured req key :
  written_key req ≠ Some key →
  redis (handle s measured req).1 !! key = redis s !! key.
Proof.
  destruct req as [|[k v]|k|k [k' v]|k| |]; cbn; intros Hkey.
  - unfold BackendRoutes.api, redis_incr.
    destruct (redis s !! "hits") as [value|] eqn:Hhits; cbn.
    + destruct (string2ll value) as [old|]; cbn; [|done].
      destruct ((0 <? old) && (LLONG_MAX - old <? 1)); cbn; [done|].
      apply lookup_insert_ne. congruence.
    + apply lookup_insert_ne. congruence.
  - apply lookup_insert_ne. congruence.
  - unfold BackendRoutes.get_item. by destruct (redis_get (redis s) k).
  - apply lookup_insert_ne. congruence.
  - unfold BackendRoutes.delete_item, redis_delete.
    destruct (redis s !! k) eqn:Hk; cbn; [|done].
    apply lookup_delete_ne. congruence.
  - done.
  - done.
Qed.

Lemma serve_redis_frame s reqs key :
  Forall (λ r : Z * request, written_key r.2 ≠ Some key) reqs →
  redis (serve s reqs) !! key = redis s !! key.
Proof.
  intros Hreqs. revert s.
  induction Hreqs as [|[m req] reqs Hreq _ IH]; intros s; [done|].
  cbn [serve]. rewrite IH. by apply handle_redis_frame.
Qed.

Lemma get_item_response s measured key :
  (BackendRoutes.get_item s measured key).2
  = match redis s !! key with
    | Some value => Returns [("key", PyStr key); ("value", PyStr value)]
    | None => HTTPException 404 "not found"
    end.
Proof.
  unfold BackendRoutes.get_item, redis_get. by destruct (redis s !! key).
Qed.

(** X11.  An item written by [create_item], or by [update_item] whether
    or not it existed, is what [get_item] returns for its key, also after
    any requests that do not write that key; [update_item] writes the key
    of the path, whatever key the body names. *)
Theorem item_read_back s measured measured' key value other first reqs :
  first = PostItem (key, value) ∨ first = PutItem key (other, value) →
  Forall (λ r : Z * request, written_key r.2 ≠ Some key) reqs →
  (handle (serve (handle s measured first).1 reqs) measured' (GetItem key)).2
  = Returns [("key", PyStr key); ("value", PyStr value)].
Proof.
  intros Hfirst Hreqs. cbn [handle]. rewrite get_item_response.
  rewrite serve_redis_frame by done.
  destruct Hfirst as [-> | ->]; cbn; by rewrite lookup_insert_eq.
Qed.

Lemma item_read_back_witness :
  (handle
     (serve (handle fresh_backend 8 (PutItem "alpha" ("beta", "two"))).1
        [(10, GetApi); (4, DeleteItem "beta"); (5, GetItem "gamma")])
     5 (GetItem "alpha")).2
  = Returns [("key", PyStr "alpha"); ("value", PyStr "two")].
Proof.
  apply (item_read_back fresh_backend 8 5 "alpha" "two" "beta"
           (PutItem "alpha" ("beta", "two"))).
  - by right.
  - repeat constructor; by vm_compute.
Defined.

(** X12.  [delete_item] answers that it deleted the key exactly when the
    key was stored; afterwards, and until a request writes the key again,
    [get_item] and [delete_item] both answer 404 for it. *)
Theorem item_gone_after_delete s measured measured' key reqs :
  Forall (λ r : Z * request, written_key r.2 ≠ Some key) reqs →
  let after := serve (handle s measured (DeleteItem key)).1 reqs in
  ((handle s measured (DeleteItem key)).2
   = if bool_decide (is_Some (redis s !! key))
     then Returns [("status", PyStr "deleted"); ("key", PyStr key)]
     else HTTPException 404 "not found")
  ∧ (handle after measured' (GetItem key)).2 = HTTPException 404 "not found"
  ∧ (handle after measured' (DeleteItem key)).2
    = HTTPException 404 "not found".
Proof.
  intros Hreqs after.
  assert (redis after !! key = None) as Hgone.
  { unfold after. rewrite serve_redis_frame by done. cbn.
    unfold BackendRoutes.delete_item, redis_delete.
    destruct (redis s !! key) eqn:Hk; cbn; [|done].
    apply lookup_delete_eq. }
  split_and!.
  - cbn [handle]. unfold BackendRoutes.delete_item, redis_delete.
    destruct (redis s !! key) eqn:Hk.
    + by rewrite bool_decide_eq_true_2 by done.
    + by rewrite bool_decide_eq_false_2 by (by intros [? [=]]).
  - cbn [handle]. by rewrite get_item_response, Hgone.
  - cbn. unfold BackendRoutes.delete_item, redis_delete. by rewrite Hgone.
Qed.

Lemma item_gone_after_delete_witness :
  let s := (handle fresh_backend 9 (PostItem ("alpha", "one"))).1 in
  let after := serve (handle s 4 (DeleteItem "alpha")).1 [(10, GetApi)] in
  (handle s 4 (DeleteItem "alpha")).2
  = Returns [("status", PyStr "deleted"); ("key", PyStr "alpha")]
  ∧ (handle after 5 (GetItem "alpha")).2 = HTTPException 404 "not found"
  ∧ (handle after 5 (DeleteItem "alpha")).2 = HTTPException 404 "not found".
Proof.
  apply (item_gone_after_delete
           (handle fresh_backend 9 (PostItem ("alpha", "one"))).1
           4 5 "alpha" [(10, GetApi)]).
  repeat constructor; by vm_compute.
Defined.

Lemma record_request_counted route value s route' :
  counted route' (BackendRoutes.record_request route value s)
  = counted route' s + (if decide (route' = route) then 1 else 0).
Proof.
  unfold counted, BackendRoutes.record_request. cbn.
  destruct (decide (route' = route)) as [->|Hne].
  - by rewrite lookup_insert_eq.
  - rewrite lookup_insert_ne by done. lia.
Qed.

Lemma record_request_recorded route value s route' :
  recorded route' (BackendRoutes.record_request route value s)
  = recorded route' s + (if decide (route' = route) then 1 else 0).
Proof.
  unfold recorded, BackendRoutes.record_request. cbn.
  rewrite filter_app, length_app, filter_cons, filter_nil. cbn [fst].
  destruct (decide (route = route')) as [->|Hne].
  - rewrite decide_True by done. cbn. lia.
  - rewrite decide_False by done. cbn. lia.
Qed.

(** What a handler does to the meter and to the log, by cases on its
    answer. *)
Lemma handle_accounts s measured req :
  match route_of req, (handle s measured req).2 with
  | None, _ | _, ResponseError => (handle s measured req).1 = s
  | Some route, answer =>
      ∃ before event,
        (handle s measured req).1
        = BackendRoutes.log (ev_level event) (ev_msg event) (ev_extra event)
            (BackendRoutes.record_request route measured before)
        ∧ request_counter before = request_counter s
        ∧ latency_hist before = latency_hist s
        ∧ logged before = logged s
        ∧ ev_level event
          = match answer with
            | HTTPException _ _ => "WARNING"
            | _ => "INFO"
            end
  end.
Proof.
  destruct req as [|[k v]|k|k [k' v]|k| |]; cbn.
  - unfold BackendRoutes.api.
    destruct (redis_incr (redis s) "hits") as [[hits db]|]; cbn; [|done].
    by eexists (BackendRoutes.with_redis db s), (mk_log_event _ _ _).
  - by eexists (BackendRoutes.with_redis _ s), (mk_log_event _ _ _).
  - unfold BackendRoutes.get_item.
    destruct (redis_get (redis s) k); cbn;
      by eexists s, (mk_log_event _ _ _).
  - by eexists (BackendRoutes.with_redis _ s), (mk_log_event _ _ _).
  - unfold BackendRoutes.delete_item.
    destruct (redis_delete (redis s) k) as [deleted db].
    destruct (deleted =? 0); cbn;
      by eexists (BackendRoutes.with_redis db s), (mk_log_event _ _ _).
  - by eexists s, (mk_log_event _ _ _).
  - done.
Qed.

(** X13.  Every request to a route other than [/healthz] that the
    database does not fail is counted once under its route, gives the
    histogram the value measured, and is logged once: at level [WARNING]
    when the answer is an error status, so that requests answered 404
    are counted too, and at level [INFO] otherwise. *)
Theorem requests_accounted s measured req route :
  route_of req = Some route →
  (handle s measured req).2 ≠ ResponseError →
  let after := (handle s measured req).1 in
  (∀ other, counted other after
            = counted other s + (if decide (other = route) then 1 else 0))
  ∧ latency_hist after = latency_hist s ++ [(route, measured)]
  ∧ ∃ event,
      logged after = logged s ++ [event]
      ∧ ev_level event
        = match (handle s measured req).2 with
          | HTTPException _ _ => "WARNING"
          | _ => "INFO"
          end.
Proof.
  intros Hroute Hanswer after. pose proof (handle_accounts s measured req) as H.
  rewrite Hroute in H. unfold after.
  destruct (handle s measured req) as [s' answer]. cbn [fst snd] in *.
  assert (∃ before event,
            s' = BackendRoutes.log (ev_level event) (ev_msg event)
                   (ev_extra event)
                   (BackendRoutes.record_request route measured before)
            ∧ request_counter before = request_counter s
            ∧ latency_hist before = latency_hist s
            ∧ logged before = logged s
            ∧ ev_level event
              = match answer with
                | HTTPException _ _ => "WARNING"
                | _ => "INFO"
                end)
    as (before & [level msg extra] & -> & Hc & Hl & Hg & Hlevel)
    by (by destruct answer).
  cbn [ev_level ev_msg ev_extra] in *. split_and!.
  - intros other.
    change (counted other (BackendRoutes.log level msg extra ?t))
      with (counted other t).
    rewrite record_request_counted. unfold counted. by rewrite Hc.
  - cbn. by rewrite Hl.
  - exists (mk_log_event level msg extra). cbn. by rewrite Hg.
Qed.

Lemma requests_accounted_witness :
  let after := (handle fresh_backend 5 (GetItem "alpha")).1 in
  (∀ other,
     counted other after
     = counted other fresh_backend
       + (if decide (other = "GET /api/items") then 1 else 0))
  ∧ latency_hist after = latency_hist fresh_backend ++ [("GET /api/items", 5)]
  ∧ ∃ event,
      logged after = logged fresh_backend ++ [event]
      ∧ ev_level event
        = match (handle fresh_backend 5 (GetItem "alpha")).2 with
          | HTTPException _ _ => "WARNING"
          | _ => "INFO"
          end.
Proof.
  apply (requests_accounted fresh_backend 5 (GetItem "alpha")
           "GET /api/items"); [reflexivity|by vm_compute].
Defined.

Lemma handle_meter_invariant s measured req :
  (∀ route, counted route s = recorded route s) →
  Z.of_nat (length (logged s)) = Z.of_nat (length (latency_hist s)) →
  (∀ route, counted route (handle s measured req).1
            = recorded route (handle s measured req).1)
  ∧ Z.of_nat (length (logged (handle s measured req).1))
    = Z.of_nat (length (latency_hist (handle s measured req).1)).
Proof.
  intros Hmeter Hlog. pose proof (handle_accounts s measured req) as H.
  destruct (route_of req) as [route|]; [|by rewrite H].
  destruct (handle s measured req) as [s' answer]. cbn [fst snd] in *.
  assert (s' = s ∨ ∃ before event,
            s' = BackendRoutes.log (ev_level event) (ev_msg event)
                   (ev_extra event)
                   (BackendRoutes.record_request route measured before)
            ∧ request_counter before = request_counter s
            ∧ latency_hist before = latency_hist s
            ∧ logged before = logged s)
    as [->|(before & [level msg extra] & -> & Hc & Hl & Hg)].
  { destruct answer; [right|right|by left];
      destruct H as (before & event & ? & ? & ? & ? & _); eauto 8. }
  - done.
  - cbn [ev_level ev_msg ev_extra]. split.
    + intros other.
      change (counted other (BackendRoutes.log level msg extra ?t))
        with (counted other t).
      change (recorded other (BackendRoutes.log level msg extra ?t))
        with (recorded other t).
      rewrite record_request_counted, record_request_recorded.
      unfold counted, recorded in *. rewrite Hc, Hl. by rewrite <-Hmeter.
    + cbn. rewrite !length_app, Hl, Hg. cbn. lia.
Qed.

(** X14.  The counter and the histogram never drift apart: when, for
    every route, the counter holds the number of values the histogram was
    given, and there are as many log events as values, as in a backend
    just started, the same holds after any requests. *)
Theorem meter_consistent s reqs :
  (∀ route, counted route s = recorded route s) →
  length (logged s) = length (latency_hist s) →
  (∀ route, counted route (serve s reqs) = recorded route (serve s reqs))
  ∧ length (logged (serve s reqs)) = length (latency_hist (serve s reqs)).
Proof.
  revert s. induction reqs as [|[measured req] reqs IH]; intros s Hmeter Hlog.
  - done.
  - cbn [serve].
    destruct (handle_meter_invariant s measured req Hmeter) as [Hm Hl];
      [lia|].
    apply IH; [done|lia].
Qed.

Lemma meter_consistent_witness :
  let reqs := [(9, PostItem ("alpha", "one")); (5, GetItem "beta");
               (0, GetHealthz); (10, GetApi)] in
  (∀ route, counted route (serve fresh_backend reqs)
            = recorded route (serve fresh_backend reqs))
  ∧ length (logged (serve fresh_backend reqs))
    = length (latency_hist (serve fresh_backend reqs)).
Proof.
  apply (meter_consistent fresh_backend
           [(9, PostItem ("alpha", "one")); (5, GetItem "beta");
            (0, GetHealthz); (10, GetApi)]); [|reflexivity].
  intros route. reflexivity.
Defined.

Lemma api_step s measured n :
  stored_hits s n → LLONG_MIN ≤ n < LLONG_MAX →
  (BackendRoutes.api s measured).2
  = Returns [("message", PyStr "hello from backend"); ("hits", PyInt (n + 1))]
  ∧ stored_hits (BackendRoutes.api s measured).1 (n + 1).
Proof.
  unfold stored_hits, BackendRoutes.api, redis_incr. intros Hstored Hn.
  assert (match redis s !! "hits" with
          | Some value => string2ll value
          | None => Some 0
          end = Some n) as ->.
  { destruct (redis s !! "hits") as [value|]; [|by subst].
    subst value. apply string2ll_pretty. lia. }
  cbn. assert ((0 <? n) && (LLONG_MAX - n <? 1) = false) as ->.
  { apply andb_false_iff. right. apply Z.ltb_ge. lia. }
  cbn. by rewrite lookup_insert_eq.
Qed.

Lemma serve_stored_hits s reqs n :
  stored_hits s n → LLONG_MIN ≤ n →
  n + api_requests reqs < LLONG_MAX →
  Forall leaves_hits reqs →
  stored_hits (serve s reqs) (n + api_requests reqs).
Proof.
  intros Hstored Hmin Hmax Hreqs. revert s n Hstored Hmin Hmax.
  induction Hreqs as [|[m req] reqs Hreq _ IH]; intros s n Hstored Hmin Hmax.
  - unfold api_requests. cbn. by rewrite Z.add_0_r.
  - cbn [serve]. unfold api_requests in *. rewrite filter_cons in *.
    cbn [snd] in *. destruct (decide (req = GetApi)) as [->|Hne].
    + cbn [length] in *. rewrite Nat2Z.inj_succ in *.
      destruct (api_step s m n Hstored ltac:(lia)) as [_ Hnext].
      specialize (IH (handle s m GetApi).1 (n + 1) Hnext ltac:(lia)
                    ltac:(lia)).
      by replace (n + Z.succ (Z.of_nat (length (filter (λ r : Z * request, r.2 = GetApi) reqs))))
        with (n + 1 + Z.of_nat (length (filter (λ r : Z * request, r.2 = GetApi) reqs)))
        by lia.
    + apply IH; [|done..]. destruct Hreq as [?|Hkey]; [done|].
      unfold stored_hits. by rewrite handle_redis_frame.
Qed.

(** X15.  Starting from a database without the key [hits], [api] returns
    the number of requests to [/api] served so far, the present one
    included, whatever other requests came in between, as long as none of
    them wrote or deleted the item [hits]. *)
Theorem api_counts_requests s reqs measured :
  redis s !! "hits" = None →
  Forall leaves_hits reqs →
  api_requests reqs < LLONG_MAX →
  (handle (serve s reqs) measured GetApi).2
  = Returns [("message", PyStr "hello from backend");
             ("hits", PyInt (api_requests reqs + 1))].
Proof.
  intros Hnone Hreqs Hmax.
  assert (stored_hits s 0) as Hstored by (unfold stored_hits; by rewrite Hnone).
  pose proof (serve_stored_hits s reqs 0 Hstored) as Hafter.
  rewrite Z.add_0_l in Hafter.
  assert (0 ≤ api_requests reqs) by (unfold api_requests; lia).
  apply (api_step _ measured (api_requests reqs)).
  - apply Hafter; [done|done|done].
  - unfold LLONG_MIN. lia.
Qed.

Lemma api_counts_requests_witness :
  (handle
     (serve fresh_backend
        [(10, GetApi); (9, PostItem ("alpha", "one")); (11, GetApi);
         (4, DeleteItem "alpha")])
     12 GetApi).2
  = Returns [("message", PyStr "hello from backend"); ("hits", PyInt 3)].
Proof.
  apply (api_counts_requests fresh_backend
           [(10, GetApi); (9, PostItem ("alpha", "one")); (11, GetApi);
            (4, DeleteItem "alpha")] 12).
  - reflexivity.
  - repeat (constructor; [first [by left|by right]|]). constructor.
  - reflexivity.
Defined.

(** X16.  The counter of [api] is an item like any other: after
    [create_item] or [update_item] has stored the decimal text of [n]
    under [hits], [api] returns [n + 1]; only at the largest 64-bit
    integer the database refuses to count on. *)
Theorem api_follows_stored_item s measured measured' first other n :
  first = PostItem ("hits", pretty n)
  ∨ first = PutItem "hits" (other, pretty n) →
  LLONG_MIN ≤ n ≤ LLONG_MAX →
  (handle (handle s measured first).1 measured' GetApi).2
  = if bool_decide (n = LLONG_MAX) then ResponseError
    else Returns [("message", PyStr "hello from backend");
                  ("hits", PyInt (n + 1))].
Proof.
  intros Hfirst Hn.
  assert (redis (handle s measured first).1 !! "hits" = Some (pretty n))
    as Hhits by (destruct Hfirst as [-> | ->]; cbn; by rewrite lookup_insert_eq).
  destruct (decide (n = LLONG_MAX)) as [->|Hmax].
  - rewrite bool_decide_eq_true_2 by done. cbn [handle].
    unfold BackendRoutes.api, redis_incr. rewrite Hhits.
    by rewrite string2ll_pretty by done.
  - rewrite bool_decide_eq_false_2 by done. cbn [handle].
    apply api_step; [|lia]. unfold stored_hits. by rewrite Hhits.
Qed.

Lemma api_follows_stored_item_witness :
  (handle (handle fresh_backend 9 (PostItem ("hits", "-41"))).1 10 GetApi).2
  = Returns [("message", PyStr "hello from backend"); ("hits", PyInt (-40))].
Proof.
  apply (api_follows_stored_item fresh_backend 9 10
           (PostItem ("hits", "-41")) "" (-41)).
  - by left.
  - by vm_compute.
Defined.

Lemma serve_broken_hits s reqs value :
  redis s !! "hits" = Some value → string2ll value = None →
  Forall leaves_hits reqs →
  redis (serve s reqs) !! "hits" = Some value.
Proof.
  intros Hhits Hvalue Hreqs. revert s Hhits.
  induction Hreqs as [|[m req] reqs Hreq _ IH]; intros s Hhits; [done|].
  cbn [serve]. apply IH. destruct Hreq as [Hreq|Hkey].
  - cbn [snd] in Hreq. subst req. cbn [handle].
    unfold BackendRoutes.api, redis_incr. by rewrite Hhits, Hvalue.
  - by rewrite handle_redis_frame.
Qed.

(** X17.  After [create_item] or [update_item] has stored under [hits] a
    text that is no 64-bit integer in decimal notation, every request to
    [/api] fails with the error of the database, and is neither counted
    nor logged, until a request stores or deletes the item [hits]. *)
Theorem api_fails_on_text s measured measured' first other value reqs :
  first = PostItem ("hits", value) ∨ first = PutItem "hits" (other, value) →
  string2ll value = None →
  Forall leaves_hits reqs →
  let after := serve (handle s measured first).1 reqs in
  handle after measured' GetApi = (after, ResponseError).
Proof.
  intros Hfirst Hvalue Hreqs after.
  assert (redis after !! "hits" = Some value) as Hhits.
  { apply serve_broken_hits; [|done..].
    destruct Hfirst as [-> | ->]; cbn; by rewrite lookup_insert_eq. }
  cbn [handle]. unfold BackendRoutes.api, redis_incr.
  by rewrite Hhits, Hvalue.
Qed.

Lemma api_fails_on_text_witness :
  let after :=
    serve (handle fresh_backend 8 (PutItem "hits" ("alpha", "1.5"))).1
      [(10, GetApi); (5, GetItem "hits")] in
  handle after 10 GetApi = (after, ResponseError).
Proof.
  apply (api_fails_on_text fresh_backend 8 10
           (PutItem "hits" ("alpha", "1.5")) "alpha" "1.5"
           [(10, GetApi); (5, GetItem "hits")]).
  - by right.
  - reflexivity.
  - repeat (constructor; [first [by left|by right]|]). constructor.
Defined.

Lemma get_item_hit s measured key value :
  redis s !! key = Some value →
  BackendRoutes.get_item s measured key
  = (BackendRoutes.log "INFO" "item fetched"
       [("key", PyStr key); ("latency_ms", PyInt measured)]
       (BackendRoutes.record_request "GET /api/items" measured s),
     Returns [("key", PyStr key); ("value", PyStr value)]).
Proof. intros Hkey. unfold BackendRoutes.get_item, redis_get. by rewrite Hkey. Qed.

Lemma delete_item_hit s measured key value :
  redis s !! key = Some value →
  BackendRoutes.delete_item s measured key
  = (BackendRoutes.log "INFO" "item deleted"
       [("key", PyStr key); ("latency_ms", PyInt measured)]
       (BackendRoutes.record_request "DELETE /api/items" measured
          (BackendRoutes.with_redis (delete key (redis s)) s)),
     Returns [("status", PyStr "deleted"); ("key", PyStr key)]).
Proof.
  intros Hkey. unfold BackendRoutes.delete_item, redis_delete.
  by rewrite Hkey.
Qed.

(** X18.  [simulate] cleans up after itself: whatever the database held,
    its five requests are all served without a miss (the backend logs
    them at level [INFO], in order), each of their routes is counted
    once, and the database ends as it was except that the item [alpha]
    is absent. *)
Theorem simulate_cleans_up fe be clock :
  let result := FrontendRoutes.simulate fe be clock in
  let be' := result.1.2 in
  result.2 = Returns [("status", PyStr "ok")]
  ∧ redis be' = delete "alpha" (redis be)
  ∧ (∀ route,
       counted route be'
       = counted route be
         + (if decide (route ∈ ["POST /api/items"; "GET /api/items";
                                "PUT /api/items"; "DELETE /api/items";
                                "GET /api/slow"])
            then 1 else 0))
  ∧ (∃ events,
       logged be' = logged be ++ events
       ∧ ev_level <$> events = ["INFO"; "INFO"; "INFO"; "INFO"; "INFO"]
       ∧ ev_msg <$> events
         = ["item created"; "item fetched"; "item updated"; "item deleted";
            "slow request"])
  ∧ latency_hist be'
    = latency_hist be
      ++ [("POST /api/items", clock 0%nat); ("GET /api/items", clock 1%nat);
          ("PUT /api/items", clock 2%nat); ("DELETE /api/items", clock 3%nat);
          ("GET /api/slow", clock 4%nat)].
Proof.
  intros result be'. unfold be', result, FrontendRoutes.simulate.
  cbn [handle].
  change (BackendRoutes.create_item be (clock 0%nat) ("alpha", "one")).1
    with (BackendRoutes.log "INFO" "item created"
            [("key", PyStr "alpha"); ("latency_ms", PyInt (clock 0%nat))]
            (BackendRoutes.record_request "POST /api/items" (clock 0%nat)
               (BackendRoutes.with_redis (<["alpha" := "one"]> (redis be))
                  be))).
  rewrite (get_item_hit _ _ "alpha" "one") by apply lookup_insert_eq.
  cbn [fst].
  match goal with
  | |- context [BackendRoutes.update_item ?s ?m ?k ?item] =>
      change (BackendRoutes.update_item s m k item).1
        with (BackendRoutes.log "INFO" "item updated"
                [("key", PyStr "alpha"); ("latency_ms", PyInt m)]
                (BackendRoutes.record_request "PUT /api/items" m
                   (BackendRoutes.with_redis (<["alpha" := "two"]> (redis s))
                      s)))
  end.
  rewrite (delete_item_hit _ _ "alpha" "two") by apply lookup_insert_eq.
  cbn [fst snd].
  match goal with
  | |- context [BackendRoutes.slow ?s ?m] =>
      change (BackendRoutes.slow s m).1
        with (BackendRoutes.log "INFO" "slow request" [("delay_ms", PyInt m)]
                (BackendRoutes.record_request "GET /api/slow" m s))
  end.
  split_and!.
  - done.
  - cbn. by rewrite !delete_insert_eq.
  - intros route.
    repeat first
      [ progress change (counted route (BackendRoutes.log ?l ?m ?e ?t))
          with (counted route t)
      | progress change (counted route (BackendRoutes.with_redis ?db ?t))
          with (counted route t)
      | rewrite record_request_counted ].
    repeat case_decide; try lia; try congruence; exfalso; set_solver.
  - eexists [_; _; _; _; _]. cbn. rewrite <-!app_assoc. by cbn.
  - cbn. by rewrite <-!app_assoc.
Qed.

(** ** From the handlers to the lines of the log *)

Lemma otel_prefix key :
  Str.startswith "otel" key = true →
  ∃ rest, key = String "o" (String "t" (String "e" (String "l" rest))).
Proof.
  destruct key as [|a [|b [|c [|d rest]]]]; cbn [Str.startswith]; try done;
    try (by rewrite ?andb_false_r).
  intros (Ha & (Hb & (Hc & (Hd & _)%andb_true_iff)%andb_true_iff
                )%andb_true_iff)%andb_true_iff.
  apply Ascii.eqb_eq in Ha, Hb, Hc, Hd. subst. eauto.
Qed.

Lemma otel_reserved key :
  Str.startswith "otel" key = true → reserved key = true.
Proof. unfold reserved. by intros ->. Qed.

Lemma otel_not_init c key :
  Str.startswith "otel" key = true →
  Dict.contains key (LogRecord_init c) = false.
Proof. intros [rest ->]%otel_prefix. reflexivity. Qed.

Lemma init_keys_fresh c key :
  key ≠ "name" → reserved key = false →
  Dict.contains key (LogRecord_init c) = false.
Proof.
  intros Hname Hres. apply contains_false_keys. intros Hin.
  unfold LogRecord_init in Hin. cbn in Hin.
  repeat (apply elem_of_cons in Hin as [->|Hin];
          [done || (vm_compute in Hres; discriminate Hres)|]).
  by apply elem_of_nil in Hin.
Qed.

Lemma set_app_fresh {V} key (value : V) a b :
  Dict.contains key a = false →
  Dict.set key value (a ++ b) = a ++ Dict.set key value b.
Proof.
  induction a as [|[k v] a IH]; cbn; [done|].
  destruct (String.eqb k key); [done|]. cbn. by intros ->%IH.
Qed.

Lemma set_keys {V} key (value : V) d :
  Dict.keys (Dict.set key value d)
  = if Dict.contains key d then Dict.keys d else Dict.keys d ++ [key].
Proof.
  induction d as [|[k v] d IH]; cbn; [done|].
  destruct (String.eqb k key); cbn; [done|].
  unfold Dict.keys in IH. rewrite IH. by destruct (Dict.contains key d).
Qed.

Lemma set_Forall {V} (P : string * V → Prop) key value d :
  Forall P d → P (key, value) → Forall P (Dict.set key value d).
Proof.
  intros Hd Hnew. induction Hd as [|[k v] d Hk Hd IH]; cbn.
  - by constructor.
  - destruct (String.eqb_spec k key) as [->|_]; by constructor.
Qed.

Lemma set_NoDup {V} key (value : V) d :
  NoDup (Dict.keys d) → NoDup (Dict.keys (Dict.set key value d)).
Proof.
  intros Hd. rewrite set_keys.
  destruct (Dict.contains key d) eqn:Hkey; [done|].
  apply contains_false_keys in Hkey. apply NoDup_app. split_and!.
  - done.
  - by intros k Hk ->%list_elem_of_singleton.
  - apply NoDup_singleton.
Qed.

(** The record of the factory is the record of [LogRecord.__init__]
    followed by attributes of the instrumentation. *)
Lemma record_factory_shape injected c :
  otel_attributes injected →
  ∃ added,
    record_factory injected c = LogRecord_init c ++ added
    ∧ otel_attributes added
    ∧ NoDup (Dict.keys added).
Proof.
  unfold record_factory. intros Hinjected.
  assert (∀ added,
            otel_attributes added → NoDup (Dict.keys added) →
            ∃ added',
              fold_left (λ record item, Dict.set item.1 item.2 record)
                injected (LogRecord_init c ++ added)
              = LogRecord_init c ++ added'
              ∧ otel_attributes added'
              ∧ NoDup (Dict.keys added')) as Hloop.
  { induction Hinjected as [|[k v] injected [Hk Hv] _ IH];
      intros added Hadded Hkeys; cbn [fold_left fst snd] in *.
    - by exists added.
    - rewrite set_app_fresh by by apply otel_not_init.
      apply IH.
      + by apply set_Forall.
      + by apply set_NoDup. }
  destruct (Hloop []) as (added & Heq & ? & ?).
  - constructor.
  - constructor.
  - rewrite app_nil_r in Heq. eauto.
Qed.

Lemma add_extra_fresh record extra :
  NoDup (Dict.keys extra) →
  Forall (λ item : string * pyvalue,
            in_tuple item.1 ["message"; "asctime"] = false
            ∧ Dict.contains item.1 record = false) extra →
  for_each add_extra record extra = Ok (record ++ extra).
Proof.
  intros Hkeys Hextra. revert record Hkeys Hextra.
  induction extra as [|[k v] extra IH]; intros record Hkeys Hextra.
  - cbn. by rewrite app_nil_r.
  - unfold Dict.keys in Hkeys. rewrite fmap_cons in Hkeys.
    apply NoDup_cons in Hkeys as [Hk Hkeys].
    apply Forall_cons in Hextra as [[Htuple Hfresh] Hextra].
    cbn [fst] in *. cbn [for_each].
    change (add_extra record (k, v))
      with (if in_tuple k ["message"; "asctime"] || Dict.contains k record
            then Raise KeyError else Ok (Dict.set k v record)).
    rewrite Htuple, Hfresh. cbn [orb]. unfold mbind, result_bind.
    rewrite set_fresh by done. rewrite IH.
    + by rewrite <-app_assoc.
    + done.
    + apply Forall_forall. intros [k' v'] Hin.
      destruct (proj1 (Forall_forall _ _) Hextra _ Hin) as [Htuple' Hfresh'].
      cbn [fst] in *.
      split; [done|]. apply contains_false_keys. rewrite keys_app.
      apply not_elem_of_app. split; [by apply contains_false_keys|].
      cbn. rewrite list_elem_of_singleton. intros ->. apply Hk.
      apply list_elem_of_fmap. by exists (k, v').
Qed.

Lemma scalar_encodable v : scalar v = true → encodable v = true.
Proof. by destruct v. Qed.

(** A payload of strings and integers under distinct keys is written to
    a line that reads back as the payload. *)
Lemma scalar_payload_line float_repr payload :
  NoDup (Dict.keys payload) →
  Forall (λ item : string * pyvalue, scalar item.2 = true) payload →
  ∃ text,
    json_dumps float_repr payload = Ok text
    ∧ json_loads text = Ok (PyDict payload).
Proof.
  intros Hkeys Hscalar.
  destruct (json_encode_total float_repr (PyDict payload)) as [text Htext].
  { cbn [encodable]. apply forallb_forall.
    intros [k v] Hin%list_elem_of_In.
    by apply scalar_encodable,
      (proj1 (Forall_forall _ _) Hscalar (k, v)). }
  exists text. split; [done|].
  rewrite (json_loads_encode _ (PyDict payload) text Htext).
  - cbn [decoded]. do 2 f_equal. clear -Hscalar.
    induction Hscalar as [|[k v] items Hv _ IH]; [done|].
    rewrite fmap_cons, IH. by rewrite (scalar_decoded v Hv).
  - cbn [plain]. apply andb_true_iff. split.
    + by apply bool_decide_eq_true.
    + apply plain_items. eapply Forall_impl; [exact Hscalar|].
      intros item. apply scalar_plain.
Qed.

Section LoggedLines.
Variables (default_service_name : string) (environ attrs : gmap string string).
Variables (localtime : option Z → struct_time) (str_other : pyvalue → string).
Variable str_mod : string → pyvalue → result string.

Local Abbreviation fixed_fields' :=
  (fixed_fields default_service_name environ attrs localtime str_other str_mod).
Local Abbreviation payload_of' :=
  (payload_of default_service_name environ attrs localtime str_other str_mod).
Local Abbreviation format' :=
  (format default_service_name environ attrs localtime str_other str_mod).

(** The line of a logging call without arguments whose [extra] holds
    strings and integers under fresh names: the fixed fields, the name of
    the logger and the [extra], whatever the instrumentation has set. *)
Lemma instrumented_line c injected extra :
  truthy (lc_args c) = false →
  otel_attributes injected →
  NoDup (Dict.keys extra) →
  Forall (λ item : string * pyvalue,
            extends item ∧ item.1 ≠ "name" ∧ item.1 ≠ "asctime"
            ∧ scalar item.2 = true) extra →
  ∃ record fields text,
    instrumented_makeRecord injected c extra = Ok record
    ∧ fixed_fields' record = Ok fields
    ∧ Dict.get "log.level" fields = Some (PyStr (lc_levelname c))
    ∧ Dict.get "message" fields = Some (PyStr (py_str str_other (lc_msg c)))
    ∧ format' record = Ok text
    ∧ json_loads text
      = Ok (PyDict (fields ++ ("name", PyStr (lc_name c)) :: extra)).
Proof.
  intros Hargs Hinjected Hkeys Hextra.
  destruct (record_factory_shape injected c Hinjected)
    as (added & Hfactory & Hadded & Hnodup).
  assert (∀ key, key ∈ Dict.keys added → Str.startswith "otel" key = true)
    as Hotel.
  { intros key ([k v] & -> & Hin)%list_elem_of_fmap.
    by apply (proj1 (Forall_forall _ _) Hadded) in Hin as [? _]. }
  assert (∀ key value, (key, value) ∈ extra →
            (key ∉ fixed_field_names) ∧ reserved key = false
            ∧ key ≠ "name" ∧ key ≠ "asctime" ∧ scalar value = true)
    as Hitem.
  { intros key value Hin.
    by apply (proj1 (Forall_forall _ _) Hextra) in Hin
      as ([? ?] & ? & ? & ?). }
  set (record := LogRecord_init c ++ added ++ extra).
  assert (instrumented_makeRecord injected c extra = Ok record) as Hrecord.
  { unfold instrumented_makeRecord. rewrite Hfactory.
    rewrite add_extra_fresh; [by rewrite <-app_assoc|done|].
    apply Forall_forall. intros [k v] Hin. cbn [fst].
    destruct (Hitem k v Hin) as (Hfixed & Hres & Hname & Hasc & _). split.
    - cbn. rewrite orb_false_r. apply orb_false_iff.
      split; apply String.eqb_neq; [|done].
      intros ->. apply Hfixed. set_solver.
    - apply contains_false_keys. rewrite keys_app. apply not_elem_of_app.
      split.
      + apply contains_false_keys. by apply init_keys_fresh.
      + intros Hin'%Hotel%otel_reserved. congruence. }
  assert (∃ fields,
            fixed_fields' record = Ok fields
            ∧ Dict.get "log.level" fields = Some (PyStr (lc_levelname c))
            ∧ Dict.get "message" fields
              = Some (PyStr (py_str str_other (lc_msg c))))
    as (fields & Hfields & Hlevel & Hmessage).
  { unfold fixed_fields, formatTime, getMessage, record.
    rewrite (attribute_init c _ "created" (PyFloat (lc_created c))),
      (attribute_init c _ "levelname" (PyStr (lc_levelname c))),
      (attribute_init c _ "msg" (lc_msg c)),
      (attribute_init c _ "args" (lc_args c)),
      (attribute_init c _ "name" (PyStr (lc_name c))) by reflexivity.
    unfold mbind, result_bind, time_arg. rewrite Hargs.
    eexists. split; [reflexivity|]. split; reflexivity. }
  assert (NoDup (Dict.keys record)) as Hdistinct.
  { unfold record. rewrite !keys_app. apply NoDup_app. split_and!.
    - apply (bool_decide_unpack (NoDup (Dict.keys (LogRecord_init c)))).
      by vm_compute.
    - intros key Hinit [Hin|Hin]%elem_of_app.
      + apply Hotel, (otel_not_init c), contains_false_keys in Hin. done.
      + apply list_elem_of_fmap in Hin as ([k v] & -> & Hin).
        destruct (Hitem k v Hin) as (_ & Hres & Hname & _).
        by apply (init_keys_fresh c), contains_false_keys in Hres.
    - apply NoDup_app. split_and!; [done| |done].
      intros key Hin%Hotel%otel_reserved ([k v] & -> & Hin')%list_elem_of_fmap.
      destruct (Hitem k v Hin') as (_ & Hres & _). cbn in *. congruence. }
  assert (extension (list_to_set fixed_field_names) record
          = ("name", PyStr (lc_name c)) :: extra) as Hextension.
  { rewrite extension_filter by exact Hdistinct.
    rewrite (filter_ext_elem _ extends)
      by (intros [k v] _; unfold extends; cbn [fst];
          by rewrite elem_of_list_to_set).
    unfold record. rewrite !filter_app.
    change (filter extends (LogRecord_init c))
      with [("name", PyStr (lc_name c))].
    rewrite filter_none, filter_all; [done| |].
    - apply Forall_forall. intros [k v] Hin.
      destruct (Hitem k v Hin) as (Hfixed & Hres & _). by split.
    - eapply Forall_impl; [exact Hadded|].
      intros [k v] [Hk%otel_reserved _] [_ Hres]. cbn [fst] in *.
      congruence. }
  assert (payload_of' record
          = Ok (fields ++ ("name", PyStr (lc_name c)) :: extra)) as Hpayload.
  { unfold payload_of. rewrite Hfields. unfold mbind, result_bind.
    rewrite merge_loop.
    destruct (fixed_fields_Ok _ _ _ _ _ _ _ _ Hfields)
      as (t & l & m & n & ->).
    by rewrite <-Hextension. }
  assert (Forall (λ item : string * pyvalue, scalar item.2 = true)
            (fields ++ ("name", PyStr (lc_name c)) :: extra)) as Hscalar.
  { assert (∀ name, Dict.get name (LogRecord_init c) = None →
              scalar (getattr record name (PyStr "")) = true) as Hattr.
    { intros name Hinit. unfold getattr, record.
      rewrite get_app, Hinit, get_app.
      destruct (Dict.get name added) as [v|] eqn:Hget.
      - apply get_elem in Hget.
        by apply (proj1 (Forall_forall _ _) Hadded) in Hget as [_ ?].
      - destruct (Dict.get name extra) as [v|] eqn:Hget'; [|done].
        apply get_elem in Hget'.
        by destruct (Hitem name v Hget') as (_ & _ & _ & _ & ?). }
    apply Forall_app. split; [|constructor; [done|]].
    - destruct (fixed_fields_inv _ _ _ _ _ _ _ _ Hfields)
        as (t & l & m & n & Hl & Hn & ->).
      unfold record in Hl, Hn.
      rewrite (attribute_init c _ "levelname" (PyStr (lc_levelname c)))
        in Hl by done.
      rewrite (attribute_init c _ "name" (PyStr (lc_name c))) in Hn by done.
      injection Hl as <-. injection Hn as <-.
      repeat (constructor; [try done|]); [by apply Hattr..| |].
      + cbn [snd]. unfold service_name_of, py_or.
        destruct (truthy (getattr record "otelServiceName" (PyStr "")));
          [by apply Hattr|done].
      + constructor.
    - apply Forall_forall. intros [k v] Hin.
      by destruct (Hitem k v Hin) as (_ & _ & _ & _ & ?). }
  destruct (scalar_payload_line (λ q, str_other (PyFloat q))
              (fields ++ ("name", PyStr (lc_name c)) :: extra))
    as (text & Hdumps & Hloads); [|done|].
  { rewrite <-Hextension, keys_app.
    destruct (fixed_fields_Ok _ _ _ _ _ _ _ _ Hfields)
      as (t & l & m & n & ->).
    apply payload_keys_NoDup. }
  exists record, fields, text. split_and!; [done..| |done].
  unfold format. rewrite Hpayload. exact Hdumps.
Qed.

End LoggedLines.

(** The events of the handlers carry strings and integers under names
    that clash with nothing. *)
Lemma handler_event s measured req event :
  logged (handle s measured req).1 = logged s ++ [event] →
  NoDup (Dict.keys (ev_extra event))
  ∧ Forall (λ item : string * pyvalue,
              extends item ∧ item.1 ≠ "name" ∧ item.1 ≠ "asctime"
              ∧ scalar item.2 = true) (ev_extra event).
Proof.
  assert (∀ e : log_event,
            NoDup (Dict.keys (ev_extra e))
            ∧ Forall (λ item : string * pyvalue,
                        extends item ∧ item.1 ≠ "name" ∧ item.1 ≠ "asctime"
                        ∧ scalar item.2 = true) (ev_extra e) →
            logged s ++ [e] = logged s ++ [event] →
            NoDup (Dict.keys (ev_extra event))
            ∧ Forall (λ item : string * pyvalue,
                        extends item ∧ item.1 ≠ "name" ∧ item.1 ≠ "asctime"
                        ∧ scalar item.2 = true) (ev_extra event)) as Hsame.
  { intros e He Heq. apply app_inv_head in Heq. by injection Heq as <-. }
  assert (logged s = logged s ++ [event] → False) as Hnone.
  { intros Heq%(f_equal length). rewrite length_app in Heq. cbn in Heq. lia. }
  assert (∀ key value, extends (key, value) ↔
            bool_decide (extends (key, value)) = true) as Hdec.
  { intros key value. by rewrite bool_decide_eq_true. }
  destruct req as [|[k v]|k|k [k' v]|k| |]; cbn [handle].
  - unfold BackendRoutes.api.
    destruct (redis_incr (redis s) "hits") as [[hits db]|];
      cbn [fst]; [|by intros ?%Hnone].
    apply Hsame. cbn. split.
    + apply (bool_decide_unpack (NoDup ["hits"; "latency_ms"])).
      by vm_compute.
    + repeat constructor; try done; by apply Hdec.
  - apply Hsame. cbn. split.
    + apply (bool_decide_unpack (NoDup ["key"; "latency_ms"])).
      by vm_compute.
    + repeat constructor; try done; by apply Hdec.
  - unfold BackendRoutes.get_item.
    destruct (redis_get (redis s) k); apply Hsame; cbn; split.
    + apply (bool_decide_unpack (NoDup ["key"; "latency_ms"])).
      by vm_compute.
    + repeat constructor; try done; by apply Hdec.
    + apply NoDup_singleton.
    + repeat constructor; try done; by apply Hdec.
  - apply Hsame. cbn. split.
    + apply (bool_decide_unpack (NoDup ["key"; "latency_ms"])).
      by vm_compute.
    + repeat constructor; try done; by apply Hdec.
  - unfold BackendRoutes.delete_item.
    destruct (redis_delete (redis s) k) as [deleted db].
    destruct (deleted =? 0); apply Hsame; cbn; split.
    + apply NoDup_singleton.
    + repeat constructor; try done; by apply Hdec.
    + apply (bool_decide_unpack (NoDup ["key"; "latency_ms"])).
      by vm_compute.
    + repeat constructor; try done; by apply Hdec.
  - apply Hsame. cbn. split.
    + apply NoDup_singleton.
    + repeat constructor; try done; by apply Hdec.
  - by intros ?%Hnone.
Qed.

(** X19.  Every event a handler of the backend logs becomes a record
    ([Logger.makeRecord] accepts its [extra], whatever attributes named
    [otel...] the instrumentation has set) that [format] writes as a line
    of JSON; the line reads back as the twelve fixed fields, with the
    level and the message of the event, followed by the name of the
    logger and by the [extra] of the handler, unchanged. *)
Theorem handler_lines_decode s measured req event site injected
    environ attrs localtime str_other str_mod :
  logged (handle s measured req).1 = logged s ++ [event] →
  otel_attributes injected →
  ∃ record fields text,
    instrumented_makeRecord injected (event_call site "backend" event)
      (ev_extra event) = Ok record
    ∧ fixed_fields "backend" environ attrs localtime str_other str_mod record
      = Ok fields
    ∧ Dict.get "log.level" fields = Some (PyStr (ev_level event))
    ∧ Dict.get "message" fields = Some (PyStr (ev_msg event))
    ∧ backend_format environ attrs localtime str_other str_mod record
      = Ok text
    ∧ json_loads text
      = Ok (PyDict (fields ++ ("name", PyStr "backend") :: ev_extra event)).
Proof.
  intros [Hkeys Hextra]%handler_event Hinjected.
  apply (instrumented_line "backend" environ attrs localtime str_other
           str_mod (event_call site "backend" event) injected
           (ev_extra event)); done.
Qed.

Lemma handler_lines_decode_witness :
  ∃ record fields text,
    instrumented_makeRecord
      [("otelSpanID", PyStr "0"); ("otelTraceID", PyStr "0");
       ("otelTraceSampled", PyBool false);
       ("otelServiceName", PyStr "backend")]
      (event_call api_call "backend"
         (mk_log_event "WARNING" "item not found" [("key", PyStr "alpha")]))
      [("key", PyStr "alpha")] = Ok record
    ∧ fixed_fields "backend" example_environ example_attrs utc no_str no_mod
        record = Ok fields
    ∧ Dict.get "log.level" fields = Some (PyStr "WARNING")
    ∧ Dict.get "message" fields = Some (PyStr "item not found")
    ∧ backend_format example_environ example_attrs utc no_str no_mod record
      = Ok text
    ∧ json_loads text
      = Ok (PyDict (fields ++ [("name", PyStr "backend");
                               ("key", PyStr "alpha")])).
Proof.
  apply (handler_lines_decode fresh_backend 5 (GetItem "alpha")
           (mk_log_event "WARNING" "item not found" [("key", PyStr "alpha")])
           api_call
           [("otelSpanID", PyStr "0"); ("otelTraceID", PyStr "0");
            ("otelTraceSampled", PyBool false);
            ("otelServiceName", PyStr "backend")]
           example_environ example_attrs utc no_str no_mod).
  - reflexivity.
  - repeat constructor.
Defined.

(** X20.  The resource attributes are read once: setting the variable
    [OTEL_RESOURCE_ATTRIBUTES] to another value, or unsetting it, after
    the module was loaded changes nothing of what [format] returns or
    raises; the fields come from the constant computed at load time. *)
Theorem resource_variable_read_once default_service_name environ attrs
    localtime str_other str_mod record raw :
  format default_service_name
    (<["OTEL_RESOURCE_ATTRIBUTES" := raw]> environ) attrs localtime
    str_other str_mod record
  = format default_service_name environ attrs localtime str_other str_mod
      record
  ∧ format default_service_name (delete "OTEL_RESOURCE_ATTRIBUTES" environ)
      attrs localtime str_other str_mod record
    = format default_service_name environ attrs localtime str_other str_mod
        record.
Proof.
  unfold format, payload_of, fixed_fields, service_name_of, getenv.
  by rewrite !lookup_insert_ne, !lookup_delete_ne by done.
Qed.

(** X21.  The formatters of the two services differ by the default of
    the service name only: they return the same line (or raise the same
    exception) whenever [OTEL_SERVICE_NAME] is set or the record carries a
    service name of its own. *)
Theorem formatters_agree environ attrs localtime str_other str_mod record :
  is_Some (environ !! "OTEL_SERVICE_NAME")
  ∨ truthy (getattr record "otelServiceName" (PyStr "")) = true →
  backend_format environ attrs localtime str_other str_mod record
  = frontend_format environ attrs localtime str_other str_mod record.
Proof.
  intros Hnamed.
  assert (service_name_of "backend" environ record
          = service_name_of "frontend" environ record) as Hname.
  { unfold service_name_of, py_or, getenv.
    destruct Hnamed as [[name ->]| ->]; done. }
  unfold backend_format, frontend_format, format, payload_of, fixed_fields.
  by rewrite Hname.
Qed.

Lemma formatters_agree_witness :
  backend_format example_environ example_attrs utc no_str no_mod traced_record
  = frontend_format example_environ example_attrs utc no_str no_mod
      traced_record.
Proof.
  apply (formatters_agree example_environ example_attrs utc no_str no_mod
           traced_record).
  right. reflexivity.
Defined.

(** ** From the environment to the line *)

(** X22.  A resource attribute reaches the log: when the variable
    [OTEL_RESOURCE_ATTRIBUTES] the module is loaded with ends with a
    definition of [service.version], [service.namespace] or
    [deployment.environment], every payload carries the trimmed value of
    that definition under that key, whatever the variable defines
    before. *)
Theorem resource_attribute_in_line environ raw key value attrs
    localtime str_other str_mod record payload :
  key ∈ ["service.version"; "service.namespace"; "deployment.environment"] →
  Str.contains "," value = false →
  environ !! "OTEL_RESOURCE_ATTRIBUTES"
  = Some (raw +:+ "," +:+ key +:+ "=" +:+ value) →
  Backend.RESOURCE_ATTRS environ = Ok attrs →
  payload_of "backend" environ attrs localtime str_other str_mod record
  = Ok payload →
  Dict.get key payload = Some (PyStr (Str.strip value)).
Proof.
  intros Hkey Hvalue Henv Hattrs Hpayload.
  assert (Str.contains "," key = false ∧ Str.contains "=" key = false
          ∧ Str.strip key = key ∧ key ∈ fixed_field_names)
    as (Hk1 & Hk2 & Hk3 & Hfixed).
  { repeat (apply elem_of_cons in Hkey as [->|Hkey];
            [split_and!; [reflexivity..|set_solver]|]).
    by apply elem_of_nil in Hkey. }
  assert (attrs !! key = Some (Str.strip value)) as Hlookup.
  { unfold Backend.RESOURCE_ATTRS, getenv in Hattrs. rewrite Henv in Hattrs.
    rewrite backend_parse_spec in Hattrs. injection Hattrs as <-.
    change (raw +:+ "," +:+ key +:+ "=" +:+ value)
      with (raw +:+ String "," (key +:+ String "=" value)).
    rewrite spec_parse_app, spec_parse_pair, Hk3 by done.
    apply lookup_union_Some_l, lookup_singleton_eq. }
  destruct (payload_of_Ok _ _ _ _ _ _ _ _ Hpayload) as (fields & Hf & _ & _).
  rewrite (payload_get_fixed _ _ _ _ _ _ _ _ _ _ Hpayload Hf Hfixed).
  destruct (fixed_fields_Ok _ _ _ _ _ _ _ _ Hf) as (t & l & m & n & ->).
  repeat (apply elem_of_cons in Hkey as [->|Hkey];
          [cbn; by rewrite Hlookup|]).
  by apply elem_of_nil in Hkey.
Qed.

Lemma resource_attribute_in_line_witness :
  Dict.get "service.version" traced_payload = Some (PyStr "1.2").
Proof.
  apply (resource_attribute_in_line
           (<["OTEL_RESOURCE_ATTRIBUTES" :=
                "deployment.environment=prod, service.version=0.9"
                +:+ "," +:+ "service.version" +:+ "=" +:+ " 1.2 "]>
              example_environ)
           "deployment.environment=prod, service.version=0.9"
           "service.version" " 1.2 " {[ "service.version" := "1.2";
                                        "deployment.environment" := "prod" ]}
           utc no_str no_mod traced_record traced_payload).
  - set_solver.
  - reflexivity.
  - reflexivity.
  - reflexivity.
  - reflexivity.
Defined.

(** ** [index] of the frontend *)

(** X23.  [index] counts the request before it reads the answer: the
    counter of the route [/] goes up by one whatever the backend sent,
    but an event is logged only when the answer is a JSON object, and
    then exactly one, with the [hits] of the object ([None] when it has
    none); when [index] raises, nothing is logged. *)
Theorem index_counts_first str_other fe json elapsed_ms :
  let result := FrontendIndex.index str_other fe json elapsed_ms in
  fe_request_counter result.1
  = <["/" := default 0 (fe_request_counter fe !! "/") + 1]>
      (fe_request_counter fe)
  ∧ match result.2 with
    | Raise _ =>
        fe_logged result.1 = fe_logged fe
        ∧ ∀ items, json ≠ Ok (PyDict items)
    | Ok _ =>
        ∃ items,
          json = Ok (PyDict items)
          ∧ fe_logged result.1
            = fe_logged fe
              ++ [mk_log_event "INFO" "frontend index"
                    [("backend_hits", default PyNone (Dict.get "hits" items));
                     ("latency_ms", PyInt elapsed_ms)]]
    end.
Proof.
  unfold FrontendIndex.index.
  destruct json as [data|e]; cbn; [|by split].
  destruct data; cbn; try (by split); [].
  split; [done|]. by eexists.
Qed.

(** X24.  The page of [index] shows the count of the backend: with a
    database that started without the key [hits], the page gives the
    number of requests to [/api] served so far, the one of [index]
    included, together with the message of the backend and the time
    measured. *)
Theorem index_shows_hits str_other fe be reqs measured elapsed_ms :
  redis be !! "hits" = None →
  Forall leaves_hits reqs →
  api_requests reqs < LLONG_MAX →
  (FrontendIndex.index_served str_other fe (serve be reqs) measured
     elapsed_ms).2
  = Ok ("<h1>Frontend</h1><p>Backend message: hello from backend</p>"
        +:+ "<p>DB hits: " +:+ pretty (api_requests reqs + 1) +:+ "</p>"
        +:+ "<p>Latency: " +:+ pretty elapsed_ms +:+ "ms</p>").
Proof.
  intros Hnone Hreqs Hmax.
  assert (stored_hits be 0) as Hstored by (unfold stored_hits; by rewrite Hnone).
  pose proof (serve_stored_hits be reqs 0 Hstored) as Hafter.
  rewrite Z.add_0_l in Hafter.
  assert (0 ≤ api_requests reqs) by (unfold api_requests; lia).
  destruct (api_step (serve be reqs) measured (api_requests reqs))
    as [Hanswer _].
  { apply Hafter; done. }
  { unfold LLONG_MIN. lia. }
  unfold FrontendIndex.index_served. cbn [handle].
  destruct (BackendRoutes.api (serve be reqs) measured) as [be' answer].
  cbn [snd] in Hanswer. subst answer. reflexivity.
Qed.

Lemma index_shows_hits_witness :
  (FrontendIndex.index_served no_str
     {| fe_request_counter := ∅; fe_logged := [] |}
     (serve fresh_backend [(10, GetApi); (5, GetItem "alpha")]) 11 14).2
  = Ok ("<h1>Frontend</h1><p>Backend message: hello from backend</p>"
        +:+ "<p>DB hits: " +:+ "2" +:+ "</p>"
        +:+ "<p>Latency: " +:+ "14" +:+ "ms</p>").
Proof.
  apply (index_shows_hits no_str {| fe_request_counter := ∅; fe_logged := [] |}
           fresh_backend [(10, GetApi); (5, GetItem "alpha")] 11 14).
  - reflexivity.
  - repeat (constructor; [first [by left|by right]|]). constructor.
  - reflexivity.
Defined.

(** X25.  When the item [hits] holds a text that is no integer, [index]
    fails on the answer of the backend: it raises the error of
    [response.json()], the frontend has counted the request and logged
    nothing, and the backend is left as it was. *)
Theorem index_fails_on_text str_other fe be value measured elapsed_ms :
  redis be !! "hits" = Some value →
  string2ll value = None →
  FrontendIndex.index_served str_other fe be measured elapsed_ms
  = (FrontendIndex.count "/" fe, be, Raise ValueError).
Proof.
  intros Hhits Hvalue. unfold FrontendIndex.index_served. cbn [handle].
  unfold BackendRoutes.api, redis_incr. by rewrite Hhits, Hvalue.
Qed.

Lemma index_fails_on_text_witness :
  FrontendIndex.index_served no_str
    {| fe_request_counter := ∅; fe_logged := [] |}
    (handle fresh_backend 9 (PostItem ("hits", "many"))).1 10 12
  = (FrontendIndex.count "/" {| fe_request_counter := ∅; fe_logged := [] |},
     (handle fresh_backend 9 (PostItem ("hits", "many"))).1,
     Raise ValueError).
Proof.
  apply (index_fails_on_text no_str
           {| fe_request_counter := ∅; fe_logged := [] |}
           (handle fresh_backend 9 (PostItem ("hits", "many"))).1
           "many" 10 12); reflexivity.
Defined.

(** ** Events logged while no span is active *)

Lemma no_span_factory service_name c :
  record_factory (no_span_attributes service_name) c
  = LogRecord_init c ++ no_span_attributes service_name.
Proof. reflexivity. Qed.

(** C7.  For every log event built while no span is active, the fields
    [trace.id] and [span.id] are the text ["0"]: the record factory of the
    logging instrumentation (line 59 of [backend/main.py], 57 of
    [frontend/main.py]) sets [otelTraceID] and [otelSpanID] to ["0"] on
    every such record, the [extra] of the call cannot replace them, and
    [format] copies them unchanged. *)
Theorem no_span_ids_zero default_service_name environ attrs localtime
    str_other str_mod service_name c extra record payload :
  instrumented_makeRecord (no_span_attributes service_name) c extra
  = Ok record →
  payload_of default_service_name environ attrs localtime str_other str_mod
    record = Ok payload →
  Dict.get "trace.id" payload = Some (PyStr "0")
  ∧ Dict.get "span.id" payload = Some (PyStr "0").
Proof.
  unfold instrumented_makeRecord. rewrite no_span_factory.
  intros ->%add_extra_loop (fields & Hf & Hkeys & ->)%payload_of_Ok.
  destruct (fixed_fields_Ok _ _ _ _ _ _ _ _ Hf) as (t & l & m & n & ->).
  rewrite !get_app. cbn [Dict.get String.eqb Ascii.eqb Bool.eqb].
  unfold getattr. rewrite <-app_assoc, !get_app. by split.
Qed.

Lemma no_span_ids_zero_witness :
  instrumented_makeRecord (no_span_attributes "backend") api_call api_extra
  = Ok no_span_record
  ∧ payload_of "backend" example_environ example_attrs utc no_str no_mod
      no_span_record = Ok no_span_payload
  ∧ Dict.get "trace.id" no_span_payload = Some (PyStr "0")
  ∧ Dict.get "span.id" no_span_payload = Some (PyStr "0").
Proof.
  split; [reflexivity|]. split; [by vm_compute|].
  apply (no_span_ids_zero "backend" example_environ example_attrs utc no_str
           no_mod "backend" api_call api_extra no_span_record
           no_span_payload); [reflexivity|by vm_compute].
Defined.

(** The record of the call of [api] made while no span is active: neither
    field of its payload is empty. *)
Lemma no_span_ids_not_empty :
  instrumented_makeRecord (no_span_attributes "backend") api_call api_extra
  = Ok no_span_record
  ∧ payload_of "backend" example_environ example_attrs utc no_str no_mod
      no_span_record = Ok no_span_payload
  ∧ Dict.get "trace.id" no_span_payload ≠ Some (PyStr "")
  ∧ Dict.get "span.id" no_span_payload ≠ Some (PyStr "").
Proof.
  split; [reflexivity|]. split; [by vm_compute|]. by split.
Qed.
